(** * civilrightsalert: the normalisation core of the request handlers

    A shallow embedding of the decision logic of the Netlify functions
    (get-bills, state-bills, city-council) and the properties their
    specification states about it.

    Conventions of the embedding:
    - a JavaScript string is a [string] of 8-bit characters; [toLowerCase],
      [toUpperCase] and [trim] act on the ASCII range;
    - a JavaScript number is an integer ([Z]) or [NaN] where the code only
      meets integers, and a rational where it takes a floor;
    - a field of a JSON record is a [jsval]; a missing field is
      [JUndefined];
    - code that can throw returns a [result]. *)

From Stdlib Require Import ZArith List String Ascii Bool Lia.
From Stdlib Require Import DecimalString DecimalPos Sorted Permutation.
From Stdlib Require Import QArith Qround.
Import ListNotations.

Open Scope list_scope.
Open Scope string_scope.
Open Scope Z_scope.

Set Implicit Arguments.

(* ================================================================== *)
(** * JavaScript strings *)

(** Strings are sequences of one-byte characters.  On ASCII text (codes
    below 128) the functions of this module are those of the code; the
    case maps leave every other character as it is and [trim] removes
    ASCII white space only, which is not what the code does on text
    outside ASCII. *)
Module JsString.

Definition is_upper (c : ascii) : bool :=
  let n := nat_of_ascii c in (65 <=? n)%nat && (n <=? 90)%nat.

Definition is_lower (c : ascii) : bool :=
  let n := nat_of_ascii c in (97 <=? n)%nat && (n <=? 122)%nat.

Definition is_digit (c : ascii) : bool :=
  let n := nat_of_ascii c in (48 <=? n)%nat && (n <=? 57)%nat.

Definition lower_char (c : ascii) : ascii :=
  if is_upper c then ascii_of_nat (nat_of_ascii c + 32) else c.

Definition upper_char (c : ascii) : ascii :=
  if is_lower c then ascii_of_nat (nat_of_ascii c - 32) else c.

Fixpoint map_chars (f : ascii -> ascii) (s : string) : string :=
  match s with
  | EmptyString => EmptyString
  | String c s' => String (f c) (map_chars f s')
  end.

(** [s.toLowerCase()] and [s.toUpperCase()]. *)
Definition toLowerCase (s : string) : string := map_chars lower_char s.
Definition toUpperCase (s : string) : string := map_chars upper_char s.

Fixpoint filter_chars (p : ascii -> bool) (s : string) : string :=
  match s with
  | EmptyString => EmptyString
  | String c s' => if p c then String c (filter_chars p s')
                   else filter_chars p s'
  end.

Fixpoint all_chars (p : ascii -> bool) (s : string) : bool :=
  match s with
  | EmptyString => true
  | String c s' => p c && all_chars p s'
  end.

(** [s.includes(sub)]: [sub] occurs in [s] as a contiguous substring. *)
Fixpoint includes (s sub : string) : bool :=
  if prefix sub s then true
  else match s with
       | EmptyString => false
       | String _ s' => includes s' sub
       end.

(** White space removed by [trim] (the ASCII part of it). *)
Definition is_space (c : ascii) : bool :=
  let n := nat_of_ascii c in
  (n =? 32)%nat || ((9 <=? n)%nat && (n <=? 13)%nat).

(** Drop the leading, respectively trailing, characters satisfying [p]. *)
Fixpoint strip_start (p : ascii -> bool) (s : string) : string :=
  match s with
  | EmptyString => EmptyString
  | String c s' => if p c then strip_start p s' else s
  end.

Fixpoint strip_end (p : ascii -> bool) (s : string) : string :=
  match s with
  | EmptyString => EmptyString
  | String c s' =>
      match strip_end p s' with
      | EmptyString => if p c then EmptyString else String c EmptyString
      | t => String c t
      end
  end.

(** [s.trim()]. *)
Definition trim (s : string) : string :=
  strip_end is_space (strip_start is_space s).

(** The part of [s] before the first character satisfying [p], and the
    rest (which starts with that character). *)
Fixpoint break_at (p : ascii -> bool) (s : string) : string * string :=
  match s with
  | EmptyString => (EmptyString, EmptyString)
  | String c s' =>
      if p c then (EmptyString, s)
      else let (a, b) := break_at p s' in (String c a, b)
  end.

(** [s.split(sep)] for a one-character separator. *)
Fixpoint split (sep : ascii) (s : string) : list string :=
  match s with
  | EmptyString => [EmptyString]
  | String c s' =>
      if Ascii.eqb c sep then EmptyString :: split sep s'
      else match split sep s' with
           | x :: xs => String c x :: xs
           | [] => [String c EmptyString]
           end
  end.

Definition nonempty (s : string) : bool :=
  match s with EmptyString => false | _ => true end.

(** [arr.indexOf(x)] on an array of strings, [-1] when absent. *)
Fixpoint indexOf (x : string) (l : list string) : Z :=
  match l with
  | [] => -1
  | y :: l' => if String.eqb y x then 0
               else let i := indexOf x l' in
                    if i <? 0 then -1 else i + 1
  end.

(** [arr[i]] for an integer index. *)
Definition at_index (l : list string) (i : Z) : option string :=
  if i <? 0 then None else nth_error l (Z.to_nat i).

(** Decimal rendering of an integer, as [String(n)] gives it. *)
Definition of_Z (z : Z) : string := NilEmpty.string_of_int (Z.to_int z).

End JsString.

(* ================================================================== *)
(** * JavaScript values, numbers and exceptions *)

Module Js.
Import JsString.

(** The values a JSON field (or a property read from an object literal)
    can hold.  [JFun name] is a built-in function, [JObj] a plain
    object.  Numbers are integers. *)
Inductive jsval : Type :=
| JUndefined
| JNull
| JBool (b : bool)
| JNum (n : Z)
| JStr (s : string)
| JObj
| JFun (name : string).

(** The result of [Number(v)] and of [%]. *)
Inductive jsnum : Type :=
| NaN
| Int (z : Z).

Inductive jserror : Type :=
| TypeError (msg : string)
| Error (msg : string).

Inductive result (A : Type) : Type :=
| Ok (a : A)
| Throw (e : jserror).
Arguments Ok {A} a.
Arguments Throw {A} e.

Definition bind {A B} (r : result A) (k : A -> result B) : result B :=
  match r with
  | Ok a => k a
  | Throw e => Throw e
  end.

(** [try { body } catch { handler }]. *)
Definition try_catch {A} (body : result A) (handler : jserror -> A) : A :=
  match body with
  | Ok a => a
  | Throw e => handler e
  end.

Definition is_ok {A} (r : result A) : bool :=
  match r with Ok _ => true | Throw _ => false end.

(** ToBoolean. *)
Definition truthy (v : jsval) : bool :=
  match v with
  | JUndefined | JNull => false
  | JBool b => b
  | JNum n => negb (n =? 0)
  | JStr s => nonempty s
  | JObj | JFun _ => true
  end.

(** [a || b]. *)
Definition or_else (a b : jsval) : jsval := if truthy a then a else b.

(** ToString, as [String(v)] and template literals apply it. *)
Definition ToString (v : jsval) : string :=
  match v with
  | JUndefined => "undefined"
  | JNull => "null"
  | JBool true => "true"
  | JBool false => "false"
  | JNum n => of_Z n
  | JStr s => s
  | JObj => "[object Object]"
  | JFun name => "function " ++ name ++ "() { [native code] }"
  end.

Fixpoint digits_value (acc : Z) (s : string) : Z :=
  match s with
  | EmptyString => acc
  | String c s' =>
      digits_value (10 * acc + Z.of_nat (nat_of_ascii c - 48)) s'
  end.

Definition unsigned_literal (s : string) : jsnum :=
  if nonempty s && all_chars is_digit s then Int (digits_value 0 s)
  else NaN.

(** [Number(s)] on a string: white space is trimmed, the empty string is
    [0], an optionally signed run of decimal digits is its value, which
    is the number of the code up to 2^53 - 1 in magnitude (beyond, the
    code rounds).  Other spellings of a number (fraction, exponent, radix
    prefix, Infinity) give the code a number that is no integer of this
    model; they are read as [NaN] here, and no statement is about such a
    string. *)
Definition StringToNumber (s : string) : jsnum :=
  match trim s with
  | EmptyString => Int 0
  | String "-" r =>
      match unsigned_literal r with Int z => Int (- z) | NaN => NaN end
  | String "+" r => unsigned_literal r
  | t => unsigned_literal t
  end.

(** The largest integer up to which every integer is a number of the
    code ([Number.MAX_SAFE_INTEGER], 2^53 - 1).  Numbers are modelled as
    mathematical integers: between [- MAX_SAFE_INTEGER] and
    [MAX_SAFE_INTEGER] the conversions and the arithmetic of this module
    are those of the code; beyond, the code rounds and this model does
    not. *)
Definition MAX_SAFE_INTEGER : Z := 9007199254740991.

(** [Number(v)]. *)
Definition Number (v : jsval) : jsnum :=
  match v with
  | JUndefined => NaN
  | JNull => Int 0
  | JBool true => Int 1
  | JBool false => Int 0
  | JNum n => Int n
  | JStr s => StringToNumber s
  | JObj | JFun _ => NaN
  end.

(** [a % m]: the remainder takes the sign of the dividend. *)
Definition rem (a : jsnum) (m : Z) : jsnum :=
  match a with NaN => NaN | Int z => Int (Z.rem z m) end.

Definition geb (a : jsnum) (k : Z) : bool :=
  match a with NaN => false | Int z => k <=? z end.

Definition leb (a : jsnum) (k : Z) : bool :=
  match a with NaN => false | Int z => z <=? k end.

(** [a === k]. *)
Definition strict_eqb (a : jsnum) (k : Z) : bool :=
  match a with NaN => false | Int z => z =? k end.

(** [num + "..."]: the number rendered as a string; the decimal form
    is that of the code for integers below 10^21 that the number holds
    exactly, so up to [MAX_SAFE_INTEGER]. *)
Definition NumberToString (a : jsnum) : string :=
  match a with NaN => "NaN" | Int z => of_Z z end.

(** [v.toLowerCase()]: only strings have the method. *)
Definition call_toLowerCase (v : jsval) : result string :=
  match v with
  | JStr s => Ok (toLowerCase s)
  | JUndefined | JNull =>
      Throw (TypeError "Cannot read properties of undefined")
  | _ => Throw (TypeError "toLowerCase is not a function")
  end.

(** Property names every object literal inherits from [Object.prototype]. *)
Definition Object_prototype_functions : list string :=
  [ "constructor"; "hasOwnProperty"; "isPrototypeOf";
    "propertyIsEnumerable"; "toLocaleString"; "toString"; "valueOf";
    "__defineGetter__"; "__defineSetter__";
    "__lookupGetter__"; "__lookupSetter__" ].

Definition Object_prototype_get (key : string) : jsval :=
  if String.eqb key "constructor" then JFun "Object"
  else if String.eqb key "__proto__" then JObj
  else if existsb (String.eqb key) Object_prototype_functions
       then JFun key
  else JUndefined.

Fixpoint own_get {A : Type} (own : list (string * A)) (key : string)
  : option A :=
  match own with
  | [] => None
  | (k, v) :: own' => if String.eqb k key then Some v else own_get own' key
  end.

(** [obj[key]] on an object literal with string-valued own properties:
    an own property first, then the prototype. *)
Definition obj_get (own : list (string * string)) (key : string) : jsval :=
  match own_get own key with
  | Some v => JStr v
  | None => Object_prototype_get key
  end.

(** [v === "s"]. *)
Definition is_string (v : jsval) (s : string) : bool :=
  match v with JStr x => String.eqb x s | _ => false end.

Definition message (e : jserror) : string :=
  match e with TypeError m | Error m => m end.

(** [String(err)] of a thrown error. *)
Definition error_string (e : jserror) : string :=
  match e with
  | TypeError m => "TypeError: " ++ m
  | Error m => "Error: " ++ m
  end.

(** [arr.slice(start, stop)]. *)
Definition slice {A : Type} (l : list A) (start stop : Z) : list A :=
  let len := Z.of_nat (List.length l) in
  let k := if start <? 0 then Z.max (len + start) 0 else Z.min start len in
  let final := if stop <? 0 then Z.max (len + stop) 0 else Z.min stop len in
  firstn (Z.to_nat (final - k)) (skipn (Z.to_nat k) l).

(** [arr[i]] on an array of strings: [undefined] out of range. *)
Definition array_get (l : list string) (i : Z) : jsval :=
  match at_index l i with
  | Some s => JStr s
  | None => JUndefined
  end.

End Js.

Declare Scope js_scope.
Delimit Scope js_scope with js.
Notation "x <- r ;; k" := (Js.bind r (fun x => k))
  (at level 61, r at next level, right associativity) : js_scope.

(* ================================================================== *)
(** * The URL constructor

    [new URL(s).pathname] for an absolute URL whose scheme is one of
    http, https, ws, wss and ftp, after the WHATWG URL standard: the input
    is stripped of surrounding control characters and spaces, tabs and
    newlines are removed, slashes after the scheme are skipped, the
    authority runs up to the next slash, question mark or hash, the path
    runs up to the next question mark or hash, a backslash counts as a
    slash, dot segments are resolved and the characters of the path
    percent-encode set are encoded (the caret, which only recent versions
    of the standard encode, is kept).  The host is a run of letters, digits,
    dots and hyphens with an optional port and is not interpreted further
    (so a host ending in a number that is no IPv4 address, which the
    constructor rejects, is accepted here).
    [None] is the [TypeError] the constructor throws, which it does for
    every string that has no scheme; strings with another scheme or
    another form of authority are outside this model and read as [None]
    too. *)

Module Url.
Import JsString.

Definition is_alpha (c : ascii) : bool := is_upper c || is_lower c.

Definition is_c0_or_space (c : ascii) : bool :=
  (nat_of_ascii c <=? 32)%nat.

Definition is_tab_or_newline (c : ascii) : bool :=
  let n := nat_of_ascii c in
  (n =? 9)%nat || (n =? 10)%nat || (n =? 13)%nat.

Definition is_scheme_char (c : ascii) : bool :=
  is_alpha c || is_digit c
  || Ascii.eqb c "+" || Ascii.eqb c "-" || Ascii.eqb c ".".

Definition is_slash (c : ascii) : bool :=
  Ascii.eqb c "/" || Ascii.eqb c "\".

Definition ends_authority (c : ascii) : bool :=
  is_slash c || Ascii.eqb c "?" || Ascii.eqb c "#".

Definition ends_path (c : ascii) : bool :=
  Ascii.eqb c "?" || Ascii.eqb c "#".

Definition is_host_char (c : ascii) : bool :=
  is_alpha c || is_digit c || Ascii.eqb c "." || Ascii.eqb c "-".

Definition special_schemes : list string :=
  ["http"; "https"; "ws"; "wss"; "ftp"].

(** The scheme (before the first colon) and what follows the colon. *)
Definition scheme_of (s : string) : option (string * string) :=
  match s with
  | EmptyString => None
  | String c _ =>
      if is_alpha c then
        match break_at (fun x => negb (is_scheme_char x)) s with
        | (sch, String ":" rest) => Some (toLowerCase sch, rest)
        | _ => None
        end
      else None
  end.

Definition valid_authority (a : string) : bool :=
  let (host, port) := break_at (Ascii.eqb ":") a in
  nonempty host && all_chars is_host_char host
  && match port with
     | EmptyString => true
     | String _ digits =>
         all_chars is_digit digits && (Js.digits_value 0 digits <=? 65535)
     end.

Definition hex_digit (n : nat) : ascii :=
  if (n <? 10)%nat then ascii_of_nat (48 + n) else ascii_of_nat (55 + n).

(** The quotation mark, code 34. *)
Definition double_quote : ascii := ascii_of_nat 34.

Definition in_path_encode_set (c : ascii) : bool :=
  let n := nat_of_ascii c in
  (n <=? 32)%nat || (127 <=? n)%nat
  || existsb (Ascii.eqb c) [double_quote; "<"; ">"; "`"; "{"; "}"]%char.

Fixpoint percent_encode (s : string) : string :=
  match s with
  | EmptyString => EmptyString
  | String c s' =>
      if in_path_encode_set c then
        let n := nat_of_ascii c in
        String "%" (String (hex_digit (n / 16))
                      (String (hex_digit (n mod 16)) (percent_encode s')))
      else String c (percent_encode s')
  end.

Definition is_single_dot (seg : string) : bool :=
  existsb (String.eqb (toLowerCase seg)) ["."; "%2e"].

Definition is_double_dot (seg : string) : bool :=
  existsb (String.eqb (toLowerCase seg)) [".."; ".%2e"; "%2e."; "%2e%2e"].

(** The path state of the parser: [acc] holds the segments kept so far,
    last one first. *)
Fixpoint path_segments (acc segs : list string) : list string :=
  match segs with
  | [] => rev acc
  | seg :: rest =>
      let last := match rest with [] => true | _ => false end in
      if is_double_dot seg then
        path_segments (if last then EmptyString :: tl acc else tl acc) rest
      else if is_single_dot seg then
        path_segments (if last then EmptyString :: acc else acc) rest
      else path_segments (percent_encode seg :: acc) rest
  end.

Fixpoint join_path (segs : list string) : string :=
  match segs with
  | [] => EmptyString
  | seg :: rest => String "/" (seg ++ join_path rest)
  end.

Definition backslash_to_slash (c : ascii) : ascii :=
  if Ascii.eqb c "\" then "/"%char else c.

Definition path_of (rest : string) : string :=
  let p := fst (break_at ends_path rest) in
  let p := match p with String _ p' => p' | EmptyString => EmptyString end in
  join_path (path_segments [] (split "/" (map_chars backslash_to_slash p))).

(** [new URL(s).pathname], [None] when the constructor throws. *)
Definition pathname (s : string) : option string :=
  let s := strip_end is_c0_or_space (strip_start is_c0_or_space s) in
  let s := filter_chars (fun c => negb (is_tab_or_newline c)) s in
  match scheme_of s with
  | Some (sch, rest) =>
      if existsb (String.eqb sch) special_schemes then
        let (auth, rest') := break_at ends_authority (strip_start is_slash rest) in
        if valid_authority auth then Some (path_of rest') else None
      else None
  | None => None
  end.

(** [new URL(s)] as far as the handlers use it. *)
Definition new_URL (s : string) : Js.result string :=
  match pathname s with
  | Some p => Js.Ok p
  | None => Js.Throw (Js.TypeError "Invalid URL")
  end.

End Url.

(* ================================================================== *)
(** * get-bills: ordinal suffix, public URL, bill stage *)

Module GetBills.
Import JsString Js.
Local Open Scope js_scope.

(** Bill type codes of the API and their Congress.gov URL slugs. *)
Definition TYPE_MAP : list (string * string) :=
  [ ("hr",      "house-bill");
    ("s",       "senate-bill");
    ("hjres",   "house-joint-resolution");
    ("sjres",   "senate-joint-resolution");
    ("hconres", "house-concurrent-resolution");
    ("sconres", "senate-concurrent-resolution");
    ("hres",    "house-resolution");
    ("sres",    "senate-resolution") ].

Definition ordinalSuffix (n : jsval) : string :=
  let num := Number n in
  let mod100 := rem num 100 in
  if geb mod100 11 && leb mod100 13 then NumberToString num ++ "th"
  else
    let mod10 := rem num 10 in
    if strict_eqb mod10 1 then NumberToString num ++ "st"
    else if strict_eqb mod10 2 then NumberToString num ++ "nd"
    else if strict_eqb mod10 3 then NumberToString num ++ "rd"
    else NumberToString num ++ "th".

(** The fields of a bill record that [buildPublicUrl] reads. *)
Record Bill : Type := {
  bill_congress : jsval;
  bill_type : jsval;
  bill_number : jsval;
  bill_url : jsval;
  bill_apiUrl : jsval
}.

Definition host_root : string := "https://www.congress.gov/".

Definition bill_page (ordinal slug num : string) : string :=
  "https://www.congress.gov/bill/" ++ ordinal ++ "-congress/"
    ++ slug ++ "/" ++ num.

(** Only the digits of [number]: [String(number).replace(/[^0-9]/g, "")]. *)
Definition digits_of (number : jsval) : string :=
  filter_chars is_digit (ToString number).

(** The primary path of [buildPublicUrl]: the URL it returns from the
    three fields, [None] when it falls through. *)
Definition primaryUrl (congress : jsval) (type : string) (number : jsval)
  : option string :=
  if truthy congress && nonempty type && truthy number then
    let slug := obj_get TYPE_MAP type in
    if truthy slug then
      let num := digits_of number in
      if nonempty num then
        Some (bill_page (ordinalSuffix congress) (ToString slug) num)
      else None
    else None
  else None.

(** The fallback path up to the three segments it reads after "bill":
    [None] when the path has no such segments. *)
Definition parseBillPath (raw : string)
  : result (option (jsval * string * jsval)) :=
  pathname <- Url.new_URL raw ;;
  let parts := filter nonempty (split "/" pathname) in
  let i := indexOf "bill" parts in
  if (0 <=? i) && (i + 4 <=? Z.of_nat (List.length parts)) then
    let c := array_get parts (i + 1) in
    t <- call_toLowerCase (array_get parts (i + 2)) ;;
    let n := array_get parts (i + 3) in
    Ok (Some (c, t, n))
  else Ok None.

(** The body of the [try] block: the URL it returns, [None] when it
    runs to its end. *)
Definition fallbackUrl (raw : string) : result (option string) :=
  parsed <- parseBillPath raw ;;
  match parsed with
  | Some (c, t, n) =>
      let slug := or_else (obj_get TYPE_MAP t) (JStr (t ++ "-bill")) in
      Ok (Some (bill_page (ordinalSuffix c) (ToString slug) (ToString n)))
  | None => Ok None
  end.

Definition buildPublicUrl (bill : Bill) : result string :=
  let congress := or_else (bill_congress bill) (JStr "") in
  type <- call_toLowerCase (or_else (bill_type bill) (JStr "")) ;;
  let number := or_else (bill_number bill) (JStr "") in
  match primaryUrl congress type number with
  | Some u => Ok u
  | None =>
      let raw :=
        or_else (bill_url bill) (or_else (bill_apiUrl bill) (JStr "")) in
      match try_catch (fallbackUrl (ToString raw)) (fun _ => None) with
      | Some u => Ok u
      | None => Ok host_root
      end
  end.

Record Stage : Type := { display : string; priority : Z }.

Definition deriveBillStage (actionText : jsval) : result Stage :=
  t <- call_toLowerCase (or_else actionText (JStr "")) ;;
  if includes t "became public law" || includes t "signed by president"
     || includes t "enacted" then
    Ok {| display := "Signed Into Law"; priority := 10 |}
  else if includes t "vetoed" then
    Ok {| display := "Vetoed"; priority := 9 |}
  else if includes t "passed house" || includes t "passed senate"
          || includes t "agreed to in" then
    Ok {| display := "Passed Chamber"; priority := 8 |}
  else if includes t "cloture" || includes t "floor consideration"
          || includes t "placed on calendar" then
    Ok {| display := "Floor Vote Pending"; priority := 7 |}
  else if includes t "reported by" || includes t "ordered to be reported" then
    Ok {| display := "Reported by Committee"; priority := 6 |}
  else if includes t "hearing" || includes t "markup" then
    Ok {| display := "Committee Hearing"; priority := 5 |}
  else if includes t "referred to" || includes t "subcommittee" then
    Ok {| display := "In Committee"; priority := 4 |}
  else if includes t "introduced" || includes t "read twice"
          || includes t "sponsor introductory" then
    Ok {| display := "Introduced"; priority := 3 |}
  else Ok {| display := "In Progress"; priority := 3 |}.

(** The stage classifier as section 4.3 of the specification words it:
    an ordered list of keyword groups, the first group with a keyword
    contained in the lower-cased text wins, and a default. *)
Definition spec_stage_rules : list (list string * Stage) :=
  [ (["became public law"; "signed by president"; "enacted"],
     {| display := "Signed Into Law"; priority := 10 |});
    (["vetoed"], {| display := "Vetoed"; priority := 9 |});
    (["passed house"; "passed senate"; "agreed to in"],
     {| display := "Passed Chamber"; priority := 8 |});
    (["cloture"; "floor consideration"; "placed on calendar"],
     {| display := "Floor Vote Pending"; priority := 7 |});
    (["reported by"; "ordered to be reported"],
     {| display := "Reported by Committee"; priority := 6 |});
    (["hearing"; "markup"],
     {| display := "Committee Hearing"; priority := 5 |});
    (["referred to"; "subcommittee"],
     {| display := "In Committee"; priority := 4 |});
    (["introduced"; "read twice"; "sponsor introductory"],
     {| display := "Introduced"; priority := 3 |}) ].

Definition spec_rule_matches (text : string) (rule : list string * Stage)
  : bool :=
  existsb (includes (toLowerCase text)) (fst rule).

Definition spec_stage (text : string) : Stage :=
  match find (spec_rule_matches text) spec_stage_rules with
  | Some rule => snd rule
  | None => {| display := "In Progress"; priority := 3 |}
  end.

End GetBills.

(* ================================================================== *)
(** * state-bills: state resolution and pagination *)

Module StateBills.
Import JsString Js.
Local Open Scope js_scope.

Definition STATE_NAME_TO_ABBR : list (string * string) :=
  [ ("alabama", "AL"); ("alaska", "AK"); ("arizona", "AZ");
    ("arkansas", "AR"); ("california", "CA");
    ("colorado", "CO"); ("connecticut", "CT"); ("delaware", "DE");
    ("florida", "FL"); ("georgia", "GA");
    ("hawaii", "HI"); ("idaho", "ID"); ("illinois", "IL");
    ("indiana", "IN"); ("iowa", "IA");
    ("kansas", "KS"); ("kentucky", "KY"); ("louisiana", "LA");
    ("maine", "ME"); ("maryland", "MD");
    ("massachusetts", "MA"); ("michigan", "MI"); ("minnesota", "MN");
    ("mississippi", "MS"); ("missouri", "MO");
    ("montana", "MT"); ("nebraska", "NE"); ("nevada", "NV");
    ("new hampshire", "NH"); ("new jersey", "NJ");
    ("new mexico", "NM"); ("new york", "NY"); ("north carolina", "NC");
    ("north dakota", "ND"); ("ohio", "OH");
    ("oklahoma", "OK"); ("oregon", "OR"); ("pennsylvania", "PA");
    ("rhode island", "RI"); ("south carolina", "SC");
    ("south dakota", "SD"); ("tennessee", "TN"); ("texas", "TX");
    ("utah", "UT"); ("vermont", "VT");
    ("virginia", "VA"); ("washington", "WA"); ("west virginia", "WV");
    ("wisconsin", "WI"); ("wyoming", "WY");
    ("district of columbia", "DC") ].

Definition normalizeState (input : jsval) : jsval :=
  let s := trim (ToString (or_else input (JStr ""))) in
  if negb (nonempty s) then JStr ""
  else if (String.length s =? 2)%nat then JStr (toUpperCase s)
  else
    let key := toLowerCase s in
    or_else (obj_get STATE_NAME_TO_ABBR key) (JStr "").

(** Numbers of this handler: it takes a floor, so a finite number is a
    rational here. *)
Inductive number : Type :=
| NotANumber
| Infinite (negative : bool)
| Finite (q : Q).

(** A bill of the master list, as far as the handler reads it. *)
Record RawBill : Type := {
  raw_bill_id : jsval;
  raw_id : jsval;
  raw_number : jsval;
  raw_bill_number : jsval;
  raw_bill : jsval;
  raw_title : jsval;
  raw_description : jsval;
  raw_status : jsval;
  raw_status_text : jsval;
  raw_status_detail : jsval;
  raw_url : jsval;
  raw_last_action_date : jsval;
  raw_last_action : jsval;
  raw_introduced_date : jsval
}.

(** A value of the [masterlist] object: a bill object, or anything else
    (the "session" entry is an object too). *)
Inductive entry : Type :=
| EntryObject (b : RawBill)
| EntryValue (v : jsval).

(** The parsed reply of the upstream API. *)
Record Reply : Type := {
  reply_status : jsval;
  reply_masterlist : option (list (string * entry))
}.

Record NormalizedBill : Type := {
  nb_id : string;
  nb_number : jsval;
  nb_title : jsval;
  nb_howItAffectsYou : jsval;
  nb_date : jsval;
  nb_status : jsval;
  nb_statusDisplay : jsval;
  nb_statusPriority : Z;
  nb_url : jsval;
  nb_legiscan_url : jsval;
  nb_state : jsval
}.

Record Pagination : Type := {
  pg_limit : Z;
  pg_offset : Z;
  pg_returned : Z;
  pg_total_estimate : Z
}.

Inductive Body : Type :=
| ErrorBody (error : string)
| BillsBody (bills : list NormalizedBill) (pagination : Pagination).

Record Response : Type := { statusCode : Z; body : Body }.

Record Event : Type := {
  qs_state : jsval;
  qs_limit : jsval;
  qs_offset : jsval
}.

Definition statusPriorityFromStatusText (statusText : jsval) : Z :=
  let t := toLowerCase (ToString (or_else statusText (JStr ""))) in
  if includes t "signed" || includes t "chaptered" || includes t "enacted"
  then 10
  else if includes t "passed" || includes t "adopted" then 8
  else if includes t "on floor" || includes t "third reading"
          || includes t "second reading" then 7
  else if includes t "committee" || includes t "hearing"
          || includes t "referred" then 5
  else 3.

(** [callLegiScan]: the reply of the upstream call, or the error it
    throws when the call fails or the reply is not "OK". *)
Definition callLegiScan (fetched : result Reply) : result Reply :=
  data <- fetched ;;
  if is_string (reply_status data) "OK" then Ok data
  else Throw (Error "LegiScan getMasterList failed").

Definition normalizeBill (stateAbbr : jsval) (b : RawBill) : NormalizedBill :=
  let number :=
    or_else (raw_number b)
      (or_else (raw_bill_number b) (or_else (raw_bill b) (JStr ""))) in
  let title := or_else (raw_title b) (or_else (raw_description b) (JStr "")) in
  let statusText :=
    or_else (raw_status b)
      (or_else (raw_status_text b)
         (or_else (raw_status_detail b) (JStr ""))) in
  let statusPriority := statusPriorityFromStatusText statusText in
  let url := or_else (raw_url b) (JStr "") in
  let date :=
    or_else (raw_last_action_date b)
      (or_else (raw_last_action b)
         (or_else (raw_introduced_date b) (JStr ""))) in
  {| nb_id :=
       ToString (or_else (raw_bill_id b)
                   (or_else (raw_id b) (or_else number url)));
     nb_number := number;
     nb_title := title;
     nb_howItAffectsYou := title;
     nb_date := date;
     nb_status := statusText;
     nb_statusDisplay := or_else statusText (JStr "In progress");
     nb_statusPriority := statusPriority;
     nb_url := url;
     nb_legiscan_url := url;
     nb_state := stateAbbr |}.

(** The bill objects of the master list, the "session" entry left out. *)
Definition billsRaw_of (masterlist : list (string * entry)) : list RawBill :=
  flat_map
    (fun kv =>
       match kv with
       | (k, EntryObject b) => if String.eqb k "session" then [] else [b]
       | (_, EntryValue _) => []
       end)
    masterlist.

Section Handler.

(** [Number(s)] on a string, as the platform computes it. *)
Variable StringToNumber : string -> number.

(** [Number(v)]. *)
Definition Number (v : jsval) : number :=
  match v with
  | JUndefined => NotANumber
  | JNull => Finite 0
  | JBool true => Finite 1
  | JBool false => Finite 0
  | JNum n => Finite (inject_Z n)
  | JStr s => StringToNumber s
  | JObj | JFun _ => NotANumber
  end.

Definition toInt (x : jsval) (dflt : Z) : Z :=
  match Number x with
  | Finite n => if Qle_bool 0 n then Qfloor n else dflt
  | _ => dflt
  end.

(** The handler: [apiKey] is the environment variable, [upstream] the
    outcome of the request to the upstream API for a state. *)
Definition handler (apiKey : option string) (upstream : string -> result Reply)
           (event : Event) : Response :=
  try_catch
    (match apiKey with
     | None | Some EmptyString =>
         Ok {| statusCode := 500;
               body := ErrorBody "Missing LEGISCAN_API_KEY env var in Netlify." |}
     | Some _ =>
         let stateAbbr := normalizeState (qs_state event) in
         if negb (truthy stateAbbr) then
           Ok {| statusCode := 400;
                 body := ErrorBody "Missing/invalid state. Use 'AZ' or 'Arizona'." |}
         else
           let limit := Z.min (toInt (qs_limit event) 50) 200 in
           let offset := toInt (qs_offset event) 0 in
           ml <- callLegiScan (upstream (ToString stateAbbr)) ;;
           let masterlist :=
             match reply_masterlist ml with Some m => m | None => [] end in
           let billsRaw := billsRaw_of masterlist in
           let page := slice billsRaw offset (offset + limit) in
           let bills := map (normalizeBill stateAbbr) page in
           Ok {| statusCode := 200;
                 body :=
                   BillsBody bills
                     {| pg_limit := limit;
                        pg_offset := offset;
                        pg_returned := Z.of_nat (List.length bills);
                        pg_total_estimate := Z.of_nat (List.length billsRaw) |} |}
     end)
    (fun err => {| statusCode := 500; body := ErrorBody (error_string err) |}).

End Handler.

(** A string-to-number conversion for integer literals, to run the
    handler on examples. *)
Definition integer_literals (s : string) : number :=
  match Js.StringToNumber s with
  | NaN => NotANumber
  | Int z => Finite (inject_Z z)
  end.

End StateBills.

(* ================================================================== *)
(** * city-council: verification report, roster, vote tally *)

Module CityCouncil.
Import JsString Js.
Local Open Scope js_scope.

Record CityInfo : Type := {
  client : string;
  state : string;
  population : Z;
  verified : bool;
  verifiedDate : string;
  notes : string
}.

Definition CITY_DATABASE : list (string * CityInfo) :=
  [ ("Phoenix, AZ",
     {| client := "phoenix"; state := "AZ"; population := 1680992;
        verified := true; verifiedDate := "2026-02-23";
        notes := "Full data: members, legislation, meetings, votes" |});
    ("Mesa, AZ",
     {| client := "mesa"; state := "AZ"; population := 504258;
        verified := true; verifiedDate := "2026-02-23";
        notes := "Active portal with agendas and legislation" |});
    ("Apache Junction, AZ",
     {| client := "apachejunction"; state := "AZ"; population := 44632;
        verified := true; verifiedDate := "2026-02-23";
        notes := "Active meeting records from 2016 to present" |});
    ("Goodyear, AZ",
     {| client := "goodyear"; state := "AZ"; population := 101399;
        verified := true; verifiedDate := "2026-02-27";
        notes := "Legistar portal active" |});
    ("Lake Havasu City, AZ",
     {| client := "lakehavasucity"; state := "AZ"; population := 57761;
        verified := true; verifiedDate := "2026-02-27";
        notes := "Legistar portal active" |});
    ("Maricopa, AZ",
     {| client := "maricopa"; state := "AZ"; population := 58722;
        verified := true; verifiedDate := "2026-02-27";
        notes := "Legistar portal active" |});
    ("Yuma, AZ",
     {| client := "yuma-az"; state := "AZ"; population := 100000;
        verified := true; verifiedDate := "2026-02-27";
        notes := "Legistar portal active" |}) ].

(** ** Records of the upstream API.  A text field is a string or null. *)

Record Person : Type := {
  PersonId : Z;
  PersonActiveFlag : Z;
  PersonFullName : option string;
  PersonFirstName : option string;
  PersonLastName : option string;
  PersonEmail : option string;
  PersonPhone : option string;
  PersonWWW : option string;
  PersonAddress1 : option string;
  PersonCity1 : option string;
  PersonState1 : option string;
  PersonZip1 : option string
}.

Record Body : Type := {
  BodyId : Z;
  BodyName : option string;
  BodyActiveFlag : Z
}.

Record OfficeRecord : Type := {
  OfficeRecordPersonId : Z;
  OfficeRecordBodyId : Z;
  OfficeRecordTitle : option string;
  OfficeRecordBodyName : option string;
  OfficeRecordStartDate : option string;
  OfficeRecordEndDate : option string
}.

Record Matter : Type := {
  MatterFile : option string;
  MatterName : option string
}.

Record CalendarEvent : Type := {
  EventBodyName : option string;
  EventDate : option string
}.

Record Vote : Type := {
  VoteId : Z;
  VotePersonName : option string;
  VoteValueId : Z;
  VoteValueName : option string;
  VoteResult : Z;
  VoteEventItemId : Z;
  VoteLastModifiedUtc : option string
}.

(** What [legistarFetch] returns, or throws, for each query a request
    can issue; the argument is the client (and the person for votes).
    [Throw e] is a failed request, a status that is not OK or a body that
    is no JSON.  [Ok l] is a reply that is an array of objects whose
    fields have the types of the records above.  The code does not check
    the shape of a reply; a reply of another shape (no array, a [null]
    entry, a field of another type) is not a value of this type, and what
    the handler does with it is outside this module ([CityBranches]
    models such replies for its own branches). *)
Record Legistar : Type := {
  fetch_Persons_top10_active : string -> result (list Person);
  fetch_Matters_last12months : string -> result (list Matter);
  fetch_Events_top10 : string -> result (list CalendarEvent);
  fetch_Bodies : string -> result (list Body);
  fetch_OfficeRecords : string -> result (list OfficeRecord);
  fetch_Persons_active : string -> result (list Person);
  fetch_Persons_top500 : string -> result (list Person);
  fetch_Persons : string -> result (list Person);
  fetch_Votes : string -> string -> result (list Vote)
}.

(** [x || ''] and [x || null] on a text field. *)
Definition or_empty (x : option string) : string :=
  match x with Some s => s | None => EmptyString end.

Definition or_null (x : option string) : option string :=
  match x with Some EmptyString => None | _ => x end.

(** A text field inside a template literal. *)
Definition text_string (x : option string) : string :=
  match x with Some s => s | None => "null" end.

(** ** The verification report *)

Inductive CheckDetail : Type :=
| Sample (names : list string)
| CheckError (error : string).

Record Check : Type := {
  pass : bool;
  count : Z;
  detail : CheckDetail
}.

Record Report : Type := {
  report_client : string;
  report_portal : string;
  check_persons : Check;
  check_legislation : Check;
  check_events : Check;
  overallPass : bool;
  timestamp : string
}.

Definition check_of {A : Type} (fetched : result (list A))
           (keep : list A -> list A) (name : A -> string) : Check :=
  try_catch
    (items <- fetched ;;
     let kept := keep items in
     Ok {| pass := 0 <? Z.of_nat (List.length kept);
           count := Z.of_nat (List.length kept);
           detail := Sample (map name (slice kept 0 3)) |})
    (fun e => {| pass := false; count := 0; detail := CheckError (message e) |}).

Definition realPerson (p : Person) : bool :=
  (PersonActiveFlag p =? 1)
  && match PersonFullName p with
     | Some name =>
         nonempty name && negb (includes name "System")
         && negb (includes name "View Only")
     | None => false
     end.

Definition matter_label (m : Matter) : string :=
  match or_null (MatterFile m), or_null (MatterName m) with
  | Some f, _ => f
  | None, Some n => n
  | None, None => "Untitled"
  end.

Definition event_label (e : CalendarEvent) : string :=
  text_string (EventBodyName e) ++ " - " ++ text_string (EventDate e).

(** [verifyCity]: [now_iso] is the time stamp of the report. *)
Definition verifyCity (api : Legistar) (now_iso : string) (client : string)
  : result Report :=
  let persons :=
    check_of (fetch_Persons_top10_active api client) (filter realPerson)
      (fun p => or_empty (PersonFullName p)) in
  let legislation :=
    check_of (fetch_Matters_last12months api client) (fun l => l)
      matter_label in
  let events :=
    check_of (fetch_Events_top10 api client) (fun l => l) event_label in
  Ok {| report_client := client;
        report_portal := "https://" ++ client ++ ".legistar.com";
        check_persons := persons;
        check_legislation := legislation;
        check_events := events;
        overallPass := pass persons || pass legislation;
        timestamp := now_iso |}.

(** ** The roster of the members endpoint *)

Record Member : Type := {
  member_id : Z;
  member_firstName : option string;
  member_lastName : option string;
  member_fullName : option string;
  member_email : option string;
  member_phone : option string;
  member_website : option string;
  member_address : option string;
  member_title : option string;
  member_bodyName : option string;
  member_startDate : option string;
  member_endDate : option string;
  member_active : bool
}.

Definition primaryKeywords : list string :=
  [ "city council"; "town council"; "mayor and council"; "mayor & council";
    "board of supervisors"; "common council" ].

Definition broadKeywords : list string := ["council"; "mayor"; "aldermen"].

Definition excludeKeywords : list string :=
  [ "advisory"; "committee"; "commission"; "subcommittee"; "task force";
    "authority"; "board of adjustment"; "planning"; "zoning" ].

Definition excludeNames : list string :=
  [ "system"; "monitor"; "view only"; "test"; "admin"; "clerk";
    "secretary"; "attorney"; "manager"; "director"; "coordinator";
    "analyst"; "assistant"; "staff" ].

(** [keywords.some(kw => name.includes(kw))]. *)
Definition some_included (keywords : list string) (name : string) : bool :=
  existsb (includes name) keywords.

Definition isPrimaryBody (b : Body) : bool :=
  let name := toLowerCase (or_empty (BodyName b)) in
  some_included primaryKeywords name && (BodyActiveFlag b =? 1).

Definition isBroadBody (b : Body) : bool :=
  let name := toLowerCase (or_empty (BodyName b)) in
  let matchesBroad := some_included broadKeywords name in
  let isExcluded := some_included excludeKeywords name in
  matchesBroad && negb isExcluded && (BodyActiveFlag b =? 1).

Definition selectCouncilBodies (bodies : list Body) : list Body :=
  let primaryBodies := filter isPrimaryBody bodies in
  if 0 <? Z.of_nat (List.length primaryBodies) then primaryBodies
  else filter isBroadBody bodies.

(** [ids.includes(x)]. *)
Definition includes_id (ids : list Z) (x : Z) : bool := existsb (Z.eqb x) ids.

(** [[...new Set(ids)]]: first occurrences, in order. *)
Fixpoint unique_from (seen ids : list Z) : list Z :=
  match ids with
  | [] => []
  | x :: rest =>
      if includes_id seen x then unique_from seen rest
      else x :: unique_from (x :: seen) rest
  end.

Definition unique (ids : list Z) : list Z := unique_from [] ids.

Definition joinComma (parts : list string) : string :=
  String.concat ", " parts.

Definition address_of (p : Person) : option string :=
  let parts :=
    flat_map (fun x => match or_null x with Some s => [s] | None => [] end)
      [PersonAddress1 p; PersonCity1 p; PersonState1 p; PersonZip1 p] in
  or_null (Some (joinComma parts)).

Section Clock.

(** [new Date(s)]: its time value in milliseconds, [None] for an
    invalid date. *)
Variable Date_parse : string -> option Z.

(** The time value of [new Date()] at the request. *)
Variable now : Z.

(** [!or.OfficeRecordEndDate || new Date(or.OfficeRecordEndDate) > now]. *)
Definition isActive (or : OfficeRecord) : bool :=
  match or_null (OfficeRecordEndDate or) with
  | None => true
  | Some endDate =>
      match Date_parse endDate with
      | Some t => now <? t
      | None => false
      end
  end.

Definition activeOffices (councilBodyIds : list Z)
           (officeRecords : list OfficeRecord) : list OfficeRecord :=
  filter
    (fun or =>
       let inCouncilBody :=
         (Z.of_nat (List.length councilBodyIds) =? 0)
         || includes_id councilBodyIds (OfficeRecordBodyId or) in
       inCouncilBody && isActive or)
    officeRecords.

Definition selectMembers (councilPersonIds : list Z) (persons : list Person)
  : list Person :=
  if 0 <? Z.of_nat (List.length councilPersonIds) then
    filter (fun p => includes_id councilPersonIds (PersonId p)) persons
  else
    filter
      (fun p =>
         let name := toLowerCase (or_empty (PersonFullName p)) in
         negb (some_included excludeNames name))
      (filter (fun p => PersonActiveFlag p =? 1) persons).

Definition enrich (activeCouncilOffices : list OfficeRecord) (p : Person)
  : Member :=
  let offices :=
    filter (fun or => OfficeRecordPersonId or =? PersonId p)
      activeCouncilOffices in
  let primaryOffice := hd_error offices in
  let field (f : OfficeRecord -> option string) :=
    match primaryOffice with Some o => f o | None => None end in
  {| member_id := PersonId p;
     member_firstName := PersonFirstName p;
     member_lastName := PersonLastName p;
     member_fullName := PersonFullName p;
     member_email := or_null (PersonEmail p);
     member_phone := or_null (PersonPhone p);
     member_website := or_null (PersonWWW p);
     member_address := address_of p;
     member_title := field OfficeRecordTitle;
     member_bodyName := field OfficeRecordBodyName;
     member_startDate := field OfficeRecordStartDate;
     member_endDate := field OfficeRecordEndDate;
     member_active := true |}.

(** The three queries for persons, each tried when the one before
    gave nothing. *)
Definition fetchPersons (api : Legistar) (client : string) : list Person :=
  let persons := try_catch (fetch_Persons_active api client) (fun _ => []) in
  let persons :=
    match persons with
    | [] => try_catch (fetch_Persons_top500 api client) (fun _ => persons)
    | _ => persons
    end in
  match persons with
  | [] => try_catch (fetch_Persons api client) (fun _ => [])
  | _ => persons
  end.

(** The members branch: the enriched members and the number of council
    bodies found. *)
Definition members (api : Legistar) (client : string) : list Member * Z :=
  let bodies := try_catch (fetch_Bodies api client) (fun _ => []) in
  let councilBodies := selectCouncilBodies bodies in
  let councilBodyIds := map BodyId councilBodies in
  let officeRecords :=
    try_catch (fetch_OfficeRecords api client) (fun _ => []) in
  let activeCouncilOffices := activeOffices councilBodyIds officeRecords in
  let councilPersonIds :=
    unique (map OfficeRecordPersonId activeCouncilOffices) in
  let persons := fetchPersons api client in
  let councilMembers := selectMembers councilPersonIds persons in
  (map (enrich activeCouncilOffices) councilMembers,
   Z.of_nat (List.length councilBodyIds)).

End Clock.

(** ** The vote tally *)

Record VoteEntry : Type := {
  vote_id : Z;
  vote_personName : option string;
  vote_value : Z;
  vote_valueName : option string;
  vote_result : Z;
  vote_eventItemId : Z;
  vote_lastModified : option string
}.

Definition voteEntry (v : Vote) : VoteEntry :=
  {| vote_id := VoteId v;
     vote_personName := VotePersonName v;
     vote_value := VoteValueId v;
     vote_valueName := VoteValueName v;
     vote_result := VoteResult v;
     vote_eventItemId := VoteEventItemId v;
     vote_lastModified := VoteLastModifiedUtc v |}.

(** [v.valueName && test(v.valueName.toLowerCase())]. *)
Definition label_test (test : string -> bool) (v : VoteEntry) : bool :=
  match vote_valueName v with
  | Some name => nonempty name && test (toLowerCase name)
  | None => false
  end.

Definition countsYes : VoteEntry -> bool :=
  label_test (fun l => includes l "aye" || includes l "yes"
                       || includes l "affirmative").

Definition countsNo : VoteEntry -> bool :=
  label_test (fun l => includes l "nay" || includes l "no").

Definition countsAbsent : VoteEntry -> bool :=
  label_test (fun l => includes l "absent" || includes l "excused").

Definition countsAbstain : VoteEntry -> bool :=
  label_test (fun l => includes l "abstain" || includes l "present").

(** The summary of a vote history.  Its attendance rate is a rounded
    floating-point quotient and is not part of this model. *)
Record Summary : Type := {
  total : Z;
  yes : Z;
  no : Z;
  absent : Z;
  abstain : Z
}.

Definition countWhere (test : VoteEntry -> bool) (votes : list VoteEntry) : Z :=
  Z.of_nat (List.length (filter test votes)).

Definition summarize (voteHistory : list VoteEntry) : Summary :=
  {| total := Z.of_nat (List.length voteHistory);
     yes := countWhere countsYes voteHistory;
     no := countWhere countsNo voteHistory;
     absent := countWhere countsAbsent voteHistory;
     abstain := countWhere countsAbstain voteHistory |}.

(** ** The handler *)

Record CityListing : Type := {
  listing_name : string;
  listing_state : string;
  listing_population : Z;
  listing_verifiedDate : string;
  listing_portalUrl : string
}.

Inductive ResponseBody : Type :=
| EmptyBody
| CitiesBody (cities : list CityListing) (totalCities : Z)
| ClientRequired
| VerificationReport (report : Report) (recommendation : string)
| VerificationFailed (client : string) (overall : bool) (error : string)
                     (recommendation : string)
| CityRequired (availableCities : list string)
| CityNotAvailable (city : string) (availableCities : list string)
| CityNotActive (city : string) (portal : string)
| MembersBody (city : string) (members : list Member)
              (totalMembers councilBodiesFound : Z) (source : string)
| PersonIdRequired
| VotesBody (city personId : string) (summary : Summary)
            (votes : list VoteEntry) (totalVotes : Z) (source : string)
| FetchFailed (message : string) (city : string) (source : string)
| OtherBody (json : string).

Record Response : Type := { statusCode : Z; body : ResponseBody }.

Record Event : Type := {
  httpMethod : jsval;
  qs_city : jsval;
  qs_type : jsval;
  qs_client : jsval;
  qs_personId : jsval
}.

Definition portalUrl (client : string) : string :=
  "https://" ++ client ++ ".legistar.com".

(** [arr.sort((a, b) => b.population - a.population)]: a stable sort by
    decreasing population. *)
Fixpoint insertByPopulation (c : CityListing) (sorted : list CityListing)
  : list CityListing :=
  match sorted with
  | [] => [c]
  | d :: rest =>
      if listing_population d <? listing_population c then c :: sorted
      else d :: insertByPopulation c rest
  end.

Definition sortByPopulation (l : list CityListing) : list CityListing :=
  fold_left (fun sorted c => insertByPopulation c sorted) l [].

Definition verifiedCities : list (string * CityInfo) :=
  filter (fun entry => verified (snd entry)) CITY_DATABASE.

Definition cityListings : list CityListing :=
  sortByPopulation
    (map (fun entry =>
            {| listing_name := fst entry;
               listing_state := state (snd entry);
               listing_population := population (snd entry);
               listing_verifiedDate := verifiedDate (snd entry);
               listing_portalUrl := portalUrl (client (snd entry)) |})
       verifiedCities).

Definition recommendation_pass : string :=
  "This city has active data. Safe to add to CITY_DATABASE.".

Definition recommendation_fail : string :=
  "This city has no usable data. Do NOT add yet.".

Definition recommendation_unreachable : string :=
  "Could not connect to this Legistar portal. It may not exist.".

(** The [try]/[catch] around [verifyCity] in the verify branch;
    [verification] is the outcome of the call. *)
Definition verifyResponse (testClient : string)
           (verification : result Report) : Response :=
  try_catch
    (report <- verification ;;
     Ok {| statusCode := 200;
           body := VerificationReport report
                     (if overallPass report then recommendation_pass
                      else recommendation_fail) |})
    (fun e =>
       {| statusCode := 200;
          body := VerificationFailed testClient false (message e)
                    recommendation_unreachable |}).

Section Handler.

Variable Date_parse : string -> option Z.
Variable now : Z.
Variable now_iso : string.

(** The branches for legislation, meetings, matter-detail and agenda
    and the final answer for an invalid type. *)
Variable remaining : string -> Event -> result Response.

Definition cityBranches (api : Legistar) (city client : string)
           (event : Event) : Response :=
  let type := qs_type event in
  try_catch
    (if is_string type "persons" || is_string type "members" then
       let (enrichedMembers, found) := members Date_parse now api client in
       Ok {| statusCode := 200;
             body := MembersBody city enrichedMembers
                       (Z.of_nat (List.length enrichedMembers)) found
                       (portalUrl client) |}
     else if is_string type "votes" then
       let personId := qs_personId event in
       if negb (truthy personId) then
         Ok {| statusCode := 400; body := PersonIdRequired |}
       else
         votes <- fetch_Votes api client (ToString personId) ;;
         let voteHistory := map voteEntry votes in
         Ok {| statusCode := 200;
               body := VotesBody city (ToString personId)
                         (summarize voteHistory) voteHistory
                         (Z.of_nat (List.length voteHistory))
                         (portalUrl client) |}
     else remaining client event)
    (fun error =>
       {| statusCode := 500;
          body := FetchFailed (message error) city (portalUrl client) |}).

Definition handler (api : Legistar) (event : Event) : Response :=
  if is_string (httpMethod event) "OPTIONS" then
    {| statusCode := 200; body := EmptyBody |}
  else
    let city := qs_city event in
    let type := qs_type event in
    if is_string type "cities" then
      {| statusCode := 200;
         body := CitiesBody cityListings
                   (Z.of_nat (List.length cityListings)) |}
    else if is_string type "verify" then
      let testClient := qs_client event in
      if negb (truthy testClient) then
        {| statusCode := 400; body := ClientRequired |}
      else
        verifyResponse (ToString testClient)
          (verifyCity api now_iso (ToString testClient))
    else if negb (truthy city) then
      {| statusCode := 400;
         body := CityRequired (map fst verifiedCities) |}
    else
      match own_get CITY_DATABASE (ToString city) with
      | Some cityInfo =>
          if negb (verified cityInfo) then
            {| statusCode := 404;
               body := CityNotActive (ToString city)
                         (portalUrl (client cityInfo)) |}
          else cityBranches api (ToString city) (client cityInfo) event
      | None =>
          if truthy (Object_prototype_get (ToString city)) then
            {| statusCode := 404;
               body := CityNotActive (ToString city)
                         (portalUrl "undefined") |}
          else
            {| statusCode := 404;
               body := CityNotAvailable (ToString city)
                         (map fst verifiedCities) |}
      end.

End Handler.

(** [new Date(s)] for the date-time form the upstream API sends,
    "YYYY-MM-DDTHH:MM:SS", read as UTC; other strings are invalid
    dates here.  Used to run the handler on examples. *)
Definition two_digits (s : string) : option Z :=
  if (String.length s =? 2)%nat && all_chars is_digit s
  then Some (digits_value 0 s) else None.

Definition days_from_civil (y m d : Z) : Z :=
  let y' := if m <=? 2 then y - 1 else y in
  let era := y' / 400 in
  let yoe := y' - era * 400 in
  let mp := (m + 9) mod 12 in
  let doy := (153 * mp + 2) / 5 + d - 1 in
  let doe := yoe * 365 + yoe / 4 - yoe / 100 + doy in
  era * 146097 + doe - 719468.

Definition iso_date_time (s : string) : option Z :=
  if (String.length s =? 19)%nat
     && String.eqb (substring 4 1 s) "-" && String.eqb (substring 7 1 s) "-"
     && String.eqb (substring 10 1 s) "T"
     && String.eqb (substring 13 1 s) ":" && String.eqb (substring 16 1 s) ":"
     && all_chars is_digit (substring 0 4 s)
  then
    match two_digits (substring 5 2 s), two_digits (substring 8 2 s),
          two_digits (substring 11 2 s), two_digits (substring 14 2 s),
          two_digits (substring 17 2 s) with
    | Some mo, Some d, Some h, Some mi, Some sec =>
        if (1 <=? mo) && (mo <=? 12) && (1 <=? d) && (d <=? 31)
           && (h <=? 23) && (mi <=? 59) && (sec <=? 59)
        then Some (((days_from_civil (digits_value 0 (substring 0 4 s)) mo d
                     * 24 + h) * 60 + mi) * 60000 + sec * 1000)
        else None
    | _, _, _, _, _ => None
    end
  else None.

End CityCouncil.

(* ================================================================== *)
(** * get-bills: the handler and the bills it lists *)

Module Listing.
Import JsString Js GetBills.
Local Open Scope js_scope.

(** Display labels of the bill types, keyed by the upper-cased code. *)
Definition TYPE_DISPLAY : list (string * string) :=
  [ ("HR", "H.R."); ("S", "S."); ("HJRES", "H.J.Res.");
    ("SJRES", "S.J.Res."); ("HCONRES", "H.Con.Res.");
    ("SCONRES", "S.Con.Res."); ("HRES", "H.Res."); ("SRES", "S.Res.") ].

Record LatestAction : Type := {
  action_text : jsval;
  action_actionDate : jsval
}.

(** A bill of the upstream reply: the fields [buildPublicUrl] reads and
    the others the handler reads.  A field the entry does not have is
    [undefined]; an entry that is a number, a string, a boolean or an
    array has none of them.  [raw_latestAction] is [None] when the field
    is missing, [null] or a value without properties. *)
Record RawBill : Type := {
  raw_fields : Bill;
  raw_title : jsval;
  raw_latestAction : option LatestAction;
  raw_updateDate : jsval
}.

(** What the parsed reply holds under [bills] or under [results]: nothing
    or a falsy value; an array, whose entries are [null] ([None]) or
    values with fields; or a truthy value that is no array (a number, a
    string, [true], an object). *)
Inductive Field : Type :=
| Missing
| Array (entries : list (option RawBill))
| NoArray.

(** The parsed reply: [null], or a value that may hold the bills under
    [bills] or under [results]. *)
Record Data : Type := {
  data_bills : Field;
  data_results : Field
}.

Record ListedBill : Type := {
  lb_id : string;
  lb_number : string;
  lb_title : jsval;
  lb_howItAffectsYou : jsval;
  lb_date : jsval;
  lb_status : jsval;
  lb_statusDisplay : string;
  lb_statusPriority : Z;
  lb_url : string;
  lb_public_url : string;
  lb_congress_url : string;
  lb_api_url : jsval;
  lb_type : jsval;
  lb_congress : jsval
}.

Inductive Body : Type :=
| ErrorBody (error : string)
| BillsBody (bills : list ListedBill).

Record Response : Type := { statusCode : Z; body : Body }.

Record Event : Type := {
  qs_limit : jsval;
  qs_offset : jsval
}.

(** [v.toUpperCase()]: only strings have the method. *)
Definition call_toUpperCase (v : jsval) : result string :=
  match v with
  | JStr s => Ok (toUpperCase s)
  | JUndefined | JNull =>
      Throw (TypeError "Cannot read properties of undefined")
  | _ => Throw (TypeError "toUpperCase is not a function")
  end.

(** [b.latestAction?.text] and [b.latestAction?.actionDate]. *)
Definition latest (f : LatestAction -> jsval) (b : RawBill) : jsval :=
  match raw_latestAction b with
  | Some a => f a
  | None => JUndefined
  end.

(** [arr.map(f)] for a callback that can throw. *)
Fixpoint mapM {A B : Type} (f : A -> result B) (l : list A)
  : result (list B) :=
  match l with
  | [] => Ok []
  | x :: l' => y <- f x ;; ys <- mapM f l' ;; Ok (y :: ys)
  end.

(** The callback of [rawBills.map]. *)
Definition listBill (b : RawBill) : result ListedBill :=
  let fields := raw_fields b in
  publicUrl <- buildPublicUrl fields ;;
  let actionText := or_else (latest action_text b) (JStr "") in
  let actionDate :=
    or_else (latest action_actionDate b)
      (or_else (raw_updateDate b) (JStr "")) in
  stage <- deriveBillStage actionText ;;
  typeUpper <- call_toUpperCase (or_else (bill_type fields) (JStr "")) ;;
  let typeLabel := or_else (obj_get TYPE_DISPLAY typeUpper) (JStr typeUpper) in
  let displayNumber :=
    if truthy (bill_number fields)
    then ToString typeLabel ++ " " ++ ToString (bill_number fields)
    else "" in
  typeLower <- call_toLowerCase (or_else (bill_type fields) (JStr "")) ;;
  Ok {| lb_id := ToString (bill_congress fields) ++ "-" ++ typeLower ++ "-"
                   ++ ToString (bill_number fields);
        lb_number := displayNumber;
        lb_title := or_else (raw_title b) (JStr "");
        lb_howItAffectsYou := or_else (raw_title b) (JStr "");
        lb_date := actionDate;
        lb_status := actionText;
        lb_statusDisplay := display stage;
        lb_statusPriority := priority stage;
        lb_url := publicUrl;
        lb_public_url := publicUrl;
        lb_congress_url := publicUrl;
        lb_api_url := or_else (bill_url fields) (JStr "");
        lb_type := or_else (bill_type fields) (JStr "");
        lb_congress := or_else (bill_congress fields) (JNum 119) |}.

(** [buildPublicUrl(b)] and the rest of the callback on an entry of the
    array: reading a field of [null] throws. *)
Definition listEntry (entry : option RawBill) : result ListedBill :=
  match entry with
  | Some b => listBill b
  | None => Throw (TypeError "Cannot read properties of null")
  end.

(** [data?.bills || data?.results || []]; an array, even empty, is
    truthy.  The result is never [Missing]. *)
Definition rawBills_of (data : option Data) : Field :=
  match data with
  | Some d =>
      match data_bills d with
      | Missing => match data_results d with
                   | Missing => Array []
                   | results => results
                   end
      | bills => bills
      end
  | None => Array []
  end.

(** [rawBills.map(callback)]: only an array has the method. *)
Definition mapBills (rawBills : Field) : result (list ListedBill) :=
  match rawBills with
  | Array entries => mapM listEntry entries
  | _ => Throw (TypeError "rawBills.map is not a function")
  end.

(** The handler: [apiKey] is the environment variable, [upstream] the
    outcome of fetching and parsing the listing for a limit and an
    offset. *)
Definition handler (apiKey : option string)
           (upstream : string -> string -> result (option Data))
           (event : Event) : Response :=
  try_catch
    (match apiKey with
     | None | Some EmptyString =>
         Ok {| statusCode := 500;
               body := ErrorBody "Missing CONGRESS_API_KEY env var in Netlify." |}
     | Some _ =>
         let limit := or_else (qs_limit event) (JStr "50") in
         let offset := or_else (qs_offset event) (JStr "0") in
         data <- upstream (ToString limit) (ToString offset) ;;
         let rawBills := rawBills_of data in
         bills <- mapBills rawBills ;;
         Ok {| statusCode := 200; body := BillsBody bills |}
     end)
    (fun err => {| statusCode := 500; body := ErrorBody (error_string err) |}).

End Listing.

(* ================================================================== *)
(** * city-council: legislation, meetings, matter detail, agenda *)

Module CityBranches.
Import JsString Js.
Local Open Scope js_scope.

(** ** Replies of the upstream API *)

(** A parsed reply where the code expects an array of objects.  The code
    checks none of this, so the reply is any value the parser can give:
    an array, whose entries are [null] ([None]) or values with fields
    (an entry that is a number, a string, a boolean or an array reads as
    a row all of whose fields are [undefined]); a falsy value ([null],
    [false], [0], the empty string); or another value that is no array,
    of which the code only looks at whether its [length] is [0]. *)
Inductive Reply (Row : Type) : Type :=
| Rows (rows : list (option Row))
| Falsy
| Other (zero_length : bool).

Arguments Rows {Row} rows.
Arguments Falsy {Row}.
Arguments Other {Row} zero_length.

(** The fields the branches read; a field the row does not have is
    [undefined]. *)
Record MatterRow : Type := {
  MatterId : jsval;
  MatterGuid : jsval;
  MatterFile : jsval;
  MatterName : jsval;
  MatterTitle : jsval;
  MatterTypeName : jsval;
  MatterStatusName : jsval;
  MatterIntroDate : jsval;
  MatterAgendaDate : jsval;
  MatterPassedDate : jsval;
  MatterEnactmentDate : jsval;
  MatterEnactmentNumber : jsval;
  MatterBodyName : jsval;
  MatterSponsorName : jsval;
  MatterLastModifiedUtc : jsval;
  MatterText : jsval
}.

Record EventRow : Type := {
  EventId : jsval;
  EventDate : jsval;
  EventTime : jsval;
  EventBodyName : jsval;
  EventLocation : jsval;
  EventAgendaStatusName : jsval;
  EventMinutesStatusName : jsval;
  EventInSiteURL : jsval;
  EventAgendaFile : jsval;
  EventMinutesFile : jsval;
  EventVideoPath : jsval
}.

Record SponsorRow : Type := {
  MatterSponsorNameId : jsval;
  MatterSponsorRowName : jsval;
  MatterSponsorSequence : jsval
}.

Record HistoryRow : Type := {
  MatterHistoryId : jsval;
  MatterHistoryActionDate : jsval;
  MatterHistoryActionName : jsval;
  MatterHistoryActionBodyName : jsval;
  MatterHistoryActionText : jsval;
  MatterHistoryPassedFlag : jsval;
  MatterHistoryTally : jsval
}.

Record EventItemRow : Type := {
  EventItemId : jsval;
  EventItemTitle : jsval;
  EventItemMatterId : jsval;
  EventItemMatterFile : jsval;
  EventItemMatterName : jsval;
  EventItemMatterType : jsval;
  EventItemMatterStatus : jsval;
  EventItemActionName : jsval;
  EventItemActionText : jsval;
  EventItemPassedFlag : jsval;
  EventItemTally : jsval;
  EventItemAgendaNote : jsval;
  EventItemMinutesNote : jsval;
  EventItemRollCallFlag : jsval
}.

(** What [legistarFetch] returns, or throws, for the queries of these
    branches; the first argument is the client.  It throws when the
    request fails, the status is not OK or the body is no JSON.  The
    reply for one matter is [None] when it is [null]; any other value
    reads as a row (with every field [undefined] when it is a number, a
    string, a boolean or an array). *)
Record Legistar : Type := {
  fetch_Matters_since : string -> string -> result (Reply MatterRow);
  fetch_Matters_lastModified : string -> result (Reply MatterRow);
  fetch_Matters_top50 : string -> result (Reply MatterRow);
  fetch_Events_from : string -> string -> result (Reply EventRow);
  fetch_Events_desc : string -> result (Reply EventRow);
  fetch_Events_top20 : string -> result (Reply EventRow);
  fetch_Matter : string -> string -> result (option MatterRow);
  fetch_Sponsors : string -> string -> result (Reply SponsorRow);
  fetch_Histories : string -> string -> result (Reply HistoryRow);
  fetch_EventItems : string -> string -> result (Reply EventItemRow)
}.

(** ** What the branches return *)

Record LegislationItem : Type := {
  leg_id : jsval;
  leg_file : jsval;
  leg_name : jsval;
  leg_title : jsval;
  leg_type : jsval;
  leg_status : jsval;
  leg_introduced : jsval;
  leg_agendaDate : jsval;
  leg_passedDate : jsval;
  leg_enactmentDate : jsval;
  leg_enactmentNumber : jsval;
  leg_bodyName : jsval;
  leg_sponsor : jsval;
  leg_lastModified : jsval;
  leg_url : string
}.

Record Meeting : Type := {
  meet_id : jsval;
  meet_date : jsval;
  meet_time : jsval;
  meet_bodyName : jsval;
  meet_location : jsval;
  meet_agendaStatus : jsval;
  meet_minutesStatus : jsval;
  meet_inSiteURL : jsval;
  meet_agendaURL : jsval;
  meet_minutesURL : jsval;
  meet_videoURL : jsval
}.

Record MatterDetail : Type := {
  det_id : jsval;
  det_file : jsval;
  det_name : jsval;
  det_title : jsval;
  det_type : jsval;
  det_status : jsval;
  det_introduced : jsval;
  det_passedDate : jsval;
  det_bodyName : jsval;
  det_text : jsval;
  det_url : string
}.

Record Sponsor : Type := {
  sp_id : jsval;
  sp_name : jsval;
  sp_sequence : jsval
}.

Record History : Type := {
  hist_id : jsval;
  hist_date : jsval;
  hist_action : jsval;
  hist_body : jsval;
  hist_description : jsval;
  hist_passed : jsval;
  hist_tally : jsval
}.

Record AgendaItem : Type := {
  ag_id : jsval;
  ag_title : jsval;
  ag_matterId : jsval;
  ag_matterFile : jsval;
  ag_matterName : jsval;
  ag_matterType : jsval;
  ag_matterStatus : jsval;
  ag_actionName : jsval;
  ag_actionText : jsval;
  ag_passedFlag : jsval;
  ag_tally : jsval;
  ag_agendaNote : jsval;
  ag_minutesNote : jsval;
  ag_rollCallFlag : jsval
}.

Inductive Body : Type :=
| LegislationBody (city : string) (legislation : list LegislationItem)
                  (totalItems : Z) (dateRange source : string)
| MeetingsBody (city : string) (meetings : list Meeting) (totalMeetings : Z)
               (source : string)
| MatterIdRequired
| MatterDetailBody (city : string) (matter : MatterDetail)
                   (sponsors : list Sponsor) (history : list History)
                   (source : string)
| EventIdRequired
| AgendaBody (city eventId : string) (items : list AgendaItem)
             (totalItems : Z) (source : string)
| InvalidType.

Record Response : Type := { statusCode : Z; body : Body }.

(** ** Reading the replies *)

(** [v.toString()]: [undefined] and [null] have no method to call. *)
Definition call_toString (v : jsval) : result string :=
  match v with
  | JUndefined | JNull =>
      Throw (TypeError "Cannot read properties of undefined")
  | _ => Ok (ToString v)
  end.

(** A callback on an entry of an array: reading a field of [null]
    throws. *)
Definition onEntry {Row B : Type} (f : Row -> result B) (entry : option Row)
  : result B :=
  match entry with
  | Some row => f row
  | None => Throw (TypeError "Cannot read properties of null")
  end.

(** [reply.map(callback)]: only an array has the method. *)
Definition mapRows {Row B : Type} (f : Row -> result B) (reply : Reply Row)
  : result (list B) :=
  match reply with
  | Rows rows => Listing.mapM (onEntry f) rows
  | _ => Throw (TypeError "map is not a function")
  end.

(** [!reply || reply.length === 0]. *)
Definition nothing {Row : Type} (reply : Reply Row) : bool :=
  match reply with
  | Rows [] => true
  | Rows (_ :: _) => false
  | Falsy => true
  | Other zero_length => zero_length
  end.

(** The page of a matter on the city's portal. *)
Definition legislationUrl (client : string) (id guid : jsval) : string :=
  "https://" ++ client ++ ".legistar.com/LegislationDetail.aspx?ID="
    ++ ToString id ++ "&GUID=" ++ ToString guid.

(** The callback of [allMatters.map]: [m.MatterId.toString()] is only
    evaluated when the file is falsy. *)
Definition legislationItem (client : string) (m : MatterRow)
  : result LegislationItem :=
  file <- (if truthy (MatterFile m) then Ok (MatterFile m)
           else id <- call_toString (MatterId m) ;; Ok (JStr id)) ;;
  Ok {| leg_id := MatterId m;
        leg_file := file;
        leg_name := MatterName m;
        leg_title := or_else (MatterTitle m) (MatterName m);
        leg_type := MatterTypeName m;
        leg_status := MatterStatusName m;
        leg_introduced := MatterIntroDate m;
        leg_agendaDate := MatterAgendaDate m;
        leg_passedDate := MatterPassedDate m;
        leg_enactmentDate := MatterEnactmentDate m;
        leg_enactmentNumber := MatterEnactmentNumber m;
        leg_bodyName := MatterBodyName m;
        leg_sponsor := or_else (MatterSponsorName m) JNull;
        leg_lastModified := MatterLastModifiedUtc m;
        leg_url := legislationUrl client (MatterId m) (MatterGuid m) |}.

Definition meeting (e : EventRow) : Meeting :=
  {| meet_id := EventId e;
     meet_date := EventDate e;
     meet_time := EventTime e;
     meet_bodyName := EventBodyName e;
     meet_location := EventLocation e;
     meet_agendaStatus := EventAgendaStatusName e;
     meet_minutesStatus := EventMinutesStatusName e;
     meet_inSiteURL := EventInSiteURL e;
     meet_agendaURL := EventAgendaFile e;
     meet_minutesURL := EventMinutesFile e;
     meet_videoURL := or_else (EventVideoPath e) JNull |}.

Definition matterDetail (client : string) (m : MatterRow) : MatterDetail :=
  {| det_id := MatterId m;
     det_file := MatterFile m;
     det_name := MatterName m;
     det_title := MatterTitle m;
     det_type := MatterTypeName m;
     det_status := MatterStatusName m;
     det_introduced := MatterIntroDate m;
     det_passedDate := MatterPassedDate m;
     det_bodyName := MatterBodyName m;
     det_text := or_else (MatterText m) JNull;
     det_url := legislationUrl client (MatterId m) (MatterGuid m) |}.

Definition sponsor (s : SponsorRow) : Sponsor :=
  {| sp_id := MatterSponsorNameId s;
     sp_name := MatterSponsorRowName s;
     sp_sequence := MatterSponsorSequence s |}.

Definition history (h : HistoryRow) : History :=
  {| hist_id := MatterHistoryId h;
     hist_date := MatterHistoryActionDate h;
     hist_action := MatterHistoryActionName h;
     hist_body := MatterHistoryActionBodyName h;
     hist_description := MatterHistoryActionText h;
     hist_passed := MatterHistoryPassedFlag h;
     hist_tally := MatterHistoryTally h |}.

Definition agendaItem (item : EventItemRow) : AgendaItem :=
  {| ag_id := EventItemId item;
     ag_title := EventItemTitle item;
     ag_matterId := EventItemMatterId item;
     ag_matterFile := EventItemMatterFile item;
     ag_matterName := EventItemMatterName item;
     ag_matterType := EventItemMatterType item;
     ag_matterStatus := EventItemMatterStatus item;
     ag_actionName := EventItemActionName item;
     ag_actionText := EventItemActionText item;
     ag_passedFlag := EventItemPassedFlag item;
     ag_tally := EventItemTally item;
     ag_agendaNote := EventItemAgendaNote item;
     ag_minutesNote := EventItemMinutesNote item;
     ag_rollCallFlag := EventItemRollCallFlag item |}.

(** Three queries in turn, each tried when the ones before left nothing;
    a failure of the first two keeps what there was, a failure of the
    third gives the empty array. *)
Definition threeTries {Row : Type} (first second third : result (Reply Row))
  : Reply Row :=
  let items := try_catch first (fun _ => Rows []) in
  let items :=
    if nothing items then try_catch second (fun _ => items) else items in
  if nothing items then try_catch third (fun _ => Rows []) else items.

(** The branches of the handler after the votes branch.  [recentDate] and
    [futureDate] are the dates [getRecentDateFilter(6)] and
    [getFutureDateFilter()] give at the request; [matterId] and [eventId]
    are the query parameters of those names.  A [Throw] is caught by the
    handler, which answers 500. *)
Definition branches (api : Legistar) (recentDate futureDate : string)
           (matterId eventId : jsval) (city client : string) (type : jsval)
  : result Response :=
  let source := CityCouncil.portalUrl client in
  if is_string type "matters" || is_string type "legislation" then
    let allMatters :=
      threeTries (fetch_Matters_since api client recentDate)
        (fetch_Matters_lastModified api client)
        (fetch_Matters_top50 api client) in
    legislation <- mapRows (legislationItem client) allMatters ;;
    Ok {| statusCode := 200;
          body := LegislationBody city legislation
                    (Z.of_nat (List.length legislation))
                    ("Last 6 months (since " ++ recentDate ++ ")") source |}
  else if is_string type "events" || is_string type "meetings" then
    let events :=
      threeTries (fetch_Events_from api client futureDate)
        (fetch_Events_desc api client) (fetch_Events_top20 api client) in
    meetings <- mapRows (fun e => Ok (meeting e)) events ;;
    Ok {| statusCode := 200;
          body := MeetingsBody city meetings
                    (Z.of_nat (List.length meetings)) source |}
  else if is_string type "matter-detail" then
    if negb (truthy matterId) then
      Ok {| statusCode := 400; body := MatterIdRequired |}
    else
      matter <- fetch_Matter api client (ToString matterId) ;;
      let sponsors :=
        try_catch (fetch_Sponsors api client (ToString matterId))
          (fun _ => Rows []) in
      let histories :=
        try_catch (fetch_Histories api client (ToString matterId))
          (fun _ => Rows []) in
      detail <- onEntry (fun m => Ok (matterDetail client m)) matter ;;
      sponsors <- mapRows (fun s => Ok (sponsor s)) sponsors ;;
      histories <- mapRows (fun h => Ok (history h)) histories ;;
      Ok {| statusCode := 200;
            body := MatterDetailBody city detail sponsors histories source |}
  else if is_string type "agenda" then
    if negb (truthy eventId) then
      Ok {| statusCode := 400; body := EventIdRequired |}
    else
      items <- fetch_EventItems api client (ToString eventId) ;;
      agendaItems <- mapRows (fun item => Ok (agendaItem item)) items ;;
      Ok {| statusCode := 200;
            body := AgendaBody city (ToString eventId) agendaItems
                      (Z.of_nat (List.length agendaItems)) source |}
  else Ok {| statusCode := 400; body := InvalidType |}.

(** The value of the [type] field of the JSON body, or of its [error]
    field. *)
Definition label (b : Body) : string :=
  match b with
  | LegislationBody _ _ _ _ _ => "legislation"
  | MeetingsBody _ _ _ _ => "meetings"
  | MatterIdRequired => "matterId parameter required"
  | MatterDetailBody _ _ _ _ _ => "matter-detail"
  | EventIdRequired => "eventId parameter required"
  | AgendaBody _ _ _ _ _ => "agenda"
  | InvalidType => "Invalid type parameter"
  end.

(** These branches as the last part of the handler of [CityCouncil]:
    the status is kept and the body is named by its label. *)
Definition remaining (api : Legistar) (recentDate futureDate : string)
           (matterId eventId : jsval)
           (client : string) (event : CityCouncil.Event)
  : result CityCouncil.Response :=
  r <- branches api recentDate futureDate matterId eventId
         (ToString (CityCouncil.qs_city event)) client
         (CityCouncil.qs_type event) ;;
  Ok {| CityCouncil.statusCode := statusCode r;
        CityCouncil.body := CityCouncil.OtherBody (label (body r)) |}.

End CityBranches.

(* ================================================================== *)
(** * bill-detail.js: the request guard and the public URL *)

Module BillDetail.
Import JsString Js.
Local Open Scope js_scope.

(** The query parameters the handler reads; a missing one is
    [undefined]. *)
Record Query : Type := {
  qs_congress : jsval;
  qs_type : jsval;
  qs_number : jsval
}.

(** The bill a request names, after the defaults of the handler. *)
Record Named : Type := {
  congress : jsval;
  type : string;
  number : jsval
}.

Inductive Guard : Type :=
| MissingKey
| MissingTypeOrNumber
| Proceed (named : Named).

(** The handler up to its first request upstream: [MissingKey] is the
    response 500, [MissingTypeOrNumber] the response 400.  The table and
    [ordinalSuffix] of this file are those of get-bills.js. *)
Definition guard (apiKey : jsval) (qs : Query) : result Guard :=
  if negb (truthy apiKey) then Ok MissingKey
  else
    let congress := or_else (qs_congress qs) (JStr "119") in
    type <- call_toLowerCase (or_else (qs_type qs) (JStr "")) ;;
    let number := or_else (qs_number qs) (JStr "") in
    if negb (nonempty type) || negb (truthy number) then
      Ok MissingTypeOrNumber
    else
      Ok (Proceed {| congress := congress; type := type;
                     number := number |}).

(** The [publicUrl] field of the response. *)
Definition publicUrl (named : Named) : string :=
  let slug :=
    or_else (obj_get GetBills.TYPE_MAP (type named))
      (JStr (type named ++ "-bill")) in
  let num := GetBills.digits_of (number named) in
  GetBills.bill_page (GetBills.ordinalSuffix (congress named))
    (ToString slug) num.

End BillDetail.

Import JsString Js.

Unset Implicit Arguments.

(* ================================================================== *)
(** * Auxiliary notions and sample data for the properties below *)

(** Keywords of the rules that come before rule 7 ("In Committee"). *)
Definition earlier_than_committee : list string :=
  flat_map fst (firstn 6 GetBills.spec_stage_rules).

Definition labelled (name : option string) : CityCouncil.VoteEntry :=
  {| CityCouncil.vote_id := 0;
     CityCouncil.vote_personName := None;
     CityCouncil.vote_value := 0;
     CityCouncil.vote_valueName := name;
     CityCouncil.vote_result := 0;
     CityCouncil.vote_eventItemId := 0;
     CityCouncil.vote_lastModified := None |}.

(** The buckets in the words of the specification: a record belongs to
    a bucket when its lower-cased value label contains one of the
    bucket's keywords. *)
Definition label_has (keywords : list string) (v : CityCouncil.VoteEntry)
  : bool :=
  match CityCouncil.vote_valueName v with
  | Some name => existsb (includes (toLowerCase name)) keywords
  | None => false
  end.

(** How many records of a history belong to a bucket. *)
Definition records_with (keywords : list string)
           (votes : list CityCouncil.VoteEntry) : Z :=
  Z.of_nat (List.length (filter (label_has keywords) votes)).

(** Text made of ASCII characters only (codes below 128), the text on
    which the case maps and [trim] of [JsString] are those of the code. *)
Definition ascii_text (s : string) : bool :=
  all_chars (fun c => (nat_of_ascii c <? 128)%nat) s.

(** The trimmed text of the state parameter, as [normalizeState] reads it. *)
Definition state_text (input : jsval) : string :=
  trim (ToString (or_else input (JStr ""))).

(** Letters, digits and the hyphen: what a rendered ordinal, a slug and a
    run of digits are made of. *)
Definition plain_char (c : ascii) : bool :=
  Url.is_alpha c || is_digit c || Ascii.eqb c "-".

Definition path_char (c : ascii) : bool :=
  plain_char c || Ascii.eqb c "/".

Definition plain (s : string) : Prop := all_chars plain_char s = true.

Definition bill_of (congress type number url : jsval) : GetBills.Bill :=
  {| GetBills.bill_congress := congress;
     GetBills.bill_type := type;
     GetBills.bill_number := number;
     GetBills.bill_url := url;
     GetBills.bill_apiUrl := JUndefined |}.

Definition offline {A : Type} : result A :=
  Throw (Error "Legistar API error: 503").

(** An upstream that fails every query. *)
Definition legistar_down : CityCouncil.Legistar :=
  {| CityCouncil.fetch_Persons_top10_active := fun _ => offline;
     CityCouncil.fetch_Matters_last12months := fun _ => offline;
     CityCouncil.fetch_Events_top10 := fun _ => offline;
     CityCouncil.fetch_Bodies := fun _ => offline;
     CityCouncil.fetch_OfficeRecords := fun _ => offline;
     CityCouncil.fetch_Persons_active := fun _ => offline;
     CityCouncil.fetch_Persons_top500 := fun _ => offline;
     CityCouncil.fetch_Persons := fun _ => offline;
     CityCouncil.fetch_Votes := fun _ _ => offline |}.

Definition remaining_sample (client : string) (event : CityCouncil.Event)
  : result CityCouncil.Response :=
  Ok {| CityCouncil.statusCode := 400;
        CityCouncil.body := CityCouncil.OtherBody "Invalid type parameter" |}.

Definition verify_request : CityCouncil.Event :=
  {| CityCouncil.httpMethod := JStr "GET";
     CityCouncil.qs_city := JUndefined;
     CityCouncil.qs_type := JStr "verify";
     CityCouncil.qs_client := JStr "glendale-az";
     CityCouncil.qs_personId := JUndefined |}.

Definition person (id : Z) (name : string) : CityCouncil.Person :=
  {| CityCouncil.PersonId := id;
     CityCouncil.PersonActiveFlag := 1;
     CityCouncil.PersonFullName := Some name;
     CityCouncil.PersonFirstName := None;
     CityCouncil.PersonLastName := None;
     CityCouncil.PersonEmail := None;
     CityCouncil.PersonPhone := None;
     CityCouncil.PersonWWW := None;
     CityCouncil.PersonAddress1 := None;
     CityCouncil.PersonCity1 := None;
     CityCouncil.PersonState1 := None;
     CityCouncil.PersonZip1 := None |}.

Definition office (personId : Z) (endDate : option string)
  : CityCouncil.OfficeRecord :=
  {| CityCouncil.OfficeRecordPersonId := personId;
     CityCouncil.OfficeRecordBodyId := 138;
     CityCouncil.OfficeRecordTitle := Some "Councilmember";
     CityCouncil.OfficeRecordBodyName := Some "City Council";
     CityCouncil.OfficeRecordStartDate := Some "2019-01-01T00:00:00";
     CityCouncil.OfficeRecordEndDate := endDate |}.

Definition city_council : CityCouncil.Body :=
  {| CityCouncil.BodyId := 138;
     CityCouncil.BodyName := Some "City Council";
     CityCouncil.BodyActiveFlag := 1 |}.

Definition three_persons : list CityCouncil.Person :=
  [person 10 "Ann Lee"; person 20 "Bo Diaz"; person 30 "Cy Park"].

(** One council body, a current and an ended office record, three
    persons. *)
Definition legistar_sample : CityCouncil.Legistar :=
  {| CityCouncil.fetch_Persons_top10_active := fun _ => Ok three_persons;
     CityCouncil.fetch_Matters_last12months := fun _ => offline;
     CityCouncil.fetch_Events_top10 := fun _ => offline;
     CityCouncil.fetch_Bodies := fun _ => Ok [city_council];
     CityCouncil.fetch_OfficeRecords :=
       fun _ => Ok [office 10 None; office 20 (Some "2022-12-31T00:00:00")];
     CityCouncil.fetch_Persons_active := fun _ => Ok three_persons;
     CityCouncil.fetch_Persons_top500 := fun _ => offline;
     CityCouncil.fetch_Persons := fun _ => offline;
     CityCouncil.fetch_Votes := fun _ _ => offline |}.

Definition raw_bill (id : Z) (number title status : string)
  : StateBills.RawBill :=
  {| StateBills.raw_bill_id := JNum id;
     StateBills.raw_id := JUndefined;
     StateBills.raw_number := JStr number;
     StateBills.raw_bill_number := JUndefined;
     StateBills.raw_bill := JUndefined;
     StateBills.raw_title := JStr title;
     StateBills.raw_description := JUndefined;
     StateBills.raw_status := JStr status;
     StateBills.raw_status_text := JUndefined;
     StateBills.raw_status_detail := JUndefined;
     StateBills.raw_url := JStr "https://legiscan.com/AZ/bill/HB2001/2026";
     StateBills.raw_last_action_date := JStr "2026-02-01";
     StateBills.raw_last_action := JUndefined;
     StateBills.raw_introduced_date := JUndefined |}.

Definition legiscan_sample (state : string) : result StateBills.Reply :=
  Ok {| StateBills.reply_status := JStr "OK";
        StateBills.reply_masterlist :=
          Some [ ("session", StateBills.EntryObject
                               (raw_bill 0 "" "" ""));
                 ("1", StateBills.EntryObject
                         (raw_bill 1 "HB2001" "Water rights" "Passed House"));
                 ("2", StateBills.EntryObject
                         (raw_bill 2 "SB1002" "School funding" "Referred"));
                 ("3", StateBills.EntryObject
                         (raw_bill 3 "HB2003" "Road repair" "Introduced")) ] |}.

Definition state_request (state limit offset : jsval) : StateBills.Event :=
  {| StateBills.qs_state := state;
     StateBills.qs_limit := limit;
     StateBills.qs_offset := offset |}.

(** A value the string methods can be called on after [v || ""]: falsy,
    or a string. *)
Definition text_like (v : jsval) : bool :=
  negb (truthy v) || match v with JStr _ => true | _ => false end.


Definition raw_listing_bill (congress type number text : jsval)
  : Listing.RawBill :=
  {| Listing.raw_fields :=
       {| GetBills.bill_congress := congress;
          GetBills.bill_type := type;
          GetBills.bill_number := number;
          GetBills.bill_url := JUndefined;
          GetBills.bill_apiUrl := JUndefined |};
     Listing.raw_title := JStr "A bill";
     Listing.raw_latestAction :=
       Some {| Listing.action_text := text;
               Listing.action_actionDate := JStr "2026-01-15" |};
     Listing.raw_updateDate := JUndefined |}.

Definition congress_sample_bills : list Listing.RawBill :=
  [ raw_listing_bill (JNum 119) (JStr "HR") (JStr "187")
      (JStr "Referred to the Committee on Ways and Means");
    raw_listing_bill (JNum 119) (JStr "s") (JNum 12)
      (JStr "Became Public Law No: 119-4") ].

Definition congress_sample (limit offset : string)
  : result (option Listing.Data) :=
  Ok (Some {| Listing.data_bills :=
                Listing.Array (map Some congress_sample_bills);
              Listing.data_results := Listing.Missing |}).


Definition listing_request : Listing.Event :=
  {| Listing.qs_limit := JUndefined; Listing.qs_offset := JUndefined |}.

(** Persons only: no bodies and no office records can be fetched. *)
Definition legistar_persons_only : CityCouncil.Legistar :=
  {| CityCouncil.fetch_Persons_top10_active := fun _ => offline;
     CityCouncil.fetch_Matters_last12months := fun _ => offline;
     CityCouncil.fetch_Events_top10 := fun _ => Ok [];
     CityCouncil.fetch_Bodies := fun _ => offline;
     CityCouncil.fetch_OfficeRecords := fun _ => offline;
     CityCouncil.fetch_Persons_active := fun _ => Ok [];
     CityCouncil.fetch_Persons_top500 :=
       fun _ => Ok [person 10 "Ann Lee"; person 40 "City Clerk";
                    person 50 "Legistar System"];
     CityCouncil.fetch_Persons := fun _ => offline;
     CityCouncil.fetch_Votes := fun _ _ => offline |}.

Definition members_request (city type : string) : CityCouncil.Event :=
  {| CityCouncil.httpMethod := JStr "GET";
     CityCouncil.qs_city := JStr city;
     CityCouncil.qs_type := JStr type;
     CityCouncil.qs_client := JUndefined;
     CityCouncil.qs_personId := JUndefined |}.

Definition priority_values : list Z := [3; 5; 7; 8; 10].






Definition event_row (id : Z) : CityBranches.EventRow :=
  {| CityBranches.EventId := JNum id;
     CityBranches.EventDate := JStr "2026-03-02T00:00:00";
     CityBranches.EventTime := JStr "5:30 PM";
     CityBranches.EventBodyName := JStr "City Council";
     CityBranches.EventLocation := JStr "Council Chambers";
     CityBranches.EventAgendaStatusName := JStr "Final";
     CityBranches.EventMinutesStatusName := JStr "Draft";
     CityBranches.EventInSiteURL := JNull;
     CityBranches.EventAgendaFile := JNull;
     CityBranches.EventMinutesFile := JNull;
     CityBranches.EventVideoPath := JStr "" |}.

(** An upstream with no upcoming event, whose second events query
    answers, and whose agenda reply has a [null] entry. *)
Definition events_sample : CityBranches.Legistar :=
  {| CityBranches.fetch_Matters_since := fun _ _ => offline;
     CityBranches.fetch_Matters_lastModified := fun _ => offline;
     CityBranches.fetch_Matters_top50 := fun _ => offline;
     CityBranches.fetch_Events_from := fun _ _ => Ok (CityBranches.Rows []);
     CityBranches.fetch_Events_desc :=
       fun _ => Ok (CityBranches.Rows (map Some [event_row 31; event_row 30]));
     CityBranches.fetch_Events_top20 := fun _ => offline;
     CityBranches.fetch_Matter := fun _ _ => offline;
     CityBranches.fetch_Sponsors := fun _ _ => offline;
     CityBranches.fetch_Histories := fun _ _ => offline;
     CityBranches.fetch_EventItems :=
       fun _ _ => Ok (CityBranches.Rows [None]) |}.

(* ================================================================== *)
(** * The models on sample inputs *)

Example pathname_api :
  Url.pathname "https://api.congress.gov/v3/bill/118/hr/123?format=json"
  = Some "/v3/bill/118/hr/123".
Proof. reflexivity. Qed.
Example pathname_dots :
  Url.pathname " HTTPS:\\h:80\a/./b/../c d/%2E%2e/x/..#f"
  = Some "/a/".
Proof. reflexivity. Qed.
Example pathname_encoded :
  Url.pathname "http://h/a b/<c>?q" = Some "/a%20b/%3Cc%3E".
Proof. reflexivity. Qed.
Example pathname_empty : Url.pathname "" = None.
Proof. reflexivity. Qed.
Example pathname_root : Url.pathname "https://www.congress.gov" = Some "/".
Proof. reflexivity. Qed.

Example ordinal_119 : GetBills.ordinalSuffix (JNum 119) = "119th".
Proof. reflexivity. Qed.
Example ordinal_str : GetBills.ordinalSuffix (JStr " 22 ") = "22nd".
Proof. reflexivity. Qed.
Example ordinal_nan : GetBills.ordinalSuffix (JStr "119th-congress") = "NaNth".
Proof. reflexivity. Qed.
Example ordinal_neg : GetBills.ordinalSuffix (JNum (-1)) = "-1th".
Proof. reflexivity. Qed.
Example build_hr187 :
  GetBills.buildPublicUrl
    {| GetBills.bill_congress := JNum 119; GetBills.bill_type := JStr "HR";
       GetBills.bill_number := JStr "H.R.187";
       GetBills.bill_url := JUndefined; GetBills.bill_apiUrl := JUndefined |}
  = Ok "https://www.congress.gov/bill/119th-congress/house-bill/187".
Proof. reflexivity. Qed.
Example build_api :
  GetBills.buildPublicUrl
    {| GetBills.bill_congress := JUndefined; GetBills.bill_type := JUndefined;
       GetBills.bill_number := JUndefined;
       GetBills.bill_url := JStr "https://api.congress.gov/v3/bill/118/XX/123?format=json";
       GetBills.bill_apiUrl := JUndefined |}
  = Ok "https://www.congress.gov/bill/118th-congress/xx-bill/123".
Proof. reflexivity. Qed.

Example iso_epoch : CityCouncil.iso_date_time "1970-01-01T00:00:00" = Some 0.
Proof. reflexivity. Qed.
Example iso_2026 :
  CityCouncil.iso_date_time "2026-02-23T12:30:15" = Some 1771849815000.
Proof. reflexivity. Qed.

(* ================================================================== *)
(** * Facts about the string functions *)

Lemma all_chars_app p (a b : string) :
  all_chars p (a ++ b) = all_chars p a && all_chars p b.
Proof.
  induction a as [|c a IH]; cbn; [reflexivity|].
  rewrite IH, andb_assoc. reflexivity.
Qed.

Lemma all_chars_impl (p q : ascii -> bool) (s : string) :
  (forall c, p c = true -> q c = true) ->
  all_chars p s = true -> all_chars q s = true.
Proof.
  intros Hpq. induction s as [|c s IH]; cbn; [reflexivity|].
  rewrite !andb_true_iff. intros [Hc Hs]. auto.
Qed.

Lemma strip_end_id p (s : string) :
  all_chars (fun c => negb (p c)) s = true -> strip_end p s = s.
Proof.
  induction s as [|c s IH]; cbn; [reflexivity|].
  rewrite andb_true_iff, negb_true_iff. intros [Hc Hs].
  rewrite (IH Hs), Hc. destruct s; reflexivity.
Qed.

Lemma filter_chars_id p (s : string) :
  all_chars p s = true -> filter_chars p s = s.
Proof.
  induction s as [|c s IH]; cbn; [reflexivity|].
  rewrite andb_true_iff. intros [Hc Hs]. rewrite Hc, (IH Hs). reflexivity.
Qed.

Lemma break_at_none p (s : string) :
  all_chars (fun c => negb (p c)) s = true -> break_at p s = (s, "").
Proof.
  induction s as [|c s IH]; cbn; [reflexivity|].
  rewrite andb_true_iff, negb_true_iff. intros [Hc Hs].
  rewrite Hc, (IH Hs). reflexivity.
Qed.

Lemma map_chars_id f (s : string) :
  all_chars (fun c => Ascii.eqb (f c) c) s = true -> map_chars f s = s.
Proof.
  induction s as [|c s IH]; cbn; [reflexivity|].
  rewrite andb_true_iff. intros [Hc Hs]. apply Ascii.eqb_eq in Hc.
  rewrite Hc, (IH Hs). reflexivity.
Qed.

Lemma filter_chars_all p (s : string) : all_chars p (filter_chars p s) = true.
Proof.
  induction s as [|c s IH]; cbn; [reflexivity|].
  destruct (p c) eqn:Hc; cbn; [rewrite Hc|]; exact IH.
Qed.

Lemma split_nonnil sep (s : string) : split sep s <> [].
Proof.
  destruct s as [|c s]; cbn; [discriminate|].
  destruct (Ascii.eqb c sep); [discriminate|].
  destruct (split sep s); discriminate.
Qed.

(* ================================================================== *)
(** * Properties of the ordinal formatter *)

Lemma of_Z_nonneg_digits (n : Z) :
  0 <= n -> all_chars is_digit (of_Z n) = true.
Proof.
  intros Hn. unfold of_Z.
  destruct n as [|p|p]; [reflexivity| |lia].
  cbn [Z.to_int NilEmpty.string_of_int].
  generalize (Pos.to_uint p) as d.
  induction d; cbn; auto.
Qed.

Ltac eval_digit :=
  match goal with
  | |- context [Z.of_nat (nat_of_ascii ?c - 48)] =>
      let v := eval vm_compute in (Z.of_nat (nat_of_ascii c - 48)) in
      change (Z.of_nat (nat_of_ascii c - 48)) with v
  end.

Lemma digits_value_acc (d : Decimal.uint) (acc : positive) :
  digits_value (Zpos acc) (NilEmpty.string_of_uint d)
  = Zpos (Pos.of_uint_acc d acc).
Proof.
  revert acc.
  induction d; intros acc;
    cbn [NilEmpty.string_of_uint digits_value Pos.of_uint_acc];
    try reflexivity;
    rewrite <- IHd; f_equal; eval_digit; lia.
Qed.

Lemma digits_value_uint (d : Decimal.uint) :
  digits_value 0 (NilEmpty.string_of_uint d) = Z.of_N (Pos.of_uint d).
Proof.
  induction d; cbn [NilEmpty.string_of_uint digits_value Pos.of_uint];
    try reflexivity; eval_digit; cbn [Z.mul Z.add Z.of_N];
    [exact IHd | apply digits_value_acc ..].
Qed.

Lemma digit_not_space c : is_digit c = true -> negb (is_space c) = true.
Proof.
  destruct c as [[] [] [] [] [] [] [] []]; vm_compute; congruence.
Qed.

(** Reading back the decimal form of a non-negative integer. *)
Lemma StringToNumber_of_Z (n : Z) : 0 <= n -> StringToNumber (of_Z n) = Int n.
Proof.
  intros Hn. pose proof (of_Z_nonneg_digits n Hn) as Hdigits.
  assert (Hvalue : digits_value 0 (of_Z n) = n).
  { unfold of_Z. destruct n as [|p|p]; [reflexivity| |lia].
    cbn [Z.to_int NilEmpty.string_of_int].
    rewrite digits_value_uint, Unsigned.of_to. reflexivity. }
  unfold StringToNumber, trim.
  destruct (of_Z n) as [|c s] eqn:Hs.
  - cbn in Hvalue. subst n. reflexivity.
  - cbn [all_chars] in Hdigits. apply andb_true_iff in Hdigits.
    destruct Hdigits as [Hc Hrest].
    pose proof (digit_not_space c Hc) as Hsp. apply negb_true_iff in Hsp.
    cbn [strip_start]. rewrite Hsp.
    rewrite strip_end_id.
    2:{ cbn [all_chars]. rewrite Hsp. cbn [negb andb].
        apply (all_chars_impl is_digit); [exact digit_not_space | exact Hrest]. }
    assert (Hlit : unsigned_literal (String c s) = Int n).
    { unfold unsigned_literal. cbn [nonempty all_chars andb].
      rewrite Hc, Hrest, Hvalue. reflexivity. }
    rewrite <- Hlit. clear -Hc.
    destruct c as [[] [] [] [] [] [] [] []]; try discriminate Hc; reflexivity.
Qed.

(** The ordinal of a numeric string is that of its number. *)
Lemma ordinalSuffix_numeric_string (n : Z) :
  0 <= n ->
  GetBills.ordinalSuffix (JStr (of_Z n)) = GetBills.ordinalSuffix (JNum n).
Proof.
  intros Hn. unfold GetBills.ordinalSuffix. cbn [Number].
  rewrite (StringToNumber_of_Z n Hn). reflexivity.
Qed.

(** C8: for every non-negative integer [n] that a number of the code
    holds exactly (up to [MAX_SAFE_INTEGER]), [ordinalSuffix(n)] is the
    decimal form of [n] followed by "th" when [n mod 100] lies in
    [11,13], and otherwise by "st", "nd", "rd" or "th" as [n mod 10] is
    1, 2, 3 or anything else; so 119 gives "119th", 101 gives "101st" and
    112 gives "112th".  The same holds when [n] comes as its decimal
    string. *)
Theorem ordinalSuffix_rule :
  (forall n : Z, 0 <= n <= MAX_SAFE_INTEGER ->
     GetBills.ordinalSuffix (JNum n) =
       of_Z n ++
       (if (11 <=? n mod 100) && (n mod 100 <=? 13) then "th"
        else if n mod 10 =? 1 then "st"
        else if n mod 10 =? 2 then "nd"
        else if n mod 10 =? 3 then "rd"
        else "th"))
  /\ (forall n : Z, 0 <= n <= MAX_SAFE_INTEGER ->
        GetBills.ordinalSuffix (JStr (of_Z n))
        = GetBills.ordinalSuffix (JNum n))
  /\ GetBills.ordinalSuffix (JNum 119) = "119th"
  /\ GetBills.ordinalSuffix (JNum 101) = "101st"
  /\ GetBills.ordinalSuffix (JNum 112) = "112th".
Proof.
  split; [|split; [intros n [Hn _]; exact (ordinalSuffix_numeric_string n Hn)|]];
    [|repeat split; reflexivity].
  intros n [Hn _]. unfold GetBills.ordinalSuffix.
  cbn [Number rem geb leb strict_eqb NumberToString].
  rewrite !Z.rem_mod_nonneg by lia.
  destruct ((11 <=? n mod 100) && (n mod 100 <=? 13)); [reflexivity|].
  destruct (n mod 10 =? 1); [reflexivity|].
  destruct (n mod 10 =? 2); [reflexivity|].
  destruct (n mod 10 =? 3); reflexivity.
Qed.

Lemma ordinalSuffix_rule_witness :
  0 <= 22 <= MAX_SAFE_INTEGER
  /\ GetBills.ordinalSuffix (JNum 22) = "22nd"
  /\ GetBills.ordinalSuffix (JStr "9007199254740991")
     = "9007199254740991st".
Proof.
  assert (H22 : 0 <= 22 <= MAX_SAFE_INTEGER) by (unfold MAX_SAFE_INTEGER; lia).
  assert (Hmax : 0 <= MAX_SAFE_INTEGER <= MAX_SAFE_INTEGER)
    by (unfold MAX_SAFE_INTEGER; lia).
  split; [exact H22|]. split.
  - rewrite (proj1 ordinalSuffix_rule 22 H22). reflexivity.
  - change "9007199254740991" with (of_Z MAX_SAFE_INTEGER).
    rewrite (proj1 (proj2 ordinalSuffix_rule) MAX_SAFE_INTEGER Hmax).
    rewrite (proj1 ordinalSuffix_rule MAX_SAFE_INTEGER Hmax). reflexivity.
Defined.

(* ================================================================== *)
(** * Properties of the stage classifier *)

Ltac case_includes :=
  repeat match goal with
         | |- context [includes ?l ?kw] =>
             destruct (includes l kw); cbn [orb andb]; try reflexivity
         end.

Lemma deriveBillStage_refines (t : string) :
  GetBills.deriveBillStage (JStr t) = Ok (GetBills.spec_stage t).
Proof.
  unfold GetBills.deriveBillStage, GetBills.spec_stage, or_else.
  assert (Hl : call_toLowerCase (if truthy (JStr t) then JStr t else JStr "")
               = Ok (toLowerCase t)) by (destruct t; reflexivity).
  rewrite Hl. cbn [bind].
  unfold GetBills.spec_stage_rules, GetBills.spec_rule_matches.
  cbn [find existsb fst snd].
  generalize (toLowerCase t) as l. intros l.
  case_includes.
Qed.

(** C3: on every string, [deriveBillStage] is the first-match-wins
    evaluation of the eight ordered keyword rules of section 4.3 over the
    lower-cased text, with ("In Progress", 3) when no rule matches, the
    empty text included; a text with "introduced" and "referred to" and
    no keyword of rules 1 to 6 is ("In Committee", 4). *)
Theorem deriveBillStage_spec :
  (forall t : string,
     GetBills.deriveBillStage (JStr t) = Ok (GetBills.spec_stage t))
  /\ (forall t : string,
        forallb (fun rule => negb (GetBills.spec_rule_matches t rule))
          GetBills.spec_stage_rules = true ->
        GetBills.deriveBillStage (JStr t)
        = Ok {| GetBills.display := "In Progress"; GetBills.priority := 3 |})
  /\ GetBills.deriveBillStage (JStr "")
     = Ok {| GetBills.display := "In Progress"; GetBills.priority := 3 |}
  /\ (forall t : string,
        includes (toLowerCase t) "introduced" = true ->
        includes (toLowerCase t) "referred to" = true ->
        forallb (fun kw => negb (includes (toLowerCase t) kw))
          earlier_than_committee = true ->
        GetBills.deriveBillStage (JStr t)
        = Ok {| GetBills.display := "In Committee"; GetBills.priority := 4 |}).
Proof.
  split; [exact deriveBillStage_refines|].
  split; [|split; [reflexivity|]].
  - intros t Hnone. rewrite deriveBillStage_refines.
    unfold GetBills.spec_stage.
    destruct (find (GetBills.spec_rule_matches t) GetBills.spec_stage_rules)
      as [rule|] eqn:Hfind; [|reflexivity].
    apply find_some in Hfind. destruct Hfind as [Hin Hm].
    rewrite forallb_forall in Hnone. apply Hnone in Hin.
    rewrite Hm in Hin. discriminate.
  - intros t _ Href Hearlier. rewrite deriveBillStage_refines.
    unfold GetBills.spec_stage, GetBills.spec_stage_rules,
      GetBills.spec_rule_matches.
    cbn [find existsb fst snd].
    cbn [earlier_than_committee GetBills.spec_stage_rules firstn flat_map
           fst app forallb] in Hearlier.
    revert Href Hearlier. generalize (toLowerCase t) as l. intros l Href.
    rewrite Href.
    repeat match goal with
           | |- context [negb (includes ?l ?kw)] =>
               destruct (includes l kw); cbn [negb andb orb];
               try discriminate
           end.
    reflexivity.
Qed.

Lemma deriveBillStage_spec_witness :
  GetBills.deriveBillStage (JStr "Introduced in House; Referred to the Committee on Ways and Means")
  = Ok {| GetBills.display := "In Committee"; GetBills.priority := 4 |}.
Proof.
  apply (proj2 (proj2 (proj2 deriveBillStage_spec))); reflexivity.
Defined.

(* ================================================================== *)
(** * Properties of the vote tally *)

Example tally_of_ten :
  CityCouncil.summarize
    (repeat (labelled (Some "Aye")) 7 ++ repeat (labelled (Some "Absent")) 2
       ++ [labelled (Some "Nay")])%list
  = {| CityCouncil.total := 10; CityCouncil.yes := 7; CityCouncil.no := 1;
       CityCouncil.absent := 2; CityCouncil.abstain := 0 |}.
Proof. reflexivity. Qed.

Lemma countWhere_bounds (test : CityCouncil.VoteEntry -> bool)
      (votes : list CityCouncil.VoteEntry) :
  0 <= CityCouncil.countWhere test votes <= Z.of_nat (List.length votes).
Proof.
  unfold CityCouncil.countWhere.
  pose proof (filter_length_le test votes). lia.
Qed.

(** C2 (counterexample): the label "Not Present" contains "no" and
    "present", so one record is counted under no and under abstain, and
    the four counts add up to more than the total. *)
Lemma vote_buckets_overlap :
  CityCouncil.countsNo (labelled (Some "Not Present")) = true
  /\ CityCouncil.countsAbstain (labelled (Some "Not Present")) = true
  /\ CityCouncil.summarize [labelled (Some "Not Present")]
     = {| CityCouncil.total := 1; CityCouncil.yes := 0; CityCouncil.no := 1;
          CityCouncil.absent := 0; CityCouncil.abstain := 1 |}
  /\ ~ (forall votes : list CityCouncil.VoteEntry,
          let s := CityCouncil.summarize votes in
          CityCouncil.yes s + CityCouncil.no s + CityCouncil.absent s
          + CityCouncil.abstain s <= CityCouncil.total s).
Proof.
  repeat split; try reflexivity.
  intros H. specialize (H [labelled (Some "Not Present")]).
  vm_compute in H. apply H. reflexivity.
Qed.

Lemma label_test_has (keywords : list string) (test : string -> bool)
      (v : CityCouncil.VoteEntry) :
  (forall l, test l = existsb (includes l) keywords) ->
  existsb (includes EmptyString) keywords = false ->
  CityCouncil.label_test test v = label_has keywords v.
Proof.
  intros Htest Hempty. unfold CityCouncil.label_test, label_has.
  destruct (CityCouncil.vote_valueName v) as [[|c name]|]; [| |reflexivity].
  - cbn [nonempty andb toLowerCase map_chars]. symmetry. exact Hempty.
  - cbn [nonempty andb]. apply Htest.
Qed.

Lemma countWhere_ext (f g : CityCouncil.VoteEntry -> bool)
      (votes : list CityCouncil.VoteEntry) :
  (forall v, f v = g v) ->
  CityCouncil.countWhere f votes
  = Z.of_nat (List.length (filter g votes)).
Proof.
  intros Hfg. unfold CityCouncil.countWhere.
  rewrite (filter_ext f g Hfg). reflexivity.
Qed.

(** C2 (amended): each of the four counts of the summary is the number
    of records whose lower-cased label contains a keyword of that bucket,
    each bucket on its own, so a record is counted in every bucket it
    matches, in several or in none; a record with no label or an empty
    one is counted in none; the total is the number of records and each
    count lies between 0 and the total. *)
Theorem vote_buckets_independent :
  (forall (v : CityCouncil.VoteEntry) (name : string),
     CityCouncil.vote_valueName v = Some name -> name <> "" ->
     let l := toLowerCase name in
     CityCouncil.countsYes v
     = (includes l "aye" || includes l "yes" || includes l "affirmative")
     /\ CityCouncil.countsNo v = (includes l "nay" || includes l "no")
     /\ CityCouncil.countsAbsent v
        = (includes l "absent" || includes l "excused")
     /\ CityCouncil.countsAbstain v
        = (includes l "abstain" || includes l "present"))
  /\ (forall v : CityCouncil.VoteEntry,
        CityCouncil.vote_valueName v = None
        \/ CityCouncil.vote_valueName v = Some "" ->
        CityCouncil.countsYes v = false /\ CityCouncil.countsNo v = false
        /\ CityCouncil.countsAbsent v = false
        /\ CityCouncil.countsAbstain v = false)
  /\ (forall votes : list CityCouncil.VoteEntry,
        let s := CityCouncil.summarize votes in
        CityCouncil.total s = Z.of_nat (List.length votes)
        /\ CityCouncil.yes s
           = records_with ["aye"; "yes"; "affirmative"] votes
        /\ CityCouncil.no s = records_with ["nay"; "no"] votes
        /\ CityCouncil.absent s = records_with ["absent"; "excused"] votes
        /\ CityCouncil.abstain s
           = records_with ["abstain"; "present"] votes
        /\ 0 <= CityCouncil.yes s <= CityCouncil.total s
        /\ 0 <= CityCouncil.no s <= CityCouncil.total s
        /\ 0 <= CityCouncil.absent s <= CityCouncil.total s
        /\ 0 <= CityCouncil.abstain s <= CityCouncil.total s)
  /\ (forall (v : CityCouncil.VoteEntry)
             (votes : list CityCouncil.VoteEntry),
        let s := CityCouncil.summarize votes in
        let s' := CityCouncil.summarize (v :: votes) in
        let counted (keywords : list string) : Z :=
          if label_has keywords v then 1 else 0 in
        CityCouncil.total s' = CityCouncil.total s + 1
        /\ CityCouncil.yes s'
           = CityCouncil.yes s + counted ["aye"; "yes"; "affirmative"]
        /\ CityCouncil.no s' = CityCouncil.no s + counted ["nay"; "no"]
        /\ CityCouncil.absent s'
           = CityCouncil.absent s + counted ["absent"; "excused"]
        /\ CityCouncil.abstain s'
           = CityCouncil.abstain s + counted ["abstain"; "present"]).
Proof.
  assert (Hyes : forall v, CityCouncil.countsYes v
                           = label_has ["aye"; "yes"; "affirmative"] v).
  { intros v. apply label_test_has; [|reflexivity].
    intros l. cbn [existsb]. rewrite orb_false_r, orb_assoc. reflexivity. }
  assert (Hno : forall v, CityCouncil.countsNo v
                          = label_has ["nay"; "no"] v).
  { intros v. apply label_test_has; [|reflexivity].
    intros l. cbn [existsb]. rewrite orb_false_r. reflexivity. }
  assert (Habsent : forall v, CityCouncil.countsAbsent v
                              = label_has ["absent"; "excused"] v).
  { intros v. apply label_test_has; [|reflexivity].
    intros l. cbn [existsb]. rewrite orb_false_r. reflexivity. }
  assert (Habstain : forall v, CityCouncil.countsAbstain v
                               = label_has ["abstain"; "present"] v).
  { intros v. apply label_test_has; [|reflexivity].
    intros l. cbn [existsb]. rewrite orb_false_r. reflexivity. }
  split; [|split; [|split]].
  - intros v name Hname Hne l.
    unfold CityCouncil.countsYes, CityCouncil.countsNo,
      CityCouncil.countsAbsent, CityCouncil.countsAbstain,
      CityCouncil.label_test.
    rewrite Hname. destruct name as [|c name]; [congruence|].
    cbn [nonempty andb]. repeat split; reflexivity.
  - intros v [Hv|Hv];
      unfold CityCouncil.countsYes, CityCouncil.countsNo,
        CityCouncil.countsAbsent, CityCouncil.countsAbstain,
        CityCouncil.label_test;
      rewrite Hv; repeat split; reflexivity.
  - intros votes.
    cbn [CityCouncil.summarize CityCouncil.total CityCouncil.yes
           CityCouncil.no CityCouncil.absent CityCouncil.abstain].
    unfold records_with.
    split; [reflexivity|].
    split; [exact (countWhere_ext _ _ votes Hyes)|].
    split; [exact (countWhere_ext _ _ votes Hno)|].
    split; [exact (countWhere_ext _ _ votes Habsent)|].
    split; [exact (countWhere_ext _ _ votes Habstain)|].
    repeat split; apply countWhere_bounds.
  - intros v votes.
    cbn [CityCouncil.summarize CityCouncil.total CityCouncil.yes
           CityCouncil.no CityCouncil.absent CityCouncil.abstain].
    unfold CityCouncil.countWhere. cbn [filter List.length].
    rewrite (Hyes v), (Hno v), (Habsent v), (Habstain v).
    repeat split;
      match goal with
      | |- context [if ?b then _ :: _ else _] => destruct b
      | _ => idtac
      end; cbn [List.length]; lia.
Qed.

Lemma vote_buckets_independent_witness :
  CityCouncil.countsNo (labelled (Some "Nay")) = true
  /\ CityCouncil.countsYes (labelled None) = false
  /\ CityCouncil.no
       (CityCouncil.summarize
          [labelled (Some "Not Present"); labelled (Some "NAY");
           labelled (Some "Aye"); labelled None])
     = 2.
Proof.
  split; [|split].
  - destruct (proj1 vote_buckets_independent (labelled (Some "Nay")) "Nay")
      as (_ & Hno & _); [reflexivity | discriminate | exact Hno].
  - destruct (proj1 (proj2 vote_buckets_independent) (labelled None))
      as (Hyes & _); [left; reflexivity | exact Hyes].
  - destruct (proj1 (proj2 (proj2 vote_buckets_independent))
                [labelled (Some "Not Present"); labelled (Some "NAY");
                 labelled (Some "Aye"); labelled None])
      as (_ & _ & Hno & _).
    rewrite Hno. reflexivity.
Defined.

(* ================================================================== *)
(** * Properties of the verification endpoint *)

Section Verify.

Variable Date_parse : string -> option Z.
Variable now : Z.
Variable now_iso : string.
Variable remaining : string -> CityCouncil.Event -> result CityCouncil.Response.

Let handler := CityCouncil.handler Date_parse now now_iso remaining.

Lemma verifyResponse_200 client (verification : result CityCouncil.Report) :
  CityCouncil.statusCode (CityCouncil.verifyResponse client verification)
  = 200.
Proof. destruct verification; reflexivity. Qed.

Lemma is_string_exclusive (v : jsval) (a b : string) :
  is_string v a = true -> a <> b -> is_string v b = false.
Proof.
  destruct v; cbn; try discriminate.
  intros Ha Hab. apply String.eqb_eq in Ha. subst.
  apply String.eqb_neq. exact Hab.
Qed.

Lemma check_of_failed {A : Type} (e : jserror) keep (name : A -> string) :
  CityCouncil.check_of (Throw e) keep name
  = {| CityCouncil.pass := false; CityCouncil.count := 0;
       CityCouncil.detail := CityCouncil.CheckError (message e) |}.
Proof. reflexivity. Qed.

(** C9: a request with type=verify and a non-empty client is answered
    with status 200 whatever the upstream does.  When the three probes
    all fail, the body is a report with [overallPass = false] whose
    checks each carry the error message; and were the verification
    itself to throw, the body would still come with status 200,
    [overallPass = false] and the error message. *)
Theorem verify_status_200 :
  forall (api : CityCouncil.Legistar) (event : CityCouncil.Event),
    is_string (CityCouncil.qs_type event) "verify" = true ->
    truthy (CityCouncil.qs_client event) = true ->
    CityCouncil.statusCode (handler api event) = 200
    /\ (forall e1 e2 e3,
          is_string (CityCouncil.httpMethod event) "OPTIONS" = false ->
          let client := ToString (CityCouncil.qs_client event) in
          CityCouncil.fetch_Persons_top10_active api client = Throw e1 ->
          CityCouncil.fetch_Matters_last12months api client = Throw e2 ->
          CityCouncil.fetch_Events_top10 api client = Throw e3 ->
          exists report,
            CityCouncil.body (handler api event)
            = CityCouncil.VerificationReport report
                CityCouncil.recommendation_fail
            /\ CityCouncil.overallPass report = false
            /\ CityCouncil.check_persons report
               = {| CityCouncil.pass := false; CityCouncil.count := 0;
                    CityCouncil.detail :=
                      CityCouncil.CheckError (message e1) |}
            /\ CityCouncil.check_legislation report
               = {| CityCouncil.pass := false; CityCouncil.count := 0;
                    CityCouncil.detail :=
                      CityCouncil.CheckError (message e2) |}
            /\ CityCouncil.check_events report
               = {| CityCouncil.pass := false; CityCouncil.count := 0;
                    CityCouncil.detail :=
                      CityCouncil.CheckError (message e3) |})
    /\ (forall e,
          CityCouncil.verifyResponse
            (ToString (CityCouncil.qs_client event)) (Throw e)
          = {| CityCouncil.statusCode := 200;
               CityCouncil.body :=
                 CityCouncil.VerificationFailed
                   (ToString (CityCouncil.qs_client event)) false
                   (message e) CityCouncil.recommendation_unreachable |}).
Proof.
  intros api event Htype Hclient.
  assert (Hcities : is_string (CityCouncil.qs_type event) "cities" = false)
    by (apply (is_string_exclusive _ _ _ Htype); discriminate).
  unfold handler, CityCouncil.handler.
  rewrite Hcities, Htype, Hclient. cbn [negb].
  split; [|split].
  - destruct (is_string (CityCouncil.httpMethod event) "OPTIONS");
      [reflexivity | apply verifyResponse_200].
  - intros e1 e2 e3 Hmethod H1 H2 H3. rewrite Hmethod.
    unfold CityCouncil.verifyCity. rewrite H1, H2, H3.
    rewrite !check_of_failed. cbn.
    eexists. split; [reflexivity|]. cbn. repeat split; reflexivity.
  - intros e. reflexivity.
Qed.

End Verify.

(* ================================================================== *)
(** * Properties of the roster *)

Lemma filter_unique_id (persons : list CityCouncil.Person) (pid : Z) :
  NoDup (map CityCouncil.PersonId persons) ->
  In pid (map CityCouncil.PersonId persons) ->
  exists p,
    filter (fun q => CityCouncil.includes_id [pid] (CityCouncil.PersonId q))
      persons = [p]
    /\ CityCouncil.PersonId p = pid.
Proof.
  induction persons as [|q persons IH]; cbn [map In filter]; [tauto|].
  intros Hnodup Hin. inversion Hnodup as [|? ? Hnotin Hnodup']; subst.
  unfold CityCouncil.includes_id at 1. cbn [existsb].
  destruct (Z.eqb_spec (CityCouncil.PersonId q) pid) as [Heq|Hne].
  - exists q. split; [|exact Heq]. cbn [orb]. f_equal.
    clear IH Hin Hnodup Hnodup'.
    induction persons as [|r persons IH]; [reflexivity|].
    cbn [map In filter] in *.
    unfold CityCouncil.includes_id at 1. cbn [existsb].
    destruct (Z.eqb_spec (CityCouncil.PersonId r) pid) as [Heq'|_].
    + exfalso. apply Hnotin. left. congruence.
    + cbn [orb]. apply IH. tauto.
  - cbn [orb]. apply IH; [exact Hnodup'|].
    destruct Hin as [Hin|Hin]; [contradiction | exact Hin].
Qed.

Section Roster.

Variable Date_parse : string -> option Z.
Variable now : Z.

Let isActive := CityCouncil.isActive Date_parse now.
Let members := CityCouncil.members Date_parse now.

Lemma isActive_iff (r : CityCouncil.OfficeRecord) :
  isActive r = true <->
  (CityCouncil.OfficeRecordEndDate r = None
   \/ CityCouncil.OfficeRecordEndDate r = Some ""
   \/ exists (endDate : string) (t : Z),
        CityCouncil.OfficeRecordEndDate r = Some endDate
        /\ Date_parse endDate = Some t /\ now < t).
Proof.
  unfold isActive, CityCouncil.isActive, CityCouncil.or_null.
  destruct (CityCouncil.OfficeRecordEndDate r) as [[|c s]|].
  - split; auto.
  - destruct (Date_parse (String c s)) as [t|] eqn:Ht.
    + rewrite Z.ltb_lt. split.
      * intros Hlt. right. right. exists (String c s), t. auto.
      * intros [H|[H|(d & t' & Hd & Ht' & Hlt)]]; try discriminate.
        injection Hd as <-. congruence.
    + split; [discriminate|].
      intros [H|[H|(d & t' & Hd & Ht' & Hlt)]]; try discriminate.
      injection Hd as <-. congruence.
  - split; auto.
Qed.

Lemma isPrimaryBody_city_council (b : CityCouncil.Body) :
  CityCouncil.BodyName b = Some "City Council" ->
  CityCouncil.BodyActiveFlag b = 1 ->
  CityCouncil.isPrimaryBody b = true.
Proof.
  intros Hname Hflag. unfold CityCouncil.isPrimaryBody.
  rewrite Hname, Hflag. reflexivity.
Qed.

(** C6: an office record is active exactly when its end date is absent
    (null or empty) or parses to a time strictly after the request
    time.  So with one active body named "City Council", two office
    records of that body, one without end date and one whose end date is
    not after the request time, and three persons with distinct ids
    among whom are both holders, the members returned are exactly one:
    the holder of the record without end date. *)
Theorem roster_active_office :
  (forall r : CityCouncil.OfficeRecord,
     isActive r = true <->
     (CityCouncil.OfficeRecordEndDate r = None
      \/ CityCouncil.OfficeRecordEndDate r = Some ""
      \/ exists (endDate : string) (t : Z),
           CityCouncil.OfficeRecordEndDate r = Some endDate
           /\ Date_parse endDate = Some t /\ now < t))
  /\ (forall (api : CityCouncil.Legistar) (client : string)
             (body : CityCouncil.Body)
             (current ended : CityCouncil.OfficeRecord)
             (endDate : string) (t : Z)
             (persons : list CityCouncil.Person),
        CityCouncil.fetch_Bodies api client = Ok [body] ->
        CityCouncil.BodyName body = Some "City Council" ->
        CityCouncil.BodyActiveFlag body = 1 ->
        (CityCouncil.fetch_OfficeRecords api client = Ok [current; ended]
         \/ CityCouncil.fetch_OfficeRecords api client
            = Ok [ended; current]) ->
        CityCouncil.OfficeRecordBodyId current = CityCouncil.BodyId body ->
        CityCouncil.OfficeRecordBodyId ended = CityCouncil.BodyId body ->
        CityCouncil.OfficeRecordEndDate current = None ->
        CityCouncil.OfficeRecordEndDate ended = Some endDate ->
        endDate <> "" ->
        Date_parse endDate = Some t ->
        t <= now ->
        CityCouncil.fetch_Persons_active api client = Ok persons ->
        List.length persons = 3%nat ->
        NoDup (map CityCouncil.PersonId persons) ->
        In (CityCouncil.OfficeRecordPersonId current)
           (map CityCouncil.PersonId persons) ->
        In (CityCouncil.OfficeRecordPersonId ended)
           (map CityCouncil.PersonId persons) ->
        exists m,
          fst (members api client) = [m]
          /\ CityCouncil.member_id m
             = CityCouncil.OfficeRecordPersonId current
          /\ snd (members api client) = 1).
Proof.
  split; [exact isActive_iff|].
  intros api client body current ended endDate t persons
         Hbodies Hname Hflag Hrecords Hb1 Hb2 Hend1 Hend2 Hne Hparse Hpast
         Hpersons Hlen Hnodup Hin1 _.
  assert (Hcur : isActive current = true)
    by (apply isActive_iff; left; exact Hend1).
  assert (Hold : isActive ended = false).
  { unfold isActive, CityCouncil.isActive, CityCouncil.or_null.
    rewrite Hend2. destruct endDate; [congruence|].
    rewrite Hparse. apply Z.ltb_ge. exact Hpast. }
  assert (Hoffices :
            CityCouncil.activeOffices Date_parse now [CityCouncil.BodyId body]
              (try_catch (CityCouncil.fetch_OfficeRecords api client)
                 (fun _ => [])) = [current]).
  { unfold CityCouncil.activeOffices, CityCouncil.includes_id.
    fold isActive.
    destruct Hrecords as [-> | ->];
      cbn [try_catch filter existsb List.length];
      rewrite Hb1, Hb2, Z.eqb_refl, Hcur, Hold; reflexivity. }
  destruct (filter_unique_id _ _ Hnodup Hin1) as (p & Hfilter & Hid).
  assert (Hfetch : CityCouncil.fetchPersons api client = persons).
  { unfold CityCouncil.fetchPersons. rewrite Hpersons. cbn [try_catch].
    destruct persons; [discriminate | reflexivity]. }
  unfold members, CityCouncil.members.
  rewrite Hbodies. cbn [try_catch].
  unfold CityCouncil.selectCouncilBodies. cbn [filter].
  rewrite (isPrimaryBody_city_council _ Hname Hflag).
  cbn [List.length Z.of_nat Z.ltb Z.compare map Pos.of_succ_nat].
  rewrite Hoffices, Hfetch.
  cbn [map CityCouncil.unique CityCouncil.unique_from
         CityCouncil.includes_id existsb fst snd].
  unfold CityCouncil.selectMembers. cbn [List.length Z.of_nat Z.ltb Z.compare Pos.of_succ_nat].
  fold (CityCouncil.includes_id [CityCouncil.OfficeRecordPersonId current]).
  exists (CityCouncil.enrich [current] p).
  split; [|split; [exact Hid | reflexivity]].
  assert (Hmap : forall l, l = [p] ->
                   map (CityCouncil.enrich [current]) l
                   = [CityCouncil.enrich [current] p])
    by (intros l ->; reflexivity).
  apply Hmap. exact Hfilter.
Qed.

End Roster.

(* ================================================================== *)
(** * Properties of the state-bills handler *)

Lemma own_get_In {A : Type} (own : list (string * A)) (key : string) (v : A) :
  own_get own key = Some v -> In (key, v) own.
Proof.
  induction own as [|[k w] own IH]; cbn [own_get]; [discriminate|].
  destruct (String.eqb_spec k key) as [->|_].
  - intros [= ->]. left. reflexivity.
  - intros H. right. apply IH. exact H.
Qed.

Lemma state_abbr_nonempty (key abbr : string) :
  own_get StateBills.STATE_NAME_TO_ABBR key = Some abbr ->
  nonempty abbr = true.
Proof.
  intros H. apply own_get_In in H.
  assert (Hall : forallb (fun kv : string * string => nonempty (snd kv))
                   StateBills.STATE_NAME_TO_ABBR = true) by reflexivity.
  rewrite forallb_forall in Hall. exact (Hall _ H).
Qed.

Lemma toUpperCase_nonempty (s : string) :
  nonempty (toUpperCase s) = nonempty s.
Proof. destruct s; reflexivity. Qed.

Lemma normalizeState_falsy_iff (input : jsval) :
  Object_prototype_get (toLowerCase (state_text input)) = JUndefined ->
  (truthy (StateBills.normalizeState input) = false <->
   (state_text input = ""
    \/ (String.length (state_text input) <> 2%nat
        /\ own_get StateBills.STATE_NAME_TO_ABBR
             (toLowerCase (state_text input)) = None))).
Proof.
  unfold StateBills.normalizeState. fold (state_text input).
  intros Hproto. destruct (state_text input) as [|c s] eqn:Hs.
  - cbn. split; auto.
  - cbn [nonempty negb]. rewrite <- Hs in *.
    destruct (Nat.eqb_spec (String.length (state_text input)) 2) as [Hlen|Hlen].
    + cbn [truthy]. rewrite toUpperCase_nonempty, Hs. cbn [nonempty].
      split; [discriminate|].
      intros [H|[H _]]; [congruence | rewrite <- Hs in H; contradiction].
    + unfold obj_get, or_else.
      destruct (own_get StateBills.STATE_NAME_TO_ABBR
                  (toLowerCase (state_text input))) as [abbr|] eqn:Hget.
      * cbn [truthy]. rewrite (state_abbr_nonempty _ _ Hget).
        cbn [truthy]. rewrite (state_abbr_nonempty _ _ Hget).
        split; [discriminate|].
        intros [H|[_ H]]; congruence.
      * rewrite Hproto. cbn. split; auto.
Qed.

Section StateHandler.

Variable StringToNumber : string -> StateBills.number.

Let handler := StateBills.handler StringToNumber.
Let Number := StateBills.Number StringToNumber.

(** The handler past the two guards: 400 when the state is rejected,
    otherwise 200 or 500 with the listing when 200. *)
Lemma handler_cases (key : string) upstream (event : StateBills.Event) :
  key <> "" ->
  let stateAbbr := StateBills.normalizeState (StateBills.qs_state event) in
  (truthy stateAbbr = false
   /\ StateBills.statusCode (handler (Some key) upstream event) = 400)
  \/ (truthy stateAbbr = true
      /\ StateBills.statusCode (handler (Some key) upstream event) = 500)
  \/ (truthy stateAbbr = true
      /\ exists bills pg,
           handler (Some key) upstream event
           = {| StateBills.statusCode := 200;
                StateBills.body := StateBills.BillsBody bills pg |}).
Proof.
  intros Hkey stateAbbr. unfold handler, StateBills.handler.
  destruct key as [|c key]; [congruence|]. fold stateAbbr.
  destruct (truthy stateAbbr); cbn [negb].
  - right.
    destruct (StateBills.callLegiScan (upstream (ToString stateAbbr)));
      cbn [bind try_catch].
    + right. split; [reflexivity|]. eauto.
    + left. split; reflexivity.
  - left. split; reflexivity.
Qed.

Lemma toInt_nonneg (x : jsval) (dflt : Z) :
  0 <= dflt -> 0 <= StateBills.toInt StringToNumber x dflt.
Proof.
  intros Hd. unfold StateBills.toInt.
  destruct (StateBills.Number StringToNumber x) as [| |q]; try exact Hd.
  destruct (Qle_bool 0 q) eqn:Hq; [|exact Hd].
  apply Qle_bool_imp_le in Hq. apply Qfloor_resp_le in Hq.
  exact Hq.
Qed.

Lemma slice_length_le {A : Type} (l : list A) (offset limit : Z) :
  0 <= offset -> 0 <= limit ->
  Z.of_nat (List.length (slice l offset (offset + limit))) <= limit.
Proof.
  intros Ho Hl. unfold slice.
  destruct (Z.ltb_spec offset 0) as [?|_]; [lia|].
  destruct (Z.ltb_spec (offset + limit) 0) as [?|_]; [lia|].
  rewrite length_firstn. lia.
Qed.

(** C5 (amended): with the API key set, the state parameter is trimmed,
    a value of two characters is taken as a code as it stands
    (upper-cased, not looked up in the set), and any other value is
    looked up in lower case among the 51 full names.  For a value that
    does not name a property inherited from the object prototype, the
    handler answers 400 exactly when the trimmed value is empty, or is
    not two characters long and is none of the 51 names; it answers 200
    only when the value was resolved. *)
Theorem state_rejected_iff :
  forall (key : string) (upstream : string -> result StateBills.Reply)
         (event : StateBills.Event),
    key <> "" ->
    let s := state_text (StateBills.qs_state event) in
    Object_prototype_get (toLowerCase s) = JUndefined ->
    (StateBills.statusCode (handler (Some key) upstream event) = 400 <->
     (s = ""
      \/ (String.length s <> 2%nat
          /\ own_get StateBills.STATE_NAME_TO_ABBR (toLowerCase s) = None)))
    /\ (String.length s = 2%nat ->
        StateBills.normalizeState (StateBills.qs_state event)
        = JStr (toUpperCase s))
    /\ (forall abbr : string,
          String.length s <> 2%nat ->
          own_get StateBills.STATE_NAME_TO_ABBR (toLowerCase s) = Some abbr ->
          StateBills.normalizeState (StateBills.qs_state event) = JStr abbr)
    /\ (StateBills.statusCode (handler (Some key) upstream event) = 200 ->
        truthy (StateBills.normalizeState (StateBills.qs_state event))
        = true).
Proof.
  intros key upstream event Hkey s Hproto.
  pose proof (normalizeState_falsy_iff _ Hproto) as Hiff. fold s in Hiff.
  pose proof (handler_cases key upstream event Hkey) as Hcases.
  cbv zeta in Hcases.
  split; [|split; [|split]].
  - rewrite <- Hiff.
    destruct Hcases as [[Hf Hst]|[[Ht Hst]|[Ht (bills & pg & Hst)]]];
      rewrite Hst; cbn [StateBills.statusCode]; split;
      congruence || discriminate || auto.
  - intros Hlen. unfold StateBills.normalizeState.
    fold (state_text (StateBills.qs_state event)). fold s.
    destruct s as [|c s']; [discriminate|]. cbn [nonempty negb].
    rewrite Hlen. reflexivity.
  - intros abbr Hlen Hget. unfold StateBills.normalizeState.
    fold (state_text (StateBills.qs_state event)). fold s.
    destruct s as [|c s'] eqn:Hs; [discriminate|]. cbn [nonempty negb].
    apply Nat.eqb_neq in Hlen. rewrite Hlen.
    unfold obj_get, or_else. rewrite Hget. cbn [truthy].
    rewrite (state_abbr_nonempty _ _ Hget). reflexivity.
  - destruct Hcases as [[Hf Hst]|[[Ht Hst]|[Ht _]]];
      try (rewrite Hst; discriminate); auto.
Qed.

(** C10: when the handler reaches the listing, the page size is
    [min(floor(n), 200)] if [Number(limit)] is a finite [n >= 0] and 50
    otherwise, the offset is [floor(n)] if [Number(offset)] is a finite
    [n >= 0] and 0 otherwise, [pagination.returned] is the length of the
    bills array, and that length exceeds neither the page size nor 200. *)
Theorem pagination_bounds :
  forall (apiKey : option string)
         (upstream : string -> result StateBills.Reply)
         (event : StateBills.Event)
         (bills : list StateBills.NormalizedBill)
         (pg : StateBills.Pagination),
    StateBills.body (handler apiKey upstream event)
    = StateBills.BillsBody bills pg ->
    StateBills.pg_limit pg
    = match Number (StateBills.qs_limit event) with
      | StateBills.Finite n =>
          if Qle_bool 0 n then Z.min (Qfloor n) 200 else 50
      | _ => 50
      end
    /\ StateBills.pg_offset pg
       = match Number (StateBills.qs_offset event) with
         | StateBills.Finite n => if Qle_bool 0 n then Qfloor n else 0
         | _ => 0
         end
    /\ StateBills.pg_returned pg = Z.of_nat (List.length bills)
    /\ Z.of_nat (List.length bills) <= StateBills.pg_limit pg
    /\ Z.of_nat (List.length bills) <= 200.
Proof.
  intros apiKey upstream event bills pg. unfold handler, StateBills.handler.
  destruct apiKey as [[|c key]|]; cbn [try_catch StateBills.body];
    try discriminate.
  destruct (truthy (StateBills.normalizeState (StateBills.qs_state event)));
    cbn [negb try_catch StateBills.body]; [|discriminate].
  destruct (StateBills.callLegiScan _) as [ml|e];
    cbn [bind try_catch StateBills.body]; [|discriminate].
  intros [= <- <-]. cbn [StateBills.pg_limit StateBills.pg_offset
                           StateBills.pg_returned].
  pose proof (toInt_nonneg (StateBills.qs_limit event) 50 ltac:(lia)) as Hl.
  pose proof (toInt_nonneg (StateBills.qs_offset event) 0 ltac:(lia)) as Ho.
  rewrite length_map.
  match goal with
  | |- context [slice ?l ?o (?o + ?k)] =>
      pose proof (slice_length_le l o k Ho ltac:(lia)) as Hslice
  end.
  repeat split; try lia.
  - unfold StateBills.toInt, Number.
    destruct (StateBills.Number StringToNumber (StateBills.qs_limit event))
      as [| |n]; try reflexivity.
    destruct (Qle_bool 0 n); reflexivity.
Qed.

End StateHandler.

(** C5 (counterexample): "ZZ" is no state code and no state name, yet the
    handler takes it as a code and answers 200. *)
Lemma state_code_unchecked :
  existsb (String.eqb "ZZ") (map snd StateBills.STATE_NAME_TO_ABBR) = false
  /\ own_get StateBills.STATE_NAME_TO_ABBR "zz" = None
  /\ StateBills.normalizeState (JStr "ZZ") = JStr "ZZ"
  /\ StateBills.statusCode
       (StateBills.handler StateBills.integer_literals (Some "key")
          (fun _ => Ok {| StateBills.reply_status := JStr "OK";
                          StateBills.reply_masterlist := Some [] |})
          {| StateBills.qs_state := JStr "ZZ";
             StateBills.qs_limit := JUndefined;
             StateBills.qs_offset := JUndefined |}) = 200.
Proof. repeat split; reflexivity. Qed.

(* ================================================================== *)
(** * Strings made of plain characters, and their URLs *)

Ltac by_all_chars c :=
  destruct c as [[] [] [] [] [] [] [] []]; vm_compute; intros;
  repeat split; congruence.

Lemma plain_not_slash c : plain_char c = true -> Ascii.eqb c "/" = false.
Proof. by_all_chars c. Qed.

Lemma path_char_kept c :
  path_char c = true ->
  negb (Url.is_c0_or_space c) = true
  /\ negb (Url.is_tab_or_newline c) = true
  /\ negb (Url.ends_path c) = true
  /\ Ascii.eqb (Url.backslash_to_slash c) c = true.
Proof. by_all_chars c. Qed.

Lemma plain_char_path c :
  plain_char c = true ->
  Url.in_path_encode_set c = false
  /\ Ascii.eqb (lower_char c) "." = false
  /\ Ascii.eqb (lower_char c) "%" = false.
Proof. by_all_chars c. Qed.

Lemma split_plain_segments (s : string) :
  all_chars path_char s = true -> Forall plain (split "/" s).
Proof.
  induction s as [|c s IH]; cbn [split all_chars].
  - intros _. repeat constructor.
  - rewrite andb_true_iff. intros [Hc Hs]. specialize (IH Hs).
    destruct (Ascii.eqb c "/") eqn:Hslash.
    + constructor; [reflexivity | exact IH].
    + destruct (split "/" s) as [|x xs]; [repeat constructor|].
      * unfold plain. cbn. unfold path_char in Hc. rewrite Hslash in Hc.
        rewrite orb_false_r in Hc. rewrite Hc. reflexivity.
      * inversion IH as [|? ? Hx Hxs]; subst. constructor; [|exact Hxs].
        unfold plain. cbn. unfold path_char in Hc. rewrite Hslash in Hc.
        rewrite orb_false_r in Hc. rewrite Hc. exact Hx.
Qed.

Lemma plain_percent_encode (seg : string) :
  plain seg -> Url.percent_encode seg = seg.
Proof.
  unfold plain. induction seg as [|c seg IH]; cbn; [reflexivity|].
  rewrite andb_true_iff. intros [Hc Hs].
  destruct (plain_char_path c Hc) as (-> & _). rewrite (IH Hs). reflexivity.
Qed.

Lemma plain_not_dots (seg : string) :
  plain seg -> Url.is_single_dot seg = false /\ Url.is_double_dot seg = false.
Proof.
  unfold plain, Url.is_single_dot, Url.is_double_dot.
  destruct seg as [|c seg]; [split; reflexivity|].
  cbn [all_chars toLowerCase map_chars existsb String.eqb].
  rewrite andb_true_iff. intros [Hc _].
  destruct (plain_char_path c Hc) as (_ & -> & ->). split; reflexivity.
Qed.

Lemma path_segments_plain (segs acc : list string) :
  Forall plain segs ->
  Url.path_segments acc segs = (rev acc ++ segs)%list.
Proof.
  revert acc. induction segs as [|seg segs IH]; intros acc Hall;
    cbn [Url.path_segments].
  - rewrite app_nil_r. reflexivity.
  - inversion Hall as [|? ? Hseg Hsegs]; subst.
    destruct (plain_not_dots seg Hseg) as [-> ->].
    rewrite (plain_percent_encode seg Hseg), (IH _ Hsegs).
    cbn [rev]. rewrite <- app_assoc. reflexivity.
Qed.

Lemma join_path_split (s : string) :
  Url.join_path (split "/" s) = String "/" s.
Proof.
  induction s as [|c s IH]; cbn [split]; [reflexivity|].
  destruct (Ascii.eqb_spec c "/") as [->|Hc].
  - cbn [Url.join_path append]. rewrite IH. reflexivity.
  - destruct (split "/" s) as [|x xs] eqn:Hsplit.
    + exfalso. exact (split_nonnil _ _ Hsplit).
    + cbn [Url.join_path append] in *. injection IH as IH. rewrite IH.
      reflexivity.
Qed.

(** The pathname of a congress.gov URL whose path is made of plain
    segments is that path, unchanged. *)
Lemma pathname_congress_gov (path : string) :
  all_chars path_char path = true ->
  Url.pathname ("https://www.congress.gov/" ++ path) = Some (String "/" path).
Proof.
  intros Hpath. unfold Url.pathname.
  assert (Hwhole : forall q : ascii -> bool,
             (forall c, path_char c = true -> q c = true) ->
             q "."%char = true -> q ":"%char = true ->
             all_chars q ("https://www.congress.gov/" ++ path) = true).
  { intros q Hq Hdot Hcolon. rewrite all_chars_app.
    rewrite (all_chars_impl path_char q path Hq Hpath), andb_true_r.
    cbn [all_chars]. rewrite Hdot, Hcolon.
    rewrite !Hq by reflexivity. reflexivity. }
  assert (Hstart : strip_start Url.is_c0_or_space
                     ("https://www.congress.gov/" ++ path)
                   = "https://www.congress.gov/" ++ path) by reflexivity.
  assert (Hscheme : Url.scheme_of ("https://www.congress.gov/" ++ path)
                    = Some ("https", "//www.congress.gov/" ++ path))
    by reflexivity.
  assert (Hauth : break_at Url.ends_authority
                    (strip_start Url.is_slash ("//www.congress.gov/" ++ path))
                  = ("www.congress.gov", String "/" path)) by reflexivity.
  rewrite Hstart.
  rewrite strip_end_id
    by (apply Hwhole; [intros c Hc; apply (path_char_kept c Hc)| |]; reflexivity).
  rewrite filter_chars_id
    by (apply Hwhole; [intros c Hc; apply (path_char_kept c Hc)| |]; reflexivity).
  rewrite Hscheme.
  change (existsb (String.eqb "https") Url.special_schemes) with true.
  cbv iota. rewrite Hauth.
  change (Url.valid_authority "www.congress.gov") with true. cbv iota.
  unfold Url.path_of.
  rewrite break_at_none; cbn [fst].
  2:{ cbn [all_chars]. rewrite andb_true_iff. split; [reflexivity|].
      apply (all_chars_impl path_char); [|exact Hpath].
      intros c Hc. apply (path_char_kept c Hc). }
  rewrite map_chars_id.
  2:{ apply (all_chars_impl path_char); [|exact Hpath].
      intros c Hc. apply (path_char_kept c Hc). }
  rewrite path_segments_plain by (apply split_plain_segments; exact Hpath).
  cbn [rev app]. rewrite join_path_split. reflexivity.
Qed.

Lemma digit_plain c : is_digit c = true -> plain_char c = true.
Proof. by_all_chars c. Qed.

Lemma plain_path_char c : plain_char c = true -> path_char c = true.
Proof. by_all_chars c. Qed.

Lemma plain_app (a b : string) : plain a -> plain b -> plain (a ++ b).
Proof.
  unfold plain. intros Ha Hb. rewrite all_chars_app, Ha, Hb. reflexivity.
Qed.

Lemma app_assoc_string (a b c : string) : (a ++ b) ++ c = a ++ (b ++ c).
Proof. induction a as [|x a IH]; cbn; [|rewrite IH]; reflexivity. Qed.

Lemma split_segment (a rest : string) :
  plain a -> split "/" (a ++ String "/" rest) = a :: split "/" rest.
Proof.
  unfold plain. induction a as [|c a IH]; cbn [all_chars append split].
  - intros _. reflexivity.
  - rewrite andb_true_iff. intros [Hc Ha].
    rewrite (plain_not_slash c Hc), (IH Ha). reflexivity.
Qed.

Lemma split_last (d : string) : plain d -> split "/" d = [d].
Proof.
  unfold plain. induction d as [|c d IH]; cbn [all_chars split].
  - intros _. reflexivity.
  - rewrite andb_true_iff. intros [Hc Hd].
    rewrite (plain_not_slash c Hc), (IH Hd). reflexivity.
Qed.

Lemma of_Z_plain (z : Z) : plain (of_Z z).
Proof.
  assert (Huint : forall d, plain (NilEmpty.string_of_uint d))
    by (induction d; cbn; auto; reflexivity).
  unfold of_Z. destruct (Z.to_int z) as [d|d]; cbn [NilEmpty.string_of_int].
  - apply Huint.
  - apply (plain_app "-"); [reflexivity | apply Huint].
Qed.

Lemma ordinalSuffix_plain (v : jsval) : plain (GetBills.ordinalSuffix v).
Proof.
  assert (Hnum : forall a, plain (NumberToString a))
    by (intros [|z]; [reflexivity | apply of_Z_plain]).
  unfold GetBills.ordinalSuffix.
  repeat match goal with
         | |- plain (if ?b then _ else _) => destruct b
         end; (apply plain_app; [apply Hnum | reflexivity]).
Qed.

Lemma digits_of_plain (number : jsval) : plain (GetBills.digits_of number).
Proof.
  unfold plain, GetBills.digits_of.
  apply (all_chars_impl is_digit); [exact digit_plain|].
  apply filter_chars_all.
Qed.

Lemma slug_plain (type slug : string) :
  own_get GetBills.TYPE_MAP type = Some slug ->
  plain slug /\ toLowerCase slug = slug /\ nonempty slug = true.
Proof.
  intros H. apply own_get_In in H.
  assert (Hall : forallb
                   (fun kv : string * string =>
                      all_chars plain_char (snd kv)
                      && String.eqb (toLowerCase (snd kv)) (snd kv)
                      && nonempty (snd kv))
                   GetBills.TYPE_MAP = true) by reflexivity.
  rewrite forallb_forall in Hall. specialize (Hall _ H). cbn [snd] in Hall.
  rewrite !andb_true_iff, String.eqb_eq in Hall. unfold plain. tauto.
Qed.

Lemma nonempty_app_r (a b : string) : nonempty b = true -> nonempty (a ++ b) = true.
Proof. destruct a; cbn; auto. Qed.

(** What the fallback path reads from a URL of the form built by the
    primary path. *)
Lemma parseBillPath_bill_page (ordinal slug num : string) :
  plain ordinal -> plain slug -> plain num ->
  nonempty slug = true -> nonempty num = true ->
  GetBills.parseBillPath (GetBills.bill_page ordinal slug num)
  = Ok (Some (JStr (ordinal ++ "-congress"), toLowerCase slug, JStr num)).
Proof.
  intros Ho Hs Hn Hs' Hn'.
  set (seg := ordinal ++ "-congress").
  assert (Hseg : plain seg) by (apply plain_app; [exact Ho | reflexivity]).
  assert (Hseg' : nonempty seg = true)
    by (apply nonempty_app_r; reflexivity).
  set (path := "bill" ++ String "/" (seg ++ String "/" (slug ++ String "/" num))).
  assert (Hurl : GetBills.bill_page ordinal slug num
                 = "https://www.congress.gov/" ++ path).
  { unfold GetBills.bill_page, path, seg. cbn [append].
    rewrite app_assoc_string. reflexivity. }
  assert (Hparts : split "/" path = ["bill"; seg; slug; num]).
  { unfold path. rewrite (split_segment "bill") by reflexivity.
    rewrite (split_segment seg) by exact Hseg.
    rewrite (split_segment slug) by exact Hs.
    rewrite (split_last num) by exact Hn. reflexivity. }
  assert (Hpath : all_chars path_char path = true).
  { unfold path.
    repeat first [rewrite all_chars_app | progress cbn [all_chars]].
    rewrite (all_chars_impl _ _ seg plain_path_char Hseg).
    rewrite (all_chars_impl _ _ slug plain_path_char Hs).
    rewrite (all_chars_impl _ _ num plain_path_char Hn). reflexivity. }
  unfold GetBills.parseBillPath, Url.new_URL.
  rewrite Hurl, (pathname_congress_gov path Hpath). cbn [bind].
  cbn [split Ascii.eqb Bool.eqb]. rewrite Hparts.
  cbn [filter nonempty]. rewrite Hseg', Hs', Hn'.
  reflexivity.
Qed.

(** C1 (counterexample): the URL built from (119, "hr", "H.R.187") is
    read back by the fallback path as ("119th-congress", "house-bill",
    "187"), which is not the triple it was built from. *)
Lemma public_url_not_round_trip :
  GetBills.primaryUrl (JNum 119) "hr" (JStr "H.R.187")
  = Some "https://www.congress.gov/bill/119th-congress/house-bill/187"
  /\ GetBills.parseBillPath
       "https://www.congress.gov/bill/119th-congress/house-bill/187"
     = Ok (Some (JStr "119th-congress", "house-bill", JStr "187"))
  /\ JStr "119th-congress" <> JStr (ToString (JNum 119))
  /\ "house-bill" <> "hr".
Proof. repeat split; try reflexivity; discriminate. Qed.

(** C1 (amended): for a bill whose URL the primary path builds from
    (congress, type, number) with a type code of the table, the fallback
    path reads back from that URL the three segments as they were
    rendered: the ordinal of the congress followed by "-congress", the
    slug of the type, and the digits of the number. *)
Theorem parse_of_built_url :
  forall (congress number : jsval) (type slug url : string),
    own_get GetBills.TYPE_MAP type = Some slug ->
    GetBills.primaryUrl congress type number = Some url ->
    url = GetBills.bill_page (GetBills.ordinalSuffix congress) slug
            (GetBills.digits_of number)
    /\ GetBills.parseBillPath url
       = Ok (Some (JStr (GetBills.ordinalSuffix congress ++ "-congress"),
                   slug, JStr (GetBills.digits_of number))).
Proof.
  intros congress number type slug url Hget Hprimary.
  destruct (slug_plain type slug Hget) as (Hplain & Hlower & Hne).
  unfold GetBills.primaryUrl, obj_get in Hprimary. rewrite Hget in Hprimary.
  cbn [truthy ToString] in Hprimary. rewrite Hne in Hprimary.
  destruct (truthy congress && nonempty type && truthy number);
    [|discriminate].
  destruct (nonempty (GetBills.digits_of number)) eqn:Hdigits;
    [|discriminate].
  injection Hprimary as <-. split; [reflexivity|].
  rewrite parseBillPath_bill_page;
    auto using ordinalSuffix_plain, digits_of_plain.
  rewrite Hlower. reflexivity.
Qed.

Lemma parse_of_built_url_witness :
  GetBills.parseBillPath
    "https://www.congress.gov/bill/119th-congress/house-bill/187"
  = Ok (Some (JStr "119th-congress", "house-bill", JStr "187")).
Proof.
  exact (proj2 (parse_of_built_url (JNum 119) (JStr "H.R.187") "hr"
                  "house-bill" _ eq_refl eq_refl)).
Defined.

(* ================================================================== *)
(** * Properties of the public URL *)

(** The primary path: truthy congress and number, a type code of the
    table in any case, and a digit in the number give the bill page. *)
Lemma buildPublicUrl_primary (bill : GetBills.Bill) (type slug : string) :
  truthy (GetBills.bill_congress bill) = true ->
  GetBills.bill_type bill = JStr type ->
  own_get GetBills.TYPE_MAP (toLowerCase type) = Some slug ->
  truthy (GetBills.bill_number bill) = true ->
  nonempty (GetBills.digits_of (GetBills.bill_number bill)) = true ->
  GetBills.buildPublicUrl bill
  = Ok (GetBills.bill_page
          (GetBills.ordinalSuffix (GetBills.bill_congress bill)) slug
          (GetBills.digits_of (GetBills.bill_number bill))).
Proof.
  intros Hc Ht Hget Hn Hd. unfold GetBills.buildPublicUrl, or_else.
  rewrite Hc, Hn, Ht.
  assert (Htype : nonempty type = true).
  { destruct type; [discriminate Hget | reflexivity]. }
  cbn [truthy]. rewrite Htype. cbn [call_toLowerCase bind].
  unfold GetBills.primaryUrl, obj_get. rewrite Hc, Hn, Hget, Hd.
  destruct (slug_plain _ _ Hget) as (_ & _ & Hne).
  assert (Hlow : nonempty (toLowerCase type) = true)
    by (destruct type; [discriminate | reflexivity]).
  rewrite Hlow. cbn [andb truthy ToString]. rewrite Hne. reflexivity.
Qed.

(** The fallback path on a type code that is no property of the table,
    own or inherited: the slug is the type code followed by "-bill". *)
Lemma fallbackUrl_unrecognized (raw : string) (c n : jsval) (t : string) :
  GetBills.parseBillPath raw = Ok (Some (c, t, n)) ->
  obj_get GetBills.TYPE_MAP t = JUndefined ->
  GetBills.fallbackUrl raw
  = Ok (Some (GetBills.bill_page (GetBills.ordinalSuffix c) (t ++ "-bill")
                (ToString n))).
Proof.
  intros Hparse Hget. unfold GetBills.fallbackUrl.
  rewrite Hparse. cbn [bind]. rewrite Hget. reflexivity.
Qed.


(** C4 (failing input): on the fallback path the type code "constructor"
    is in none of the eight entries of the table, yet the lookup finds the
    property every object inherits, so the slug is the text of a function
    and not "constructor-bill". *)
Theorem fallback_slug_inherited_property :
  own_get GetBills.TYPE_MAP "constructor" = None
  /\ GetBills.buildPublicUrl
       (bill_of JUndefined JUndefined JUndefined
          (JStr "https://api.congress.gov/v3/bill/119/constructor/5"))
     = Ok "https://www.congress.gov/bill/119th-congress/function Object() { [native code] }/5"
  /\ GetBills.buildPublicUrl
       (bill_of JUndefined JUndefined JUndefined
          (JStr "https://api.congress.gov/v3/bill/119/constructor/5"))
     <> Ok (GetBills.bill_page "119th" "constructor-bill" "5").
Proof. repeat split; try reflexivity. discriminate. Qed.

(** C7 (failing input): a record whose type is a number: the method
    [toLowerCase] is read on a number, outside the [try] block, and
    [buildPublicUrl] throws; the same record without the type goes
    through the fallback chain. *)
Theorem buildPublicUrl_throws :
  GetBills.buildPublicUrl
    (bill_of (JNum 119) (JNum 5) (JStr "187")
       (JStr "https://api.congress.gov/v3/bill/119/hr/187"))
  = Throw (TypeError "toLowerCase is not a function")
  /\ GetBills.buildPublicUrl
       (bill_of (JNum 119) JUndefined (JStr "187")
          (JStr "https://api.congress.gov/v3/bill/119/hr/187"))
     = Ok "https://www.congress.gov/bill/119th-congress/house-bill/187".
Proof. split; reflexivity. Qed.

Example build_all_missing :
  GetBills.buildPublicUrl
    (bill_of JUndefined JUndefined JUndefined JUndefined)
  = Ok "https://www.congress.gov/".
Proof. reflexivity. Qed.

Example build_unknown_type :
  GetBills.buildPublicUrl
    (bill_of JUndefined JUndefined JUndefined
       (JStr "https://api.congress.gov/v3/bill/118/xyz/9"))
  = Ok "https://www.congress.gov/bill/118th-congress/xyz-bill/9".
Proof. reflexivity. Qed.

(* ================================================================== *)
(** * The handlers on sample requests *)

Lemma verify_status_200_witness :
  CityCouncil.statusCode
    (CityCouncil.handler CityCouncil.iso_date_time 1771849815000
       "2026-02-23T12:30:15.000Z" remaining_sample legistar_down verify_request)
  = 200.
Proof.
  exact (proj1 (verify_status_200 CityCouncil.iso_date_time 1771849815000
                  "2026-02-23T12:30:15.000Z" remaining_sample legistar_down
                  verify_request eq_refl eq_refl)).
Defined.

Lemma roster_active_office_witness :
  exists m,
    fst (CityCouncil.members CityCouncil.iso_date_time 1771849815000
           legistar_sample "phoenix") = [m]
    /\ CityCouncil.member_id m = 10
    /\ snd (CityCouncil.members CityCouncil.iso_date_time 1771849815000
              legistar_sample "phoenix") = 1.
Proof.
  apply (proj2 (roster_active_office CityCouncil.iso_date_time 1771849815000)
           legistar_sample "phoenix" city_council (office 10 None)
           (office 20 (Some "2022-12-31T00:00:00")) "2022-12-31T00:00:00"
           1672444800000 three_persons);
    try reflexivity.
  - left. reflexivity.
  - discriminate.
  - vm_compute. discriminate.
  - repeat constructor; cbn; intuition discriminate.
  - cbn. tauto.
  - cbn. tauto.
Defined.

Example state_listing_page :
  match StateBills.body
          (StateBills.handler StateBills.integer_literals (Some "key")
             legiscan_sample (state_request (JStr "arizona") (JStr "2") (JStr "1")))
  with
  | StateBills.BillsBody bills pg =>
      map StateBills.nb_id bills = ["2"; "3"]
      /\ pg = {| StateBills.pg_limit := 2; StateBills.pg_offset := 1;
                 StateBills.pg_returned := 2;
                 StateBills.pg_total_estimate := 3 |}
  | _ => False
  end.
Proof. split; reflexivity. Qed.

Lemma state_rejected_iff_witness :
  StateBills.statusCode
    (StateBills.handler StateBills.integer_literals (Some "key")
       legiscan_sample (state_request (JStr " Atlantis ") JUndefined JUndefined))
  = 400.
Proof.
  pose proof (state_rejected_iff StateBills.integer_literals "key"
                legiscan_sample
                (state_request (JStr " Atlantis ") JUndefined JUndefined))
    as H.
  cbv zeta in H.
  destruct (H ltac:(discriminate) eq_refl) as [Hiff _].
  apply Hiff. right. split; [discriminate | reflexivity].
Defined.

Lemma pagination_bounds_witness :
  exists bills pg,
    StateBills.body
      (StateBills.handler StateBills.integer_literals (Some "key")
         legiscan_sample (state_request (JStr "AZ") (JStr "2") (JStr "1")))
    = StateBills.BillsBody bills pg
    /\ StateBills.pg_limit pg = 2
    /\ StateBills.pg_returned pg = Z.of_nat (List.length bills)
    /\ Z.of_nat (List.length bills) <= 200.
Proof.
  eexists. eexists. split; [reflexivity|].
  destruct (pagination_bounds StateBills.integer_literals (Some "key")
              legiscan_sample
              (state_request (JStr "AZ") (JStr "2") (JStr "1")) _ _ eq_refl)
    as (Hlimit & _ & Hreturned & _ & Hmax).
  split; [exact Hlimit|]. split; [exact Hreturned | exact Hmax].
Defined.

(* ================================================================== *)
(** * The stage of a bill: range and precedence *)

Lemma text_like_cases (v : jsval) :
  text_like v = true ->
  or_else v (JStr "") = JStr "" \/ exists s, v = JStr s.
Proof.
  unfold text_like, or_else.
  destruct v; cbn; try discriminate; eauto.
  - destruct b; [discriminate | auto].
  - destruct (n =? 0); cbn; [auto | discriminate].
Qed.


Lemma not_text_like_lower (v : jsval) :
  text_like v = false ->
  call_toLowerCase (or_else v (JStr ""))
  = Throw (TypeError "toLowerCase is not a function").
Proof.
  unfold text_like, or_else.
  destruct v; cbn; try discriminate; try reflexivity.
  - destruct b; [reflexivity | discriminate].
  - destruct (n =? 0); cbn; [discriminate | reflexivity].
  - destruct (nonempty s); discriminate.
Qed.

Lemma spec_stage_in_table (t : string) :
  3 <= GetBills.priority (GetBills.spec_stage t) <= 10.
Proof.
  unfold GetBills.spec_stage.
  destruct (find _ GetBills.spec_stage_rules) as [rule|] eqn:Hfind;
    [|cbn; lia].
  apply find_some in Hfind. destruct Hfind as [Hin _].
  assert (Hall : forallb
                   (fun r : list string * GetBills.Stage =>
                      (3 <=? GetBills.priority (snd r))
                      && (GetBills.priority (snd r) <=? 10))
                   GetBills.spec_stage_rules = true) by reflexivity.
  rewrite forallb_forall in Hall. specialize (Hall _ Hin).
  apply andb_true_iff in Hall. lia.
Qed.

Lemma deriveBillStage_on_text (v : jsval) :
  text_like v = true ->
  exists stage,
    GetBills.deriveBillStage v = Ok stage
    /\ 3 <= GetBills.priority stage <= 10.
Proof.
  intros H. destruct (text_like_cases v H) as [Hv | [s ->]].
  - exists {| GetBills.display := "In Progress"; GetBills.priority := 3 |}.
    split; [|cbn; lia]. unfold GetBills.deriveBillStage. rewrite Hv.
    reflexivity.
  - exists (GetBills.spec_stage s).
    split; [apply deriveBillStage_refines | apply spec_stage_in_table].
Qed.

Lemma deriveBillStage_on_other (v : jsval) :
  text_like v = false -> exists e, GetBills.deriveBillStage v = Throw e.
Proof.
  intros H. eexists. unfold GetBills.deriveBillStage.
  rewrite (not_text_like_lower v H). reflexivity.
Qed.

(** X1: [deriveBillStage] returns exactly on a falsy value or a string,
    and then with a priority between 3 and 10; on any other value (a
    non-zero number, [true], an object) it throws. *)
Theorem deriveBillStage_returns_iff :
  forall v : jsval,
    (text_like v = true ->
     exists stage,
       GetBills.deriveBillStage v = Ok stage
       /\ 3 <= GetBills.priority stage <= 10)
    /\ (text_like v = false ->
        exists e, GetBills.deriveBillStage v = Throw e).
Proof.
  intros v. split;
    [apply deriveBillStage_on_text | apply deriveBillStage_on_other].
Qed.

Lemma deriveBillStage_returns_iff_witness :
  exists stage,
    GetBills.deriveBillStage JNull = Ok stage
    /\ 3 <= GetBills.priority stage <= 10.
Proof.
  exact (proj1 (deriveBillStage_returns_iff JNull) eq_refl).
Defined.

Lemma find_first_dominates {A : Type} (R : A -> A -> Prop) (f : A -> bool)
      (l : list A) (x : A) :
  Sorted.StronglySorted R l ->
  find f l = Some x ->
  forall y, In y l -> f y = true -> x = y \/ R x y.
Proof.
  induction 1 as [|a l Hsorted IH Hall]; cbn [find In]; [discriminate|].
  destruct (f a) eqn:Hfa.
  - intros [= <-] y [<- | Hy] _; [left; reflexivity | right].
    rewrite Forall_forall in Hall. apply Hall. exact Hy.
  - intros Hfind y [<- | Hy] Hfy; [congruence|]. apply IH; assumption.
Qed.

Lemma stage_rules_sorted :
  Sorted.StronglySorted
    (fun r1 r2 : list string * GetBills.Stage =>
       GetBills.priority (snd r2) <= GetBills.priority (snd r1))
    GetBills.spec_stage_rules.
Proof.
  unfold GetBills.spec_stage_rules.
  repeat (constructor; [|repeat constructor; cbn; lia]).
  constructor.
Qed.

(** X2: the stage never ranks below a rule whose keyword the text
    contains: if the lower-cased text contains a keyword of a rule, the
    priority returned is at least that rule's priority. *)
Theorem deriveBillStage_precedence :
  forall (t kw : string) (rule : list string * GetBills.Stage),
    In rule GetBills.spec_stage_rules ->
    In kw (fst rule) ->
    includes (toLowerCase t) kw = true ->
    exists stage,
      GetBills.deriveBillStage (JStr t) = Ok stage
      /\ GetBills.priority (snd rule) <= GetBills.priority stage.
Proof.
  intros t kw rule Hrule Hkw Hincl.
  exists (GetBills.spec_stage t). split; [apply deriveBillStage_refines|].
  assert (Hmatch : GetBills.spec_rule_matches t rule = true).
  { unfold GetBills.spec_rule_matches. apply existsb_exists.
    exists kw. split; assumption. }
  unfold GetBills.spec_stage.
  destruct (find (GetBills.spec_rule_matches t) GetBills.spec_stage_rules)
    as [first|] eqn:Hfind.
  - destruct (find_first_dominates _ _ _ _ stage_rules_sorted Hfind
                rule Hrule Hmatch) as [-> | Hle]; [lia | exact Hle].
  - pose proof (find_none _ _ Hfind rule Hrule) as Hno. congruence.
Qed.

Lemma deriveBillStage_precedence_witness :
  exists stage,
    GetBills.deriveBillStage
      (JStr "Introduced, referred to committee, later Vetoed by President")
    = Ok stage
    /\ 9 <= GetBills.priority stage.
Proof.
  apply (deriveBillStage_precedence
           "Introduced, referred to committee, later Vetoed by President"
           "vetoed"
           (["vetoed"],
            {| GetBills.display := "Vetoed"; GetBills.priority := 9 |})).
  - cbn. tauto.
  - cbn. tauto.
  - reflexivity.
Defined.

(* ================================================================== *)
(** * Properties of the get-bills listing *)

Lemma bill_page_on_congress_gov (ordinal slug num : string) :
  prefix "https://www.congress.gov/" (GetBills.bill_page ordinal slug num)
  = true.
Proof. reflexivity. Qed.

(** The three returns of [buildPublicUrl]. *)
Lemma buildPublicUrl_shape (bill : GetBills.Bill) (u : string) :
  GetBills.buildPublicUrl bill = Ok u ->
  u = GetBills.host_root
  \/ exists ordinal slug num, u = GetBills.bill_page ordinal slug num.
Proof.
  unfold GetBills.buildPublicUrl.
  destruct (call_toLowerCase _) as [type|e]; cbn [bind]; [|discriminate].
  destruct (GetBills.primaryUrl _ type _) as [p|] eqn:Hprimary.
  - intros [= <-]. unfold GetBills.primaryUrl in Hprimary.
    repeat match type of Hprimary with
           | (if ?b then _ else _) = _ => destruct b; [|discriminate]
           end.
    injection Hprimary as <-. right; eauto.
  - destruct (GetBills.fallbackUrl _) as [[f|]|e] eqn:Hfallback;
      cbn [try_catch]; intros [= <-]; try (left; reflexivity).
    unfold GetBills.fallbackUrl in Hfallback.
    destruct (GetBills.parseBillPath _) as [[[[c t] n]|]|e'];
      cbn [bind] in Hfallback; try discriminate.
    injection Hfallback as <-. right; eauto.
Qed.

Lemma buildPublicUrl_prefix (bill : GetBills.Bill) (u : string) :
  GetBills.buildPublicUrl bill = Ok u ->
  prefix "https://www.congress.gov/" u = true.
Proof.
  intros H.
  destruct (buildPublicUrl_shape bill u H)
    as [-> | (ordinal & slug & num & ->)];
    [reflexivity | apply bill_page_on_congress_gov].
Qed.

(** X3: whatever the record, a URL returned by [buildPublicUrl] is on
    https://www.congress.gov/: a bill page of that site, or its root. *)
Theorem buildPublicUrl_on_congress_gov :
  forall (bill : GetBills.Bill) (u : string),
    GetBills.buildPublicUrl bill = Ok u ->
    prefix "https://www.congress.gov/" u = true
    /\ (u = GetBills.host_root
        \/ exists ordinal slug num, u = GetBills.bill_page ordinal slug num).
Proof.
  intros bill u H.
  split; [exact (buildPublicUrl_prefix bill u H)
         | exact (buildPublicUrl_shape bill u H)].
Qed.

Lemma buildPublicUrl_on_congress_gov_witness :
  prefix "https://www.congress.gov/"
    "https://www.congress.gov/bill/118th-congress/xyz-bill/9" = true.
Proof.
  exact (proj1 (buildPublicUrl_on_congress_gov
                  (bill_of JUndefined JUndefined JUndefined
                     (JStr "https://api.congress.gov/v3/bill/118/xyz/9"))
                  _ eq_refl)).
Defined.


Lemma mapM_Forall2 {A B : Type} (f : A -> result B) (l : list A)
      (ys : list B) :
  Listing.mapM f l = Ok ys -> Forall2 (fun x y => f x = Ok y) l ys.
Proof.
  revert ys. induction l as [|x l IH]; cbn [Listing.mapM]; intros ys.
  - intros [= <-]. constructor.
  - destruct (f x) as [y|e] eqn:Hfx; cbn [bind]; [|discriminate].
    destruct (Listing.mapM f l) as [zs|e]; cbn [bind]; [|discriminate].
    intros [= <-]. constructor; [exact Hfx | apply IH; reflexivity].
Qed.



Lemma listEntries_Ok (entries : list (option Listing.RawBill))
      (bills : list Listing.ListedBill) :
  Listing.mapM Listing.listEntry entries = Ok bills ->
  exists raws,
    entries = map Some raws /\ Listing.mapM Listing.listBill raws = Ok bills.
Proof.
  revert bills. induction entries as [|entry entries IH]; intros bills.
  - cbn [Listing.mapM]. intros [= <-]. exists []. split; reflexivity.
  - cbn [Listing.mapM]. destruct entry as [b|]; cbn [Listing.listEntry bind];
      [|discriminate].
    destruct (Listing.listBill b) as [lb|e] eqn:Hb; cbn [bind];
      [|discriminate].
    destruct (Listing.mapM Listing.listEntry entries) as [ys|e];
      cbn [bind]; [|discriminate].
    intros [= <-]. destruct (IH ys eq_refl) as (raws & -> & Hraws).
    exists (b :: raws). split; [reflexivity|].
    cbn [Listing.mapM]. rewrite Hb, Hraws. reflexivity.
Qed.


Lemma mapBills_Ok (rawBills : Listing.Field) (bills : list Listing.ListedBill) :
  Listing.mapBills rawBills = Ok bills ->
  exists raws,
    rawBills = Listing.Array (map Some raws)
    /\ Listing.mapM Listing.listBill raws = Ok bills.
Proof.
  destruct rawBills as [|entries|]; cbn [Listing.mapBills]; try discriminate.
  intros H. destruct (listEntries_Ok _ _ H) as (raws & -> & Hraws).
  exists raws. split; [reflexivity | exact Hraws].
Qed.



(** X5: a 200 answer lists one bill per entry of the array of bills in
    the reply, in order, and no entry is [null]; each listed bill carries
    the URL of [buildPublicUrl] under all three of its URL fields, a URL
    on congress.gov, and a stage priority between 3 and 10. *)
Theorem listed_bills_invariant :
  forall (apiKey : option string)
         (upstream : string -> string -> result (option Listing.Data))
         (event : Listing.Event) (bills : list Listing.ListedBill),
    Listing.handler apiKey upstream event
    = {| Listing.statusCode := 200; Listing.body := Listing.BillsBody bills |} ->
    exists data raws,
      upstream (ToString (or_else (Listing.qs_limit event) (JStr "50")))
               (ToString (or_else (Listing.qs_offset event) (JStr "0")))
      = Ok data
      /\ Listing.rawBills_of data = Listing.Array (map Some raws)
      /\ Forall2
           (fun (b : Listing.RawBill) (lb : Listing.ListedBill) =>
              GetBills.buildPublicUrl (Listing.raw_fields b)
              = Ok (Listing.lb_url lb)
              /\ Listing.lb_public_url lb = Listing.lb_url lb
              /\ Listing.lb_congress_url lb = Listing.lb_url lb
              /\ prefix "https://www.congress.gov/" (Listing.lb_url lb) = true
              /\ 3 <= Listing.lb_statusPriority lb <= 10)
           raws bills.
Proof.
  intros apiKey upstream event bills. unfold Listing.handler.
  destruct apiKey as [[|c key]|]; cbn [try_catch]; try discriminate.
  destruct (upstream _ _) as [data|e]; cbn [bind try_catch]; [|discriminate].
  destruct (Listing.mapBills (Listing.rawBills_of data))
    as [ys|e] eqn:Hbills; cbn [bind try_catch]; [|discriminate].
  intros [= <-]. destruct (mapBills_Ok _ _ Hbills) as (raws & Hraws & Hmap).
  exists data, raws. split; [reflexivity|]. split; [exact Hraws|].
  clear Hraws Hbills. apply mapM_Forall2 in Hmap.
  induction Hmap as [|b lb l ys' Hb _ IH]; constructor; [|exact IH].
  unfold Listing.listBill in Hb.
  destruct (GetBills.buildPublicUrl (Listing.raw_fields b)) as [u|e] eqn:Hu;
    cbn [bind] in Hb; [|discriminate].
  destruct (GetBills.deriveBillStage _) as [st|e] eqn:Hst;
    cbn [bind] in Hb; [|discriminate].
  destruct (Listing.call_toUpperCase _) as [up|e]; cbn [bind] in Hb;
    [|discriminate].
  destruct (call_toLowerCase _) as [low|e]; cbn [bind] in Hb; [|discriminate].
  injection Hb as <-. cbn.
  repeat split; try reflexivity.
  - apply (buildPublicUrl_prefix _ _ Hu).
  - destruct (text_like (or_else (Listing.latest Listing.action_text b)
                           (JStr ""))) eqn:Htl.
    + destruct (deriveBillStage_on_text _ Htl) as (st' & H & R).
      rewrite Hst in H. injection H as <-. lia.
    + destruct (deriveBillStage_on_other _ Htl) as (e & H).
      congruence.
  - destruct (text_like (or_else (Listing.latest Listing.action_text b)
                           (JStr ""))) eqn:Htl.
    + destruct (deriveBillStage_on_text _ Htl) as (st' & H & R).
      rewrite Hst in H. injection H as <-. lia.
    + destruct (deriveBillStage_on_other _ Htl) as (e & H).
      congruence.
Qed.

Lemma listed_bills_invariant_witness :
  exists data raws,
    congress_sample "50" "0" = Ok data
    /\ Listing.rawBills_of data = Listing.Array (map Some raws)
    /\ List.length raws = 2%nat.
Proof.
  destruct (listed_bills_invariant (Some "key") congress_sample
              listing_request _ eq_refl) as (data & raws & Hdata & Hraws & Hall).
  exists data, raws. split; [exact Hdata|]. split; [exact Hraws|].
  injection Hdata as <-. cbn in Hraws.
  destruct raws as [|b1 [|b2 [|b3 raws]]]; try discriminate. reflexivity.
Defined.

Lemma upper_char_not_lower c : negb (is_lower (upper_char c)) = true.
Proof.
  destruct c as [[] [] [] [] [] [] [] []]; vm_compute; reflexivity.
Qed.

Lemma toUpperCase_no_lower (s : string) :
  all_chars (fun c => negb (is_lower c)) (toUpperCase s) = true.
Proof.
  unfold toUpperCase.
  induction s as [|c s IH]; cbn [map_chars all_chars]; [reflexivity|].
  rewrite upper_char_not_lower, IH. reflexivity.
Qed.

(** An upper-cased key names no property inherited from the prototype:
    each of those names has a lower-case letter. *)
Lemma upper_key_not_inherited (s : string) :
  Object_prototype_get (toUpperCase s) = JUndefined.
Proof.
  pose proof (toUpperCase_no_lower s) as Hup.
  unfold Object_prototype_get.
  assert (Hne : forall name,
             all_chars (fun c => negb (is_lower c)) name = false ->
             String.eqb (toUpperCase s) name = false).
  { intros name Hname. apply String.eqb_neq. intros Heq.
    rewrite Heq in Hup. congruence. }
  rewrite (Hne "constructor") by reflexivity.
  rewrite (Hne "__proto__") by reflexivity.
  unfold Object_prototype_functions. cbn [existsb].
  repeat rewrite Hne by reflexivity. reflexivity.
Qed.

(** X6: the readable number of a listed bill is empty when the bill has
    no number; otherwise it is the label of the upper-cased type code in
    the label table, or the upper-cased code itself when the table has
    none, followed by a space and the number.  The lookup by upper-cased
    code cannot reach a property inherited from the prototype. *)
Theorem listed_number_label :
  forall (b : Listing.RawBill) (lb : Listing.ListedBill) (type : string),
    Listing.listBill b = Ok lb ->
    GetBills.bill_type (Listing.raw_fields b) = JStr type ->
    let number := GetBills.bill_number (Listing.raw_fields b) in
    (truthy number = false -> Listing.lb_number lb = "")
    /\ (truthy number = true ->
        Listing.lb_number lb
        = match own_get Listing.TYPE_DISPLAY (toUpperCase type) with
          | Some label => label
          | None => toUpperCase type
          end ++ " " ++ ToString number).
Proof.
  intros b lb type Hlist Htype number. unfold Listing.listBill in Hlist.
  destruct (GetBills.buildPublicUrl _) as [u|e]; cbn [bind] in Hlist;
    [|discriminate].
  destruct (GetBills.deriveBillStage _) as [st|e]; cbn [bind] in Hlist;
    [|discriminate].
  rewrite Htype in Hlist.
  assert (Hup : Listing.call_toUpperCase (or_else (JStr type) (JStr ""))
                = Ok (toUpperCase type))
    by (unfold or_else; destruct type; reflexivity).
  assert (Hlow : call_toLowerCase (or_else (JStr type) (JStr ""))
                 = Ok (toLowerCase type))
    by (unfold or_else; destruct type; reflexivity).
  rewrite Hup, Hlow in Hlist. cbn [bind] in Hlist.
  injection Hlist as <-. cbn [Listing.lb_number]. fold number.
  split; intros Hnum; rewrite Hnum; [reflexivity|].
  unfold obj_get, or_else.
  destruct (own_get Listing.TYPE_DISPLAY (toUpperCase type)) as [label|]
    eqn:Hget.
  - assert (Hall : forallb
                     (fun kv : string * string => nonempty (snd kv))
                     Listing.TYPE_DISPLAY = true) by reflexivity.
    rewrite forallb_forall in Hall.
    specialize (Hall _ (own_get_In _ _ _ Hget)). cbn [snd] in Hall.
    cbn [truthy]. rewrite Hall. reflexivity.
  - rewrite upper_key_not_inherited. reflexivity.
Qed.

Lemma listed_number_label_witness :
  exists lb,
    Listing.listBill
      (raw_listing_bill (JNum 119) (JStr "hr") (JNum 187) JUndefined) = Ok lb
    /\ Listing.lb_number lb = "H.R. 187".
Proof.
  eexists. split; [reflexivity|].
  exact (proj2 (listed_number_label
                  (raw_listing_bill (JNum 119) (JStr "hr") (JNum 187)
                     JUndefined) _ "hr" eq_refl eq_refl) eq_refl).
Defined.

(* ================================================================== *)
(** * State resolution: case and idempotence *)

Lemma map_chars_length f (s : string) :
  String.length (map_chars f s) = String.length s.
Proof. induction s as [|c s IH]; cbn; [|rewrite IH]; reflexivity. Qed.

Lemma strip_start_map f p (s : string) :
  (forall c, p (f c) = p c) ->
  strip_start p (map_chars f s) = map_chars f (strip_start p s).
Proof.
  intros Hf. induction s as [|c s IH]; cbn; [reflexivity|].
  rewrite Hf. destruct (p c); [exact IH | reflexivity].
Qed.

Lemma strip_end_map f p (s : string) :
  (forall c, p (f c) = p c) ->
  strip_end p (map_chars f s) = map_chars f (strip_end p s).
Proof.
  intros Hf. induction s as [|c s IH]; cbn; [reflexivity|].
  rewrite IH, Hf. destruct (strip_end p s); cbn; [|reflexivity].
  destruct (p c); reflexivity.
Qed.

Lemma case_keeps_space c :
  is_space (lower_char c) = is_space c /\ is_space (upper_char c) = is_space c.
Proof.
  destruct c as [[] [] [] [] [] [] [] []]; vm_compute; split; reflexivity.
Qed.

Lemma trim_lower (s : string) : trim (toLowerCase s) = toLowerCase (trim s).
Proof.
  unfold trim, toLowerCase.
  rewrite strip_start_map, strip_end_map;
    [reflexivity | |]; intros c; apply case_keeps_space.
Qed.

Lemma trim_upper (s : string) : trim (toUpperCase s) = toUpperCase (trim s).
Proof.
  unfold trim, toUpperCase.
  rewrite strip_start_map, strip_end_map;
    [reflexivity | |]; intros c; apply case_keeps_space.
Qed.

Lemma case_of_case c :
  lower_char (lower_char c) = lower_char c
  /\ upper_char (upper_char c) = upper_char c
  /\ lower_char (upper_char c) = lower_char c
  /\ upper_char (lower_char c) = upper_char c.
Proof.
  destruct c as [[] [] [] [] [] [] [] []]; vm_compute; repeat split.
Qed.

Lemma map_chars_compose f g h (s : string) :
  (forall c, f (g c) = h c) -> map_chars f (map_chars g s) = map_chars h s.
Proof.
  intros H. induction s as [|c s IH]; cbn; [|rewrite H, IH]; reflexivity.
Qed.

Lemma state_text_string (s : string) : state_text (JStr s) = trim s.
Proof. unfold state_text, or_else. destruct s; reflexivity. Qed.

Lemma normalizeState_by_text (a b : jsval) :
  toUpperCase (state_text a) = toUpperCase (state_text b) ->
  toLowerCase (state_text a) = toLowerCase (state_text b) ->
  StateBills.normalizeState a = StateBills.normalizeState b.
Proof.
  unfold StateBills.normalizeState.
  fold (state_text a). fold (state_text b). intros Hup Hlow.
  assert (Hlen : String.length (state_text a) = String.length (state_text b)).
  { rewrite <- (map_chars_length upper_char (state_text a)).
    rewrite <- (map_chars_length upper_char (state_text b)).
    unfold toUpperCase in Hup. rewrite Hup. reflexivity. }
  assert (Hne : nonempty (state_text a) = nonempty (state_text b)).
  { destruct (state_text a), (state_text b); try reflexivity;
      discriminate. }
  rewrite Hne, Hlen, Hup, Hlow. reflexivity.
Qed.

(** X7: on ASCII text [normalizeState] does not look at the case of its
    input: a state name or code in lower case, in upper case or as typed
    resolves to the same value. *)
Theorem normalizeState_case_insensitive :
  forall s : string,
    ascii_text s = true ->
    StateBills.normalizeState (JStr (toLowerCase s))
    = StateBills.normalizeState (JStr s)
    /\ StateBills.normalizeState (JStr (toUpperCase s))
       = StateBills.normalizeState (JStr s).
Proof.
  intros s _. split; apply normalizeState_by_text;
    rewrite !state_text_string;
    rewrite ?trim_lower, ?trim_upper; unfold toUpperCase, toLowerCase;
    apply map_chars_compose; intros c; apply case_of_case.
Qed.

Lemma normalizeState_case_insensitive_witness :
  StateBills.normalizeState (JStr " new mexico ") = JStr "NM"
  /\ StateBills.normalizeState (JStr " NEW MEXICO ") = JStr "NM".
Proof.
  destruct (normalizeState_case_insensitive " New Mexico " eq_refl)
    as [Hlow Hup].
  split; [exact Hlow | exact Hup].
Defined.

Lemma strip_start_head p (s : string) :
  strip_start p s = ""
  \/ exists c r, strip_start p s = String c r /\ p c = false.
Proof.
  induction s as [|c s IH]; cbn; [left; reflexivity|].
  destruct (p c) eqn:Hc; [exact IH | right; eauto].
Qed.

Lemma strip_end_cons p (c : ascii) (s : string) :
  strip_end p (String c s)
  = match strip_end p s with
    | EmptyString => if p c then EmptyString else String c EmptyString
    | String d t => String c (String d t)
    end.
Proof. reflexivity. Qed.

Lemma strip_end_idem p (s : string) :
  strip_end p (strip_end p s) = strip_end p s.
Proof.
  induction s as [|c s IH]; [reflexivity|].
  rewrite (strip_end_cons p c s).
  destruct (strip_end p s) as [|d t] eqn:Hs.
  - destruct (p c) eqn:Hc; [reflexivity|].
    rewrite strip_end_cons. cbn [strip_end]. rewrite Hc. reflexivity.
  - rewrite strip_end_cons, IH. reflexivity.
Qed.

Lemma strip_start_of_end p (c : ascii) (r : string) :
  p c = false ->
  strip_start p (strip_end p (String c r)) = strip_end p (String c r).
Proof.
  intros Hc. cbn [strip_end].
  destruct (strip_end p r); [rewrite Hc|]; cbn [strip_start];
    rewrite Hc; reflexivity.
Qed.

Lemma trim_idem (s : string) : trim (trim s) = trim s.
Proof.
  unfold trim.
  destruct (strip_start_head is_space s) as [-> | (c & r & -> & Hc)];
    [reflexivity|].
  rewrite (strip_start_of_end is_space c r Hc). apply strip_end_idem.
Qed.

Lemma state_text_trimmed (v : jsval) : trim (state_text v) = state_text v.
Proof. unfold state_text. apply trim_idem. Qed.

Lemma normalizeState_eq (v : jsval) :
  StateBills.normalizeState v
  = if negb (nonempty (state_text v)) then JStr ""
    else if (String.length (state_text v) =? 2)%nat
         then JStr (toUpperCase (state_text v))
         else or_else (obj_get StateBills.STATE_NAME_TO_ABBR
                         (toLowerCase (state_text v))) (JStr "").
Proof. reflexivity. Qed.

(** X8: on an input whose text is ASCII, what [normalizeState] returns
    is accepted by it unchanged: applied to its own result it gives that
    result again, unless the input named a property inherited from the
    prototype. *)
Theorem normalizeState_idempotent :
  forall v : jsval,
    ascii_text (ToString (or_else v (JStr ""))) = true ->
    Object_prototype_get (toLowerCase (state_text v)) = JUndefined ->
    StateBills.normalizeState (StateBills.normalizeState v)
    = StateBills.normalizeState v.
Proof.
  intros v _ Hproto.
  assert (Hunder : StateBills.normalizeState (JStr "") = JStr "")
    by reflexivity.
  rewrite (normalizeState_eq v).
  pose proof (state_text_trimmed v) as Htrim.
  destruct (nonempty (state_text v)) eqn:Hne; cbn [negb]; [|exact Hunder].
  destruct (Nat.eqb_spec (String.length (state_text v)) 2) as [Hlen|Hlen].
  - rewrite normalizeState_eq.
    rewrite state_text_string, trim_upper, Htrim.
    rewrite toUpperCase_nonempty, Hne. cbn [negb].
    unfold toUpperCase at 1. rewrite map_chars_length, Hlen. cbn [Nat.eqb].
    unfold toUpperCase. f_equal.
    apply map_chars_compose. intros x. apply case_of_case.
  - unfold obj_get.
    destruct (own_get StateBills.STATE_NAME_TO_ABBR
                (toLowerCase (state_text v))) as [abbr|] eqn:Hget.
    + unfold or_else. cbn [truthy]. rewrite (state_abbr_nonempty _ _ Hget).
      assert (Hall : forallb
                       (fun kv : string * string =>
                          match StateBills.normalizeState (JStr (snd kv)) with
                          | JStr r => String.eqb r (snd kv)
                          | _ => false
                          end) StateBills.STATE_NAME_TO_ABBR = true)
        by reflexivity.
      rewrite forallb_forall in Hall.
      specialize (Hall _ (own_get_In _ _ _ Hget)). cbn [snd] in Hall.
      destruct (StateBills.normalizeState (JStr abbr)); try discriminate.
      apply String.eqb_eq in Hall. rewrite Hall. reflexivity.
    + rewrite Hproto. exact Hunder.
Qed.

Lemma normalizeState_idempotent_witness :
  StateBills.normalizeState
    (StateBills.normalizeState (JStr "  new Mexico "))
  = JStr "NM".
Proof.
  rewrite (normalizeState_idempotent (JStr "  new Mexico ") eq_refl eq_refl).
  reflexivity.
Defined.

(* ================================================================== *)
(** * State bills: the page as a window of the master list *)

Lemma firstn_min_length {A : Type} (n : nat) (l : list A) :
  firstn (Nat.min n (List.length l)) l = firstn n l.
Proof.
  revert n. induction l as [|x l IH]; intros [|n]; cbn; try reflexivity.
  rewrite IH. reflexivity.
Qed.

(** [slice] from a non-negative offset for a non-negative count is the
    window of that many elements after skipping the offset. *)
Lemma slice_window {A : Type} (l : list A) (offset limit : Z) :
  0 <= offset -> 0 <= limit ->
  slice l offset (offset + limit)
  = firstn (Z.to_nat limit) (skipn (Z.to_nat offset) l).
Proof.
  intros Ho Hl. unfold slice.
  destruct (Z.ltb_spec offset 0) as [?|_]; [lia|].
  destruct (Z.ltb_spec (offset + limit) 0) as [?|_]; [lia|].
  destruct (Z.le_gt_cases (Z.of_nat (List.length l)) offset) as [Hge|Hlt].
  - rewrite !skipn_all2 by lia. rewrite !firstn_nil. reflexivity.
  - replace (Z.min offset (Z.of_nat (List.length l))) with offset by lia.
    rewrite <- (firstn_min_length (Z.to_nat limit)).
    rewrite length_skipn. f_equal. lia.
Qed.

Lemma firstn_window_app {A : Type} (a b : nat) (l : list A) :
  (firstn a l ++ firstn b (skipn a l))%list = firstn (a + b) l.
Proof.
  revert l. induction a as [|a IH]; intros l; [reflexivity|].
  destruct l as [|x l]; cbn [firstn skipn app Nat.add].
  - rewrite firstn_nil. reflexivity.
  - rewrite IH. reflexivity.
Qed.

Lemma skipn_skipn_add {A : Type} (a b : nat) (l : list A) :
  skipn b (skipn a l) = skipn (a + b) l.
Proof.
  revert l. induction a as [|a IH]; intros l; [reflexivity|].
  destruct l as [|x l]; cbn [skipn Nat.add]; [apply skipn_nil | apply IH].
Qed.

Lemma statusPriority_values (statusText : jsval) :
  In (StateBills.statusPriorityFromStatusText statusText) priority_values.
Proof.
  unfold StateBills.statusPriorityFromStatusText, priority_values.
  repeat match goal with
         | |- In (if ?b then _ else _) _ => destruct b
         end; cbn; tauto.
Qed.

Section StatePages.

Variable StringToNumber : string -> StateBills.number.

Let handler := StateBills.handler StringToNumber.
Let Number := StateBills.Number StringToNumber.

(** What a request that reaches the listing returns, in terms of the
    master list. *)
Lemma listing_shape (apiKey : option string)
      (upstream : string -> result StateBills.Reply)
      (event : StateBills.Event) (bills : list StateBills.NormalizedBill)
      (pg : StateBills.Pagination) :
  StateBills.body (handler apiKey upstream event)
  = StateBills.BillsBody bills pg ->
  let stateAbbr := StateBills.normalizeState (StateBills.qs_state event) in
  exists reply : StateBills.Reply,
    upstream (ToString stateAbbr) = Ok reply
    /\ truthy stateAbbr = true
    /\ 0 <= StateBills.pg_offset pg
    /\ 0 <= StateBills.pg_limit pg <= 200
    /\ StateBills.pg_limit pg
       = Z.min (StateBills.toInt StringToNumber (StateBills.qs_limit event) 50)
           200
    /\ StateBills.pg_offset pg
       = StateBills.toInt StringToNumber (StateBills.qs_offset event) 0
    /\ let all :=
         StateBills.billsRaw_of
           match StateBills.reply_masterlist reply with
           | Some m => m
           | None => []
           end in
       bills
       = map (StateBills.normalizeBill stateAbbr)
           (firstn (Z.to_nat (StateBills.pg_limit pg))
              (skipn (Z.to_nat (StateBills.pg_offset pg)) all))
       /\ StateBills.pg_total_estimate pg = Z.of_nat (List.length all)
       /\ StateBills.pg_returned pg = Z.of_nat (List.length bills).
Proof.
  intros Hbody stateAbbr. unfold handler, StateBills.handler in Hbody.
  destruct apiKey as [[|c key]|]; cbn [try_catch StateBills.body] in Hbody;
    try discriminate.
  fold stateAbbr in Hbody.
  destruct (truthy stateAbbr) eqn:Ht;
    cbn [negb try_catch StateBills.body] in Hbody; [|discriminate].
  unfold StateBills.callLegiScan in Hbody.
  destruct (upstream (ToString stateAbbr)) as [reply|e] eqn:Hup;
    cbn [bind try_catch StateBills.body] in Hbody; [|discriminate].
  destruct (is_string (StateBills.reply_status reply) "OK");
    cbn [bind try_catch StateBills.body] in Hbody; [|discriminate].
  injection Hbody as <- <-.
  pose proof (toInt_nonneg StringToNumber (StateBills.qs_limit event) 50
                ltac:(lia)) as Hl.
  pose proof (toInt_nonneg StringToNumber (StateBills.qs_offset event) 0
                ltac:(lia)) as Ho.
  exists reply. cbn [StateBills.pg_limit StateBills.pg_offset
                       StateBills.pg_returned StateBills.pg_total_estimate].
  repeat split; try reflexivity; try lia.
  rewrite slice_window by lia. reflexivity.
Qed.

(** X9: the bills of a 200 answer are the normalized bills of the master
    list, the "session" entry and non-object entries left out, from
    position [offset] on and at most [limit] of them, in the order of the
    list; [total_estimate] counts all of them and [returned] is
    [max 0 (min limit (total_estimate - offset))]. *)
Theorem state_page_window :
  forall (apiKey : option string)
         (upstream : string -> result StateBills.Reply)
         (event : StateBills.Event) (bills : list StateBills.NormalizedBill)
         (pg : StateBills.Pagination),
    StateBills.body (handler apiKey upstream event)
    = StateBills.BillsBody bills pg ->
    exists reply : StateBills.Reply,
      upstream (ToString (StateBills.normalizeState (StateBills.qs_state event)))
      = Ok reply
      /\ bills
         = map (StateBills.normalizeBill
                  (StateBills.normalizeState (StateBills.qs_state event)))
             (firstn (Z.to_nat (StateBills.pg_limit pg))
                (skipn (Z.to_nat (StateBills.pg_offset pg))
                   (StateBills.billsRaw_of
                      match StateBills.reply_masterlist reply with
                      | Some m => m
                      | None => []
                      end)))
      /\ StateBills.pg_total_estimate pg
         = Z.of_nat
             (List.length
                (StateBills.billsRaw_of
                   match StateBills.reply_masterlist reply with
                   | Some m => m
                   | None => []
                   end))
      /\ StateBills.pg_returned pg
         = Z.max 0 (Z.min (StateBills.pg_limit pg)
                      (StateBills.pg_total_estimate pg
                       - StateBills.pg_offset pg)).
Proof.
  intros apiKey upstream event bills pg Hbody.
  destruct (listing_shape apiKey upstream event bills pg Hbody)
    as (reply & Hup & _ & Ho & Hl & _ & _ & Hbills & Htotal & Hret).
  exists reply. repeat split; try assumption.
  rewrite Hret, Htotal, Hbills, length_map, length_firstn, length_skipn.
  lia.
Qed.

(** X10: every bill of a 200 answer carries the resolved state, a status
    priority among 3, 5, 7, 8 and 10, a status display that is never
    empty, and the same link under [url] and [legiscan_url]. *)
Theorem state_bills_invariant :
  forall (apiKey : option string)
         (upstream : string -> result StateBills.Reply)
         (event : StateBills.Event) (bills : list StateBills.NormalizedBill)
         (pg : StateBills.Pagination),
    StateBills.body (handler apiKey upstream event)
    = StateBills.BillsBody bills pg ->
    Forall
      (fun b : StateBills.NormalizedBill =>
         StateBills.nb_state b
         = StateBills.normalizeState (StateBills.qs_state event)
         /\ In (StateBills.nb_statusPriority b) priority_values
         /\ truthy (StateBills.nb_statusDisplay b) = true
         /\ StateBills.nb_legiscan_url b = StateBills.nb_url b)
      bills.
Proof.
  intros apiKey upstream event bills pg Hbody.
  destruct (listing_shape apiKey upstream event bills pg Hbody)
    as (reply & _ & _ & _ & _ & _ & _ & -> & _ & _).
  apply Forall_forall. intros b Hb. apply in_map_iff in Hb.
  destruct Hb as (raw & <- & _). cbn.
  repeat split; try reflexivity; [apply statusPriority_values|].
  unfold or_else.
  match goal with
  | |- truthy (if truthy ?x then _ else _) = true =>
      destruct (truthy x) eqn:Hx; [exact Hx | reflexivity]
  end.
Qed.

(** X11: paging loses and repeats nothing: for the same state and
    upstream reply, the page of [a] bills at [offset] followed by the
    page of [b] bills at [offset + a] is the page of [a + b] bills at
    [offset], as long as [a + b] is at most 200. *)
Theorem state_pages_compose :
  forall (apiKey : option string)
         (upstream : string -> result StateBills.Reply)
         (state la lb lab oa ob : jsval) (a b offset : Z)
         (bills1 bills2 bills3 : list StateBills.NormalizedBill)
         (pg1 pg2 pg3 : StateBills.Pagination),
    0 <= a -> 0 <= b -> 0 <= offset -> a + b <= 200 ->
    Number la = StateBills.Finite (inject_Z a) ->
    Number lb = StateBills.Finite (inject_Z b) ->
    Number lab = StateBills.Finite (inject_Z (a + b)) ->
    Number oa = StateBills.Finite (inject_Z offset) ->
    Number ob = StateBills.Finite (inject_Z (offset + a)) ->
    StateBills.body (handler apiKey upstream (state_request state la oa))
    = StateBills.BillsBody bills1 pg1 ->
    StateBills.body (handler apiKey upstream (state_request state lb ob))
    = StateBills.BillsBody bills2 pg2 ->
    StateBills.body (handler apiKey upstream (state_request state lab oa))
    = StateBills.BillsBody bills3 pg3 ->
    (bills1 ++ bills2)%list = bills3.
Proof.
  intros apiKey upstream state la lb lab oa ob a b offset
         bills1 bills2 bills3 pg1 pg2 pg3 Ha Hb Ho Hab
         Hla Hlb Hlab Hoa Hob H1 H2 H3.
  assert (HtoInt : forall x n d, 0 <= n ->
             Number x = StateBills.Finite (inject_Z n) ->
             StateBills.toInt StringToNumber x d = n).
  { intros x n d Hn Hx. unfold StateBills.toInt. fold Number. rewrite Hx.
    assert (Hle : Qle_bool 0 (inject_Z n) = true).
    { apply Qle_bool_iff. change 0%Q with (inject_Z 0).
      rewrite <- Zle_Qle. exact Hn. }
    rewrite Hle. apply Qfloor_Z. }
  destruct (listing_shape _ _ _ _ _ H1)
    as (r1 & Hup1 & _ & _ & _ & Hl1 & Ho1 & -> & _ & _).
  destruct (listing_shape _ _ _ _ _ H2)
    as (r2 & Hup2 & _ & _ & _ & Hl2 & Ho2 & -> & _ & _).
  destruct (listing_shape _ _ _ _ _ H3)
    as (r3 & Hup3 & _ & _ & _ & Hl3 & Ho3 & -> & _ & _).
  cbn [state_request StateBills.qs_state StateBills.qs_limit
         StateBills.qs_offset] in *.
  rewrite Hup1 in Hup2, Hup3.
  injection Hup2 as <-. injection Hup3 as <-.
  rewrite (HtoInt la a 50 Ha Hla) in Hl1.
  rewrite (HtoInt lb b 50 Hb Hlb) in Hl2.
  rewrite (HtoInt lab (a + b) 50 ltac:(lia) Hlab) in Hl3.
  rewrite (HtoInt oa offset 0 Ho Hoa) in Ho1, Ho3.
  rewrite (HtoInt ob (offset + a) 0 ltac:(lia) Hob) in Ho2.
  rewrite Hl1, Hl2, Hl3, Ho1, Ho2, Ho3.
  replace (Z.min a 200) with a by lia.
  replace (Z.min b 200) with b by lia.
  replace (Z.min (a + b) 200) with (a + b) by lia.
  rewrite <- map_app. f_equal.
  rewrite !Z2Nat.inj_add by lia.
  rewrite <- skipn_skipn_add. apply firstn_window_app.
Qed.

(** X12: the guards come before the upstream request: without the API
    key the answer is a 500 and with a rejected state a 400, and in both
    cases it is the same whatever the upstream would have replied. *)
Theorem state_guards_before_upstream :
  forall (apiKey : option string)
         (up1 up2 : string -> result StateBills.Reply)
         (event : StateBills.Event),
    (apiKey = None \/ apiKey = Some ""
     \/ truthy (StateBills.normalizeState (StateBills.qs_state event))
        = false) ->
    handler apiKey up1 event = handler apiKey up2 event
    /\ ((apiKey = None \/ apiKey = Some "") ->
        StateBills.statusCode (handler apiKey up1 event) = 500)
    /\ (apiKey <> None -> apiKey <> Some "" ->
        StateBills.statusCode (handler apiKey up1 event) = 400).
Proof.
  intros apiKey up1 up2 event Hguard. unfold handler, StateBills.handler.
  destruct apiKey as [[|c key]|].
  - split; [reflexivity|]. split; [intros _; reflexivity|]. congruence.
  - destruct Hguard as [H|[H|H]]; try discriminate. rewrite H.
    cbn [negb try_catch StateBills.statusCode].
    split; [reflexivity|].
    split; [intros [H1|H1]; discriminate | reflexivity].
  - split; [reflexivity|]. split; [intros _; reflexivity|]. congruence.
Qed.

End StatePages.

Lemma state_page_window_witness :
  exists reply : StateBills.Reply,
    legiscan_sample "AZ" = Ok reply
    /\ List.length
         (StateBills.billsRaw_of
            match StateBills.reply_masterlist reply with
            | Some m => m
            | None => []
            end) = 3%nat.
Proof.
  destruct (state_page_window StateBills.integer_literals (Some "key")
              legiscan_sample
              (state_request (JStr "AZ") (JStr "2") (JStr "1")) _ _ eq_refl)
    as (reply & Hup & _).
  exists reply. split; [exact Hup|]. injection Hup as <-. reflexivity.
Defined.

Lemma state_bills_invariant_witness :
  exists b bills,
    Forall (fun x : StateBills.NormalizedBill =>
              StateBills.nb_state x = JStr "AZ") (b :: bills).
Proof.
  eexists. eexists.
  eapply Forall_impl;
    [|exact (state_bills_invariant StateBills.integer_literals (Some "key")
               legiscan_sample
               (state_request (JStr "arizona") (JStr "2") (JStr "1"))
               _ _ eq_refl)].
  intros x (Hstate & _). exact Hstate.
Defined.

Lemma state_pages_compose_witness :
  exists bills1 bills2 bills3 pg1 pg2 pg3,
    StateBills.body
      (StateBills.handler StateBills.integer_literals (Some "key")
         legiscan_sample (state_request (JStr "AZ") (JStr "1") (JStr "0")))
    = StateBills.BillsBody bills1 pg1
    /\ StateBills.body
         (StateBills.handler StateBills.integer_literals (Some "key")
            legiscan_sample (state_request (JStr "AZ") (JStr "2") (JStr "1")))
       = StateBills.BillsBody bills2 pg2
    /\ StateBills.body
         (StateBills.handler StateBills.integer_literals (Some "key")
            legiscan_sample (state_request (JStr "AZ") (JStr "3") (JStr "0")))
       = StateBills.BillsBody bills3 pg3
    /\ (bills1 ++ bills2)%list = bills3.
Proof.
  do 6 eexists.
  split; [reflexivity|]. split; [reflexivity|]. split; [reflexivity|].
  eapply (state_pages_compose StateBills.integer_literals (Some "key")
            legiscan_sample (JStr "AZ") (JStr "1") (JStr "2") (JStr "3")
            (JStr "0") (JStr "1") 1 2 0);
    try lia; reflexivity.
Defined.

Lemma state_guards_before_upstream_witness :
  StateBills.statusCode
    (StateBills.handler StateBills.integer_literals None legiscan_sample
       (state_request (JStr "AZ") JUndefined JUndefined)) = 500.
Proof.
  apply (state_guards_before_upstream StateBills.integer_literals None
           legiscan_sample legiscan_sample
           (state_request (JStr "AZ") JUndefined JUndefined)); auto.
Defined.

(* ================================================================== *)
(** * The roster: who is selected *)

Lemma includes_id_In (ids : list Z) (x : Z) :
  CityCouncil.includes_id ids x = true <-> In x ids.
Proof.
  unfold CityCouncil.includes_id. rewrite existsb_exists. split.
  - intros (y & Hy & Heq). apply Z.eqb_eq in Heq. subst. exact Hy.
  - intros H. exists x. split; [exact H | apply Z.eqb_refl].
Qed.

Lemma unique_from_In (ids seen : list Z) (x : Z) :
  In x (CityCouncil.unique_from seen ids) <-> In x ids /\ ~ In x seen.
Proof.
  revert seen. induction ids as [|y ids IH]; intros seen;
    cbn [CityCouncil.unique_from In]; [tauto|].
  destruct (CityCouncil.includes_id seen y) eqn:Hy.
  - apply includes_id_In in Hy. rewrite IH. split.
    + tauto.
    + intros [[<-|H] Hn]; [contradiction | tauto].
  - assert (Hn : ~ In y seen)
      by (intros H; apply includes_id_In in H; congruence).
    cbn [In]. rewrite IH. cbn [In].
    destruct (Z.eq_dec y x) as [->|Hne]; [tauto|]. tauto.
Qed.

Lemma unique_In (ids : list Z) (x : Z) :
  In x (CityCouncil.unique ids) <-> In x ids.
Proof. unfold CityCouncil.unique. rewrite unique_from_In. cbn. tauto. Qed.

Lemma unique_from_NoDup (ids seen : list Z) :
  NoDup (CityCouncil.unique_from seen ids).
Proof.
  revert seen. induction ids as [|y ids IH]; intros seen;
    cbn [CityCouncil.unique_from]; [constructor|].
  destruct (CityCouncil.includes_id seen y); [apply IH|].
  constructor; [|apply IH].
  rewrite unique_from_In. cbn [In]. tauto.
Qed.

Section Selection.

Variable Date_parse : string -> option Z.
Variable now : Z.
Variable api : CityCouncil.Legistar.
Variable client : string.

(** The council bodies, the active offices in them and the persons, as
    the members branch computes them. *)
Let councilBodyIds : list Z :=
  map CityCouncil.BodyId
    (CityCouncil.selectCouncilBodies
       (try_catch (CityCouncil.fetch_Bodies api client) (fun _ => []))).

Let offices : list CityCouncil.OfficeRecord :=
  CityCouncil.activeOffices Date_parse now councilBodyIds
    (try_catch (CityCouncil.fetch_OfficeRecords api client) (fun _ => [])).

Let persons : list CityCouncil.Person := CityCouncil.fetchPersons api client.

Let members : list CityCouncil.Member :=
  fst (CityCouncil.members Date_parse now api client).

Lemma offices_sound (o : CityCouncil.OfficeRecord) :
  In o offices ->
  CityCouncil.isActive Date_parse now o = true
  /\ (councilBodyIds = []
      \/ In (CityCouncil.OfficeRecordBodyId o) councilBodyIds).
Proof.
  unfold offices, CityCouncil.activeOffices. rewrite filter_In.
  intros [_ H]. apply andb_true_iff in H. destruct H as [Hbody Hactive].
  split; [exact Hactive|]. apply orb_true_iff in Hbody.
  destruct Hbody as [H|H].
  - left. destruct councilBodyIds; [reflexivity | discriminate].
  - right. apply includes_id_In. exact H.
Qed.

Lemma members_eq :
  members
  = map (CityCouncil.enrich offices)
      (CityCouncil.selectMembers
         (CityCouncil.unique (map CityCouncil.OfficeRecordPersonId offices))
         persons).
Proof. reflexivity. Qed.

Lemma strict_mode :
  offices <> [] ->
  (0 <? Z.of_nat
          (List.length
             (CityCouncil.unique
                (map CityCouncil.OfficeRecordPersonId offices)))) = true.
Proof.
  intros Hne. apply Z.ltb_lt.
  destruct offices as [|o l] eqn:Ho; [congruence|].
  destruct (CityCouncil.unique _) as [|x xs] eqn:Hu; [|cbn; lia].
  exfalso.
  assert (Hin : In (CityCouncil.OfficeRecordPersonId o)
                  (CityCouncil.unique
                     (map CityCouncil.OfficeRecordPersonId (o :: l))))
    by (apply unique_In; left; reflexivity).
  rewrite Hu in Hin. exact Hin.
Qed.

(** X13: when some office record in a council body is active, the members
    are the persons of the persons reply who hold such a record, each once
    per occurrence in the reply and in its order, and no one else; each
    member shows the title and the body of the first active council office
    of that person. *)
Theorem members_hold_active_office :
  offices <> [] ->
  map CityCouncil.member_id members
  = filter
      (fun id =>
         existsb (fun o => CityCouncil.OfficeRecordPersonId o =? id) offices)
      (map CityCouncil.PersonId persons)
  /\ forall m : CityCouncil.Member,
       In m members ->
       exists o : CityCouncil.OfficeRecord,
         In o offices
         /\ CityCouncil.OfficeRecordPersonId o = CityCouncil.member_id m
         /\ CityCouncil.isActive Date_parse now o = true
         /\ (councilBodyIds = []
             \/ In (CityCouncil.OfficeRecordBodyId o) councilBodyIds)
         /\ CityCouncil.member_title m = CityCouncil.OfficeRecordTitle o
         /\ CityCouncil.member_bodyName m
            = CityCouncil.OfficeRecordBodyName o.
Proof.
  intros Hne. rewrite members_eq. unfold CityCouncil.selectMembers.
  rewrite (strict_mode Hne).
  assert (Hsel : forall p : CityCouncil.Person,
             CityCouncil.includes_id
               (CityCouncil.unique
                  (map CityCouncil.OfficeRecordPersonId offices))
               (CityCouncil.PersonId p)
             = existsb
                 (fun o => CityCouncil.OfficeRecordPersonId o
                           =? CityCouncil.PersonId p) offices).
  { intros p. apply eq_true_iff_eq.
    rewrite includes_id_In, unique_In, in_map_iff, existsb_exists.
    split; intros (o & H1 & H2); exists o.
    - split; [exact H2 | apply Z.eqb_eq; exact H1].
    - split; [apply Z.eqb_eq; exact H2 | exact H1]. }
  split.
  - rewrite map_map. cbn [CityCouncil.enrich CityCouncil.member_id].
    induction persons as [|p l IH]; [reflexivity|].
    cbn [filter map]. rewrite Hsel.
    destruct (existsb _ offices); cbn [map]; rewrite IH; reflexivity.
  - intros m Hm. apply in_map_iff in Hm. destruct Hm as (p & <- & Hp).
    apply filter_In in Hp. destruct Hp as [_ Hp]. rewrite Hsel in Hp.
    cbn [CityCouncil.enrich CityCouncil.member_id CityCouncil.member_title
           CityCouncil.member_bodyName].
    destruct (filter
                (fun o => CityCouncil.OfficeRecordPersonId o
                          =? CityCouncil.PersonId p) offices)
      as [|o rest] eqn:Hfilter.
    + exfalso. apply existsb_exists in Hp. destruct Hp as (o & Ho & Heq).
      assert (Hin : In o (filter
                            (fun o => CityCouncil.OfficeRecordPersonId o
                                      =? CityCouncil.PersonId p) offices))
        by (apply filter_In; auto).
      rewrite Hfilter in Hin. exact Hin.
    + assert (Hin : In o (filter
                            (fun o => CityCouncil.OfficeRecordPersonId o
                                      =? CityCouncil.PersonId p) offices))
        by (rewrite Hfilter; left; reflexivity).
      apply filter_In in Hin. destruct Hin as [Ho Heq].
      apply Z.eqb_eq in Heq. destruct (offices_sound o Ho) as [Hact Hbody].
      exists o. cbn [hd_error]. repeat split; assumption.
Qed.

(** X14: when no office record in a council body is active (none
    fetched, none in those bodies, or all ended), the members are the
    persons of the reply whose active flag is 1 and whose lower-cased full
    name contains none of the excluded words, in the order of the reply,
    and they carry no title, body or dates. *)
Theorem members_fallback_by_name :
  offices = [] ->
  members
  = map (CityCouncil.enrich [])
      (filter
         (fun p =>
            (CityCouncil.PersonActiveFlag p =? 1)
            && negb (CityCouncil.some_included CityCouncil.excludeNames
                       (toLowerCase
                          (CityCouncil.or_empty
                             (CityCouncil.PersonFullName p)))))
         persons)
  /\ forall m : CityCouncil.Member,
       In m members ->
       CityCouncil.member_title m = None
       /\ CityCouncil.member_bodyName m = None
       /\ CityCouncil.member_startDate m = None
       /\ CityCouncil.member_endDate m = None
       /\ forall word,
            In word CityCouncil.excludeNames ->
            includes
              (toLowerCase (CityCouncil.or_empty (CityCouncil.member_fullName m)))
              word = false.
Proof.
  intros Hnone.
  assert (Heq : members
                = map (CityCouncil.enrich [])
                    (filter
                       (fun p =>
                          (CityCouncil.PersonActiveFlag p =? 1)
                          && negb (CityCouncil.some_included
                                     CityCouncil.excludeNames
                                     (toLowerCase
                                        (CityCouncil.or_empty
                                           (CityCouncil.PersonFullName p)))))
                       persons)).
  { rewrite members_eq, Hnone. cbn [map CityCouncil.unique
                                      CityCouncil.unique_from].
    unfold CityCouncil.selectMembers. cbn [List.length Z.of_nat Z.ltb Z.compare].
    f_equal. induction persons as [|p l IH]; [reflexivity|].
    cbn [filter]. destruct (CityCouncil.PersonActiveFlag p =? 1);
      cbn [filter andb]; [|exact IH].
    destruct (negb _); rewrite IH; reflexivity. }
  split; [exact Heq|].
  intros m Hm. rewrite Heq in Hm. apply in_map_iff in Hm.
  destruct Hm as (p & <- & Hp). apply filter_In in Hp.
  destruct Hp as [_ Hp]. apply andb_true_iff in Hp. destruct Hp as [_ Hname].
  cbn [CityCouncil.enrich CityCouncil.member_title
         CityCouncil.member_bodyName CityCouncil.member_startDate
         CityCouncil.member_endDate CityCouncil.member_fullName
         filter hd_error].
  repeat split; try reflexivity.
  intros word Hword. apply negb_true_iff in Hname.
  unfold CityCouncil.some_included in Hname.
  destruct (includes _ word) eqn:Hinc; [|reflexivity].
  assert (Hex : existsb
                  (includes (toLowerCase
                               (CityCouncil.or_empty
                                  (CityCouncil.PersonFullName p))))
                  CityCouncil.excludeNames = true)
    by (apply existsb_exists; eauto).
  congruence.
Qed.

(** X15: the persons of the roster are those of the first of the three
    persons queries that answers with a non-empty list; the roster gets no
    persons exactly when each of the three queries failed or came back
    empty. *)
Theorem fetchPersons_first_nonempty :
  (forall l,
     CityCouncil.fetch_Persons_active api client = Ok l -> l <> [] ->
     persons = l)
  /\ (persons = [] <->
      (forall l, CityCouncil.fetch_Persons_active api client = Ok l -> l = [])
      /\ (forall l, CityCouncil.fetch_Persons_top500 api client = Ok l -> l = [])
      /\ (forall l, CityCouncil.fetch_Persons api client = Ok l -> l = [])).
Proof.
  unfold persons, CityCouncil.fetchPersons.
  destruct (CityCouncil.fetch_Persons_active api client) as [[|p1 l1]|e1];
    destruct (CityCouncil.fetch_Persons_top500 api client) as [[|p2 l2]|e2];
    destruct (CityCouncil.fetch_Persons api client) as [[|p3 l3]|e3];
    cbn [try_catch];
    (split;
     [intros l [= <-] H; congruence || reflexivity
     |split;
      [intros H; try discriminate H;
       repeat split; intros l [= <-]; reflexivity
      |intros (H1 & H2 & H3);
       try reflexivity;
       try (specialize (H1 _ eq_refl); discriminate H1);
       try (specialize (H2 _ eq_refl); discriminate H2);
       try (specialize (H3 _ eq_refl); discriminate H3)]]).
Qed.

End Selection.

Lemma members_hold_active_office_witness :
  map CityCouncil.member_id
    (fst (CityCouncil.members CityCouncil.iso_date_time 1771849815000
            legistar_sample "phoenix")) = [10].
Proof.
  destruct (members_hold_active_office CityCouncil.iso_date_time
              1771849815000 legistar_sample "phoenix"
              ltac:(vm_compute; discriminate)) as [Hids _].
  rewrite Hids. reflexivity.
Defined.

Lemma members_fallback_by_name_witness :
  map CityCouncil.member_id
    (fst (CityCouncil.members CityCouncil.iso_date_time 1771849815000
            legistar_persons_only "mesa")) = [10].
Proof.
  destruct (members_fallback_by_name CityCouncil.iso_date_time
              1771849815000 legistar_persons_only "mesa" eq_refl)
    as [Heq _].
  rewrite Heq. reflexivity.
Defined.

Lemma fetchPersons_first_nonempty_witness :
  CityCouncil.fetchPersons legistar_sample "phoenix" = three_persons.
Proof.
  apply (proj1 (fetchPersons_first_nonempty legistar_sample "phoenix")
           three_persons eq_refl).
  discriminate.
Defined.

(* ================================================================== *)
(** * The city-council handler: bodies, cities, members, votes *)

(** X16: a selected council body is a body of the reply with active flag
    1; it has a primary keyword in its name, or else no body of the reply
    is primary and it has a broad keyword and no excluded one.  As soon
    as one body is primary the selection is exactly the primary bodies:
    the excluded words only count in the broad fallback. *)
Theorem selectCouncilBodies_sound :
  forall bodies : list CityCouncil.Body,
    (forall b : CityCouncil.Body,
       In b (CityCouncil.selectCouncilBodies bodies) ->
       In b bodies
       /\ CityCouncil.BodyActiveFlag b = 1
       /\ (CityCouncil.isPrimaryBody b = true
           \/ (CityCouncil.isBroadBody b = true
               /\ forall b', In b' bodies ->
                             CityCouncil.isPrimaryBody b' = false)))
    /\ ((exists b, In b bodies /\ CityCouncil.isPrimaryBody b = true) ->
        CityCouncil.selectCouncilBodies bodies
        = filter CityCouncil.isPrimaryBody bodies).
Proof.
  intros bodies. unfold CityCouncil.selectCouncilBodies.
  destruct (filter CityCouncil.isPrimaryBody bodies) as [|p ps] eqn:Hprimary.
  - cbn [List.length Z.of_nat Z.ltb Z.compare]. split.
    + intros b Hb. apply filter_In in Hb. destruct Hb as [Hin Hbroad].
      split; [exact Hin|]. split.
      * unfold CityCouncil.isBroadBody in Hbroad.
        apply andb_true_iff in Hbroad. destruct Hbroad as [_ Hflag].
        apply Z.eqb_eq. exact Hflag.
      * right. split; [exact Hbroad|]. intros b' Hb'.
        destruct (CityCouncil.isPrimaryBody b') eqn:Hp; [|reflexivity].
        exfalso.
        assert (Hin' : In b' (filter CityCouncil.isPrimaryBody bodies))
          by (apply filter_In; auto).
        rewrite Hprimary in Hin'. exact Hin'.
    + intros (b & Hb & Hp). exfalso.
      assert (Hin' : In b (filter CityCouncil.isPrimaryBody bodies))
        by (apply filter_In; auto).
      rewrite Hprimary in Hin'. exact Hin'.
  - assert (Hpos : (0 <? Z.of_nat (List.length (p :: ps))) = true)
      by (apply Z.ltb_lt; cbn [List.length]; lia).
    rewrite Hpos. split; [|reflexivity].
    intros b Hb. rewrite <- Hprimary in Hb. apply filter_In in Hb.
    destruct Hb as [Hin Hp]. split; [exact Hin|]. split; [|left; exact Hp].
    unfold CityCouncil.isPrimaryBody in Hp. apply andb_true_iff in Hp.
    apply Z.eqb_eq. apply Hp.
Qed.

Lemma selectCouncilBodies_sound_witness :
  CityCouncil.selectCouncilBodies
    [ {| CityCouncil.BodyId := 1;
         CityCouncil.BodyName := Some "Mayor's Office";
         CityCouncil.BodyActiveFlag := 1 |};
      {| CityCouncil.BodyId := 2;
         CityCouncil.BodyName := Some "City Council Zoning Subcommittee";
         CityCouncil.BodyActiveFlag := 1 |} ]
  = [ {| CityCouncil.BodyId := 2;
         CityCouncil.BodyName := Some "City Council Zoning Subcommittee";
         CityCouncil.BodyActiveFlag := 1 |} ].
Proof.
  rewrite (proj2 (selectCouncilBodies_sound _)); [reflexivity|].
  eexists. split; [right; left; reflexivity | reflexivity].
Defined.

Lemma city_in_database (city : string) (info : CityCouncil.CityInfo) :
  own_get CityCouncil.CITY_DATABASE city = Some info ->
  CityCouncil.verified info = true /\ nonempty city = true.
Proof.
  intros H. apply own_get_In in H.
  assert (Hall : forallb
                   (fun kv : string * CityCouncil.CityInfo =>
                      CityCouncil.verified (snd kv) && nonempty (fst kv))
                   CityCouncil.CITY_DATABASE = true) by reflexivity.
  rewrite forallb_forall in Hall. specialize (Hall _ H).
  apply andb_true_iff in Hall. exact Hall.
Qed.



Section CityHandler.

Variable Date_parse : string -> option Z.
Variable now : Z.
Variable now_iso : string.
Variable remaining : string -> CityCouncil.Event -> result CityCouncil.Response.

Let handler := CityCouncil.handler Date_parse now now_iso remaining.

(** A request past the pre-flight, cities and verify branches, for a
    city of the database. *)
Lemma handler_city_branches (api : CityCouncil.Legistar)
      (event : CityCouncil.Event) (city : string)
      (info : CityCouncil.CityInfo) :
  is_string (CityCouncil.httpMethod event) "OPTIONS" = false ->
  is_string (CityCouncil.qs_type event) "cities" = false ->
  is_string (CityCouncil.qs_type event) "verify" = false ->
  CityCouncil.qs_city event = JStr city ->
  own_get CityCouncil.CITY_DATABASE city = Some info ->
  handler api event
  = CityCouncil.cityBranches Date_parse now remaining api city
      (CityCouncil.client info) event.
Proof.
  intros Hm Hc Hv Hcity Hget. unfold handler, CityCouncil.handler.
  destruct (city_in_database city info Hget) as [Hver Hne].
  rewrite Hm, Hc, Hv, Hcity. cbn [truthy ToString]. rewrite Hne.
  cbn [negb]. rewrite Hget, Hver. reflexivity.
Qed.

(** X17: for a city of the database, failed requests never make the
    members endpoint fail: whenever each of its upstream requests either
    fails or is answered with an array of records of the schema (the
    replies [CityCouncil.Legistar] describes), the status is 200 and
    [totalMembers] is the length of the member list.  Replies of another
    shape are outside this statement. *)
Theorem members_despite_failures :
  forall (api : CityCouncil.Legistar) (event : CityCouncil.Event)
         (city : string) (info : CityCouncil.CityInfo),
    is_string (CityCouncil.httpMethod event) "OPTIONS" = false ->
    CityCouncil.qs_city event = JStr city ->
    own_get CityCouncil.CITY_DATABASE city = Some info ->
    (is_string (CityCouncil.qs_type event) "members" = true
     \/ is_string (CityCouncil.qs_type event) "persons" = true) ->
    let roster :=
      CityCouncil.members Date_parse now api (CityCouncil.client info) in
    handler api event
    = {| CityCouncil.statusCode := 200;
         CityCouncil.body :=
           CityCouncil.MembersBody city (fst roster)
             (Z.of_nat (List.length (fst roster))) (snd roster)
             (CityCouncil.portalUrl (CityCouncil.client info)) |}.
Proof.
  intros api event city info Hm Hcity Hget Htype roster.
  rewrite (handler_city_branches api event city info Hm); try assumption.
  - unfold CityCouncil.cityBranches.
    assert (Hor : is_string (CityCouncil.qs_type event) "persons"
                  || is_string (CityCouncil.qs_type event) "members" = true)
      by (destruct Htype as [H|H]; rewrite H; auto using orb_true_r).
    rewrite Hor. fold roster. destruct roster as [ms found]. reflexivity.
  - destruct Htype as [H|H];
      apply (is_string_exclusive _ _ _ H); discriminate.
  - destruct Htype as [H|H];
      apply (is_string_exclusive _ _ _ H); discriminate.
Qed.

(** X18: the votes endpoint, for a city of the database: without a
    person id it answers 400, whatever the upstream; when the votes
    request fails it answers 500 with the message of the failure; when
    the request is answered with an array of vote records whose value
    names are strings or [null] (the replies [CityCouncil.Legistar]
    describes) it answers 200 with the votes in the order received, and
    [totalVotes] and the summary's total both equal to their number.
    Replies of another shape are outside this statement. *)
Theorem votes_statuses :
  forall (api : CityCouncil.Legistar) (event : CityCouncil.Event)
         (city : string) (info : CityCouncil.CityInfo),
    is_string (CityCouncil.httpMethod event) "OPTIONS" = false ->
    CityCouncil.qs_city event = JStr city ->
    own_get CityCouncil.CITY_DATABASE city = Some info ->
    is_string (CityCouncil.qs_type event) "votes" = true ->
    let personId := CityCouncil.qs_personId event in
    let source := CityCouncil.portalUrl (CityCouncil.client info) in
    (truthy personId = false ->
     handler api event
     = {| CityCouncil.statusCode := 400;
          CityCouncil.body := CityCouncil.PersonIdRequired |})
    /\ (truthy personId = true ->
        forall e,
          CityCouncil.fetch_Votes api (CityCouncil.client info)
            (ToString personId) = Throw e ->
          handler api event
          = {| CityCouncil.statusCode := 500;
               CityCouncil.body :=
                 CityCouncil.FetchFailed (message e) city source |})
    /\ (truthy personId = true ->
        forall votes,
          CityCouncil.fetch_Votes api (CityCouncil.client info)
            (ToString personId) = Ok votes ->
          exists summary,
            handler api event
            = {| CityCouncil.statusCode := 200;
                 CityCouncil.body :=
                   CityCouncil.VotesBody city (ToString personId) summary
                     (map CityCouncil.voteEntry votes)
                     (Z.of_nat (List.length votes)) source |}
            /\ CityCouncil.total summary = Z.of_nat (List.length votes)).
Proof.
  intros api event city info Hm Hcity Hget Htype personId source.
  rewrite (handler_city_branches api event city info Hm);
    try assumption;
    try (apply (is_string_exclusive _ _ _ Htype); discriminate).
  unfold CityCouncil.cityBranches.
  rewrite (is_string_exclusive _ "votes" "persons" Htype) by discriminate.
  rewrite (is_string_exclusive _ "votes" "members" Htype) by discriminate.
  rewrite Htype. cbn [orb]. fold personId.
  split; [|split].
  - intros ->. reflexivity.
  - intros -> e ->. reflexivity.
  - intros -> votes ->. cbn [negb bind try_catch].
    exists (CityCouncil.summarize (map CityCouncil.voteEntry votes)).
    split.
    + rewrite length_map. reflexivity.
    + cbn [CityCouncil.summarize CityCouncil.total].
      rewrite length_map. reflexivity.
Qed.

End CityHandler.

(** X20: a request for anything but the list of cities or a verification
    that names no city is answered 400, and one that names a city outside
    the database is answered 404; in both cases the answer does not depend
    on the upstream: no request is made for an unknown city. *)
Theorem unknown_city_no_upstream :
  forall (Date_parse : string -> option Z) (now : Z) (now_iso : string)
         (rem1 rem2 : string -> CityCouncil.Event -> result CityCouncil.Response)
         (api1 api2 : CityCouncil.Legistar) (event : CityCouncil.Event),
    is_string (CityCouncil.httpMethod event) "OPTIONS" = false ->
    is_string (CityCouncil.qs_type event) "cities" = false ->
    is_string (CityCouncil.qs_type event) "verify" = false ->
    (truthy (CityCouncil.qs_city event) = false
     \/ own_get CityCouncil.CITY_DATABASE (ToString (CityCouncil.qs_city event))
        = None) ->
    CityCouncil.handler Date_parse now now_iso rem1 api1 event
    = CityCouncil.handler Date_parse now now_iso rem2 api2 event
    /\ CityCouncil.statusCode
         (CityCouncil.handler Date_parse now now_iso rem1 api1 event)
       = (if truthy (CityCouncil.qs_city event) then 404 else 400).
Proof.
  intros Date_parse now now_iso rem1 rem2 api1 api2 event Hm Hc Hv Hcity.
  unfold CityCouncil.handler. rewrite Hm, Hc, Hv.
  destruct (truthy (CityCouncil.qs_city event)) eqn:Ht; cbn [negb].
  - destruct Hcity as [H|H]; [discriminate|]. rewrite H.
    destruct (truthy (Object_prototype_get _)); split; reflexivity.
  - split; reflexivity.
Qed.

Lemma members_despite_failures_witness :
  CityCouncil.statusCode
    (CityCouncil.handler CityCouncil.iso_date_time 1771849815000
       "2026-02-23T12:30:15.000Z" remaining_sample legistar_down
       (members_request "Mesa, AZ" "members")) = 200.
Proof.
  rewrite (members_despite_failures CityCouncil.iso_date_time 1771849815000
             "2026-02-23T12:30:15.000Z" remaining_sample legistar_down
             (members_request "Mesa, AZ" "members") "Mesa, AZ" _
             eq_refl eq_refl eq_refl (or_introl eq_refl)).
  reflexivity.
Defined.

Lemma votes_statuses_witness :
  CityCouncil.handler CityCouncil.iso_date_time 1771849815000
    "2026-02-23T12:30:15.000Z" remaining_sample legistar_down
    (members_request "Mesa, AZ" "votes")
  = {| CityCouncil.statusCode := 400;
       CityCouncil.body := CityCouncil.PersonIdRequired |}.
Proof.
  apply (proj1 (votes_statuses CityCouncil.iso_date_time 1771849815000
                  "2026-02-23T12:30:15.000Z" remaining_sample legistar_down
                  (members_request "Mesa, AZ" "votes") "Mesa, AZ" _
                  eq_refl eq_refl eq_refl eq_refl)).
  reflexivity.
Defined.

Lemma unknown_city_no_upstream_witness :
  CityCouncil.statusCode
    (CityCouncil.handler CityCouncil.iso_date_time 1771849815000
       "2026-02-23T12:30:15.000Z" remaining_sample legistar_down
       (members_request "Tucson, AZ" "members")) = 404.
Proof.
  exact (proj2 (unknown_city_no_upstream CityCouncil.iso_date_time
                  1771849815000 "2026-02-23T12:30:15.000Z" remaining_sample
                  remaining_sample legistar_down legistar_sample
                  (members_request "Tucson, AZ" "members")
                  eq_refl eq_refl eq_refl (or_intror eq_refl))).
Defined.


(* ================================================================== *)
(** * Legislation, meetings, matter detail and agenda *)


Lemma of_Z_nonempty (z : Z) : nonempty (of_Z z) = true.
Proof.
  assert (Huint : forall p, nonempty (NilEmpty.string_of_uint (Pos.to_uint p))
                            = true).
  { intros p. pose proof (Unsigned.to_uint_nonnil p) as Hp.
    destruct (Pos.to_uint p); try reflexivity. congruence. }
  unfold of_Z. destruct z; cbn [Z.to_int NilEmpty.string_of_int];
    [reflexivity | apply Huint | reflexivity].
Qed.


Lemma onEntries_Ok {Row B : Type} (f : Row -> result B)
      (entries : list (option Row)) (ys : list B) :
  Listing.mapM (CityBranches.onEntry f) entries = Ok ys ->
  exists rows, entries = map Some rows /\ Listing.mapM f rows = Ok ys.
Proof.
  revert ys. induction entries as [|entry entries IH]; intros ys.
  - cbn [Listing.mapM]. intros [= <-]. exists []. split; reflexivity.
  - cbn [Listing.mapM].
    destruct entry as [row|]; cbn [CityBranches.onEntry bind];
      [|discriminate].
    destruct (f row) as [y|e] eqn:Hrow; cbn [bind]; [|discriminate].
    destruct (Listing.mapM (CityBranches.onEntry f) entries) as [zs|e];
      cbn [bind]; [|discriminate].
    intros [= <-]. destruct (IH zs eq_refl) as (rows & -> & Hrows).
    exists (row :: rows). split; [reflexivity|].
    cbn [Listing.mapM]. rewrite Hrow, Hrows. reflexivity.
Qed.

Lemma onEntries_of_rows {Row B : Type} (f : Row -> result B)
      (rows : list Row) :
  Listing.mapM (CityBranches.onEntry f) (map Some rows)
  = Listing.mapM f rows.
Proof.
  induction rows as [|row rows IH];
    cbn [map Listing.mapM CityBranches.onEntry]; [reflexivity|].
  rewrite IH. reflexivity.
Qed.

(** [reply.map] returns exactly on an array without [null] entries on
    whose rows the callback returns. *)
Lemma mapRows_Ok {Row B : Type} (f : Row -> result B)
      (reply : CityBranches.Reply Row) (ys : list B) :
  CityBranches.mapRows f reply = Ok ys
  <-> exists rows,
        reply = CityBranches.Rows (map Some rows)
        /\ Listing.mapM f rows = Ok ys.
Proof.
  split.
  - destruct reply as [entries| |zero]; cbn [CityBranches.mapRows];
      try discriminate.
    intros H. destruct (onEntries_Ok _ _ _ H) as (rows & -> & Hrows).
    exists rows. split; [reflexivity | exact Hrows].
  - intros (rows & -> & Hrows). cbn [CityBranches.mapRows].
    rewrite onEntries_of_rows. exact Hrows.
Qed.

Lemma map_Some_inj {A : Type} (l l' : list A) :
  map Some l = map Some l' -> l = l'.
Proof.
  revert l'. induction l as [|x l IH]; intros [|x' l']; cbn [map];
    try discriminate; [reflexivity|].
  intros [= -> H]. f_equal. auto.
Qed.

Lemma mapM_total {A B : Type} (g : A -> B) (l : list A) :
  Listing.mapM (fun x => Ok (g x)) l = Ok (map g l).
Proof.
  induction l as [|x l IH]; cbn [Listing.mapM map bind]; [reflexivity|].
  rewrite IH. reflexivity.
Qed.

(** For a callback that cannot throw. *)
Lemma mapRows_total {Row B : Type} (g : Row -> B)
      (reply : CityBranches.Reply Row) (ys : list B) :
  CityBranches.mapRows (fun row => Ok (g row)) reply = Ok ys
  <-> exists rows,
        reply = CityBranches.Rows (map Some rows) /\ ys = map g rows.
Proof.
  rewrite mapRows_Ok. split; intros (rows & Hreply & H); exists rows;
    (split; [exact Hreply|]); rewrite mapM_total in *; congruence.
Qed.



Lemma nothing_rows {Row : Type} (reply : CityBranches.Reply Row) :
  reply = CityBranches.Rows [] -> CityBranches.nothing reply = true.
Proof. intros ->. reflexivity. Qed.





(** X25: the meetings endpoint answers exactly when what the three
    events queries leave is an array without [null] entries, and then
    with status 200, one meeting per event in order and [totalMeetings]
    their number; otherwise it throws and the handler answers 500.  When
    every query fails or comes back empty the answer is 200 with no
    meeting. *)
Theorem meetings_answer :
  forall (api : CityBranches.Legistar) (recentDate futureDate : string)
         (matterId eventId : jsval) (city client : string) (type : jsval),
    is_string type "events" = true \/ is_string type "meetings" = true ->
    let first := CityBranches.fetch_Events_from api client futureDate in
    let second := CityBranches.fetch_Events_desc api client in
    let third := CityBranches.fetch_Events_top20 api client in
    let events := CityBranches.threeTries first second third in
    let answer :=
      CityBranches.branches api recentDate futureDate matterId eventId
        city client type in
    (forall r,
       answer = Ok r
       <-> exists rows,
             events = CityBranches.Rows (map Some rows)
             /\ r = {| CityBranches.statusCode := 200;
                       CityBranches.body :=
                         CityBranches.MeetingsBody city
                           (map CityBranches.meeting rows)
                           (Z.of_nat (List.length rows))
                           (CityCouncil.portalUrl client) |})
    /\ ((forall reply, first = Ok reply -> reply = CityBranches.Rows []) ->
        (forall reply, second = Ok reply -> reply = CityBranches.Rows []) ->
        (forall reply, third = Ok reply -> reply = CityBranches.Rows []) ->
        answer
        = Ok {| CityBranches.statusCode := 200;
                CityBranches.body :=
                  CityBranches.MeetingsBody city [] 0
                    (CityCouncil.portalUrl client) |}).
Proof.
  intros api recentDate futureDate matterId eventId city client type Htype
         first second third events answer.
  assert (Hnot : is_string type "matters" || is_string type "legislation"
                 = false).
  { destruct Htype as [H|H].
    - rewrite (is_string_exclusive _ "events" "matters" H) by discriminate.
      rewrite (is_string_exclusive _ "events" "legislation" H)
        by discriminate.
      reflexivity.
    - rewrite (is_string_exclusive _ "meetings" "matters" H) by discriminate.
      rewrite (is_string_exclusive _ "meetings" "legislation" H)
        by discriminate.
      reflexivity. }
  assert (Hor : is_string type "events" || is_string type "meetings" = true)
    by (destruct Htype as [H|H]; rewrite H; auto using orb_true_r).
  assert (Hanswer :
            answer
            = (meetings <- CityBranches.mapRows
                             (fun e => Ok (CityBranches.meeting e)) events ;;
               Ok {| CityBranches.statusCode := 200;
                     CityBranches.body :=
                       CityBranches.MeetingsBody city meetings
                         (Z.of_nat (List.length meetings))
                         (CityCouncil.portalUrl client) |})%js).
  { unfold answer, CityBranches.branches. rewrite Hnot, Hor. reflexivity. }
  split.
  - intros r. rewrite Hanswer.
    destruct (CityBranches.mapRows _ events) as [meetings|e] eqn:Hmap;
      cbn [bind].
    + apply mapRows_total in Hmap. destruct Hmap as (rows & Hrows & ->).
      rewrite length_map. split.
      * intros [= <-]. exists rows. split; [exact Hrows | reflexivity].
      * intros (rows' & Hrows' & ->). rewrite Hrows in Hrows'.
        injection Hrows' as Hrows'. apply map_Some_inj in Hrows'.
        rewrite Hrows'. reflexivity.
    + split; [discriminate|]. intros (rows & Hrows & _).
      assert (Hok : CityBranches.mapRows
                      (fun e => Ok (CityBranches.meeting e)) events
                    = Ok (map CityBranches.meeting rows))
        by (apply mapRows_total; eauto).
      congruence.
  - intros H1 H2 H3.
    assert (Hall : events = CityBranches.Rows []).
    { unfold events, CityBranches.threeTries.
      assert (E1 : try_catch first
                     (fun _ => CityBranches.Rows (Row:=CityBranches.EventRow) [])
                   = CityBranches.Rows []).
      { destruct first as [reply|e]; cbn [try_catch];
          [apply H1|]; reflexivity. }
      rewrite E1. cbn [CityBranches.nothing].
      assert (E2 : try_catch second
                     (fun _ => CityBranches.Rows (Row:=CityBranches.EventRow) [])
                   = CityBranches.Rows []).
      { destruct second as [reply|e]; cbn [try_catch];
          [apply H2|]; reflexivity. }
      rewrite E2. cbn [CityBranches.nothing].
      destruct third as [reply|e]; cbn [try_catch]; [apply H3|];
        reflexivity. }
    rewrite Hanswer, Hall. reflexivity.
Qed.

Lemma meetings_answer_witness :
  CityBranches.branches events_sample "2025-08-23" "2026-02-23"
    JUndefined JUndefined "Mesa, AZ" "mesa" (JStr "meetings")
  = Ok {| CityBranches.statusCode := 200;
          CityBranches.body :=
            CityBranches.MeetingsBody "Mesa, AZ"
              (map CityBranches.meeting [event_row 31; event_row 30]) 2
              "https://mesa.legistar.com" |}.
Proof.
  apply (proj1 (meetings_answer events_sample "2025-08-23" "2026-02-23"
                  JUndefined JUndefined "Mesa, AZ" "mesa" (JStr "meetings")
                  (or_intror eq_refl))).
  exists [event_row 31; event_row 30]. split; reflexivity.
Defined.

(** X26: the agenda endpoint.  Without an event id it answers 400,
    whatever the upstream.  With one, it throws the failure of the items
    request when that request fails (the handler answers 500), and it
    answers exactly when the reply is an array without [null] entries,
    then with status 200, one agenda item per row in order and
    [totalItems] their number. *)
Theorem agenda_answer :
  forall (api : CityBranches.Legistar) (recentDate futureDate : string)
         (matterId eventId : jsval) (city client : string) (type : jsval),
    is_string type "agenda" = true ->
    let id := ToString eventId in
    let answer :=
      CityBranches.branches api recentDate futureDate matterId eventId
        city client type in
    (truthy eventId = false ->
     answer = Ok {| CityBranches.statusCode := 400;
                    CityBranches.body := CityBranches.EventIdRequired |})
    /\ (truthy eventId = true ->
        (forall e,
           CityBranches.fetch_EventItems api client id = Throw e ->
           answer = Throw e)
        /\ (forall r,
              answer = Ok r
              <-> exists rows,
                    CityBranches.fetch_EventItems api client id
                    = Ok (CityBranches.Rows (map Some rows))
                    /\ r = {| CityBranches.statusCode := 200;
                              CityBranches.body :=
                                CityBranches.AgendaBody city id
                                  (map CityBranches.agendaItem rows)
                                  (Z.of_nat (List.length rows))
                                  (CityCouncil.portalUrl client) |})).
Proof.
  intros api recentDate futureDate matterId eventId city client type Htype
         id answer.
  assert (Hanswer :
            answer
            = if negb (truthy eventId)
              then Ok {| CityBranches.statusCode := 400;
                         CityBranches.body := CityBranches.EventIdRequired |}
              else
                (items <- CityBranches.fetch_EventItems api client id ;;
                 agendaItems <- CityBranches.mapRows
                                  (fun item => Ok (CityBranches.agendaItem item))
                                  items ;;
                 Ok {| CityBranches.statusCode := 200;
                       CityBranches.body :=
                         CityBranches.AgendaBody city id agendaItems
                           (Z.of_nat (List.length agendaItems))
                           (CityCouncil.portalUrl client) |})%js).
  { unfold answer, CityBranches.branches.
    rewrite (is_string_exclusive _ "agenda" "matters" Htype) by discriminate.
    rewrite (is_string_exclusive _ "agenda" "legislation" Htype)
      by discriminate.
    rewrite (is_string_exclusive _ "agenda" "events" Htype) by discriminate.
    rewrite (is_string_exclusive _ "agenda" "meetings" Htype)
      by discriminate.
    rewrite (is_string_exclusive _ "agenda" "matter-detail" Htype)
      by discriminate.
    rewrite Htype. reflexivity. }
  rewrite Hanswer. clear Hanswer answer.
  split; [intros ->; reflexivity|].
  intros ->. cbn [negb]. split; [intros e ->; reflexivity|].
  intros r.
  destruct (CityBranches.fetch_EventItems api client id) as [reply|e];
    cbn [bind].
  - destruct (CityBranches.mapRows _ reply) as [items|e] eqn:Hmap;
      cbn [bind].
    + apply mapRows_total in Hmap. destruct Hmap as (rows & -> & ->).
      rewrite length_map. split.
      * intros [= <-]. exists rows. split; reflexivity.
      * intros (rows' & [= Hrows'] & ->). apply map_Some_inj in Hrows'.
        rewrite Hrows'. reflexivity.
    + split; [discriminate|]. intros (rows & [= ->] & _).
      assert (Hok : CityBranches.mapRows
                      (fun item => Ok (CityBranches.agendaItem item))
                      (CityBranches.Rows (map Some rows))
                    = Ok (map CityBranches.agendaItem rows))
        by (apply mapRows_total; eauto).
      congruence.
  - split; [discriminate|]. intros (rows & H & _). discriminate.
Qed.

Lemma agenda_answer_witness :
  CityBranches.branches events_sample "2025-08-23" "2026-02-23"
    JUndefined JUndefined "Mesa, AZ" "mesa" (JStr "agenda")
  = Ok {| CityBranches.statusCode := 400;
          CityBranches.body := CityBranches.EventIdRequired |}
  /\ forall r,
       CityBranches.branches events_sample "2025-08-23" "2026-02-23"
         JUndefined (JNum 31) "Mesa, AZ" "mesa" (JStr "agenda")
       <> Ok r.
Proof.
  split.
  - exact (proj1 (agenda_answer events_sample "2025-08-23" "2026-02-23"
                    JUndefined JUndefined "Mesa, AZ" "mesa" (JStr "agenda")
                    eq_refl) eq_refl).
  - intros r Hr.
    destruct (proj2 (agenda_answer events_sample "2025-08-23" "2026-02-23"
                       JUndefined (JNum 31) "Mesa, AZ" "mesa" (JStr "agenda")
                       eq_refl) eq_refl) as (_ & Hiff).
    apply Hiff in Hr. destruct Hr as (rows & Hrows & _).
    injection Hrows as Hrows. destruct rows; discriminate.
Defined.

Lemma branches_status (api : CityBranches.Legistar)
      (recentDate futureDate : string) (matterId eventId : jsval)
      (city client : string) (type : jsval) (r : CityBranches.Response) :
  CityBranches.branches api recentDate futureDate matterId eventId
    city client type = Ok r ->
  CityBranches.statusCode r = 200 \/ CityBranches.statusCode r = 400.
Proof.
  unfold CityBranches.branches.
  destruct (is_string type "matters" || is_string type "legislation").
  { destruct (CityBranches.mapRows _ _); cbn [bind];
      [intros [= <-]; left; reflexivity | discriminate]. }
  destruct (is_string type "events" || is_string type "meetings").
  { destruct (CityBranches.mapRows _ _); cbn [bind];
      [intros [= <-]; left; reflexivity | discriminate]. }
  destruct (is_string type "matter-detail").
  { destruct (truthy matterId); cbn [negb];
      [|intros [= <-]; right; reflexivity].
    destruct (CityBranches.fetch_Matter _ _ _); cbn [bind]; [|discriminate].
    destruct (CityBranches.onEntry _ _); cbn [bind]; [|discriminate].
    destruct (CityBranches.mapRows _ _); cbn [bind]; [|discriminate].
    destruct (CityBranches.mapRows _ _); cbn [bind]; [|discriminate].
    intros [= <-]; left; reflexivity. }
  destruct (is_string type "agenda").
  { destruct (truthy eventId); cbn [negb];
      [|intros [= <-]; right; reflexivity].
    destruct (CityBranches.fetch_EventItems _ _ _); cbn [bind];
      [|discriminate].
    destruct (CityBranches.mapRows _ _); cbn [bind]; [|discriminate].
    intros [= <-]; left; reflexivity. }
  intros [= <-]. right. reflexivity.
Qed.

(** X23: with all its branches, the city-council handler only ever
    answers with status 200, 400, 404 or 500, whatever the request and
    whatever the upstream does. *)
Theorem city_handler_statuses :
  forall (Date_parse : string -> option Z) (now : Z) (now_iso : string)
         (api : CityCouncil.Legistar) (more : CityBranches.Legistar)
         (recentDate futureDate : string) (matterId eventId : jsval)
         (event : CityCouncil.Event),
    In (CityCouncil.statusCode
          (CityCouncil.handler Date_parse now now_iso
             (CityBranches.remaining more recentDate futureDate
                matterId eventId)
             api event))
       [200; 400; 404; 500].
Proof.
  intros Date_parse now now_iso api more recentDate futureDate
         matterId eventId event.
  unfold CityCouncil.handler.
  destruct (is_string (CityCouncil.httpMethod event) "OPTIONS");
    [cbn; tauto|].
  destruct (is_string (CityCouncil.qs_type event) "cities"); [cbn; tauto|].
  destruct (is_string (CityCouncil.qs_type event) "verify").
  { destruct (truthy (CityCouncil.qs_client event)); cbn [negb];
      [|cbn; tauto].
    rewrite verifyResponse_200. cbn. tauto. }
  destruct (truthy (CityCouncil.qs_city event)); cbn [negb]; [|cbn; tauto].
  destruct (own_get CityCouncil.CITY_DATABASE _) as [info|].
  2:{ destruct (truthy (Object_prototype_get _)); cbn; tauto. }
  destruct (CityCouncil.verified info); cbn [negb]; [|cbn; tauto].
  unfold CityCouncil.cityBranches.
  destruct (is_string (CityCouncil.qs_type event) "persons"
            || is_string (CityCouncil.qs_type event) "members").
  { destruct (CityCouncil.members _ _ _ _); cbn; tauto. }
  destruct (is_string (CityCouncil.qs_type event) "votes").
  { destruct (truthy (CityCouncil.qs_personId event)); cbn [negb];
      [|cbn; tauto].
    destruct (CityCouncil.fetch_Votes _ _ _); cbn; tauto. }
  unfold CityBranches.remaining.
  destruct (CityBranches.branches _ _ _ _ _ _ _ _) as [r|e] eqn:Hr;
    cbn [bind try_catch CityCouncil.statusCode]; [|cbn; tauto].
  destruct (branches_status _ _ _ _ _ _ _ _ _ Hr) as [-> | ->]; cbn; tauto.
Qed.

(* ================================================================== *)
(** * The detail endpoint and the listing *)

Lemma filter_chars_nonempty (f : ascii -> bool) (s : string) :
  nonempty (filter_chars f s) = true -> nonempty s = true.
Proof. destruct s; [discriminate | reflexivity]. Qed.

(** X24: the detail endpoint and the listing link to the same page.  For
    a bill of the listing with a positive congress number, a type code of
    the table in any case and a truthy number with a digit, the detail
    request made of the bill's congress, type and number is accepted and
    its [publicUrl] is the URL [buildPublicUrl] gives for the bill. *)
Theorem detail_url_matches_listing :
  forall (apiKey : jsval) (bill : GetBills.Bill) (c : Z)
         (type slug : string),
    truthy apiKey = true ->
    GetBills.bill_congress bill = JNum c ->
    0 < c ->
    GetBills.bill_type bill = JStr type ->
    own_get GetBills.TYPE_MAP (toLowerCase type) = Some slug ->
    truthy (GetBills.bill_number bill) = true ->
    nonempty (GetBills.digits_of (GetBills.bill_number bill)) = true ->
    exists named,
      BillDetail.guard apiKey
        {| BillDetail.qs_congress := JStr (of_Z c);
           BillDetail.qs_type := JStr type;
           BillDetail.qs_number :=
             JStr (ToString (GetBills.bill_number bill)) |}
      = Ok (BillDetail.Proceed named)
      /\ GetBills.buildPublicUrl bill = Ok (BillDetail.publicUrl named).
Proof.
  intros apiKey bill c type slug Hkey Hc Hpos Ht Hget Hn Hd.
  assert (Htype : nonempty type = true)
    by (destruct type; [discriminate Hget | reflexivity]).
  assert (Hlow : nonempty (toLowerCase type) = true)
    by (destruct type; [discriminate | reflexivity]).
  assert (Hnum : nonempty (ToString (GetBills.bill_number bill)) = true)
    by (exact (filter_chars_nonempty _ _ Hd)).
  assert (Hcongress : truthy (GetBills.bill_congress bill) = true).
  { rewrite Hc. cbn [truthy]. apply negb_true_iff, Z.eqb_neq. lia. }
  eexists. split.
  - unfold BillDetail.guard, or_else.
    cbn [BillDetail.qs_congress BillDetail.qs_type BillDetail.qs_number
           truthy].
    rewrite Hkey, Htype, Hnum, (of_Z_nonempty c).
    cbn [negb call_toLowerCase bind]. rewrite Hlow. cbn [negb orb truthy].
    rewrite Hnum. reflexivity.
  - rewrite (buildPublicUrl_primary bill type slug Hcongress Ht Hget Hn Hd).
    unfold BillDetail.publicUrl, obj_get, or_else.
    cbn [BillDetail.congress BillDetail.type BillDetail.number].
    rewrite Hget. destruct (slug_plain _ _ Hget) as (_ & _ & Hne).
    cbn [truthy ToString]. rewrite Hne.
    rewrite Hc, (ordinalSuffix_numeric_string c) by lia.
    reflexivity.
Qed.

Lemma detail_url_matches_listing_witness :
  exists named,
    BillDetail.guard (JStr "key")
      {| BillDetail.qs_congress := JStr "119";
         BillDetail.qs_type := JStr "HR";
         BillDetail.qs_number := JStr "H.R.187" |}
    = Ok (BillDetail.Proceed named)
    /\ BillDetail.publicUrl named
       = "https://www.congress.gov/bill/119th-congress/house-bill/187".
Proof.
  destruct (detail_url_matches_listing (JStr "key")
              {| GetBills.bill_congress := JNum 119;
                 GetBills.bill_type := JStr "HR";
                 GetBills.bill_number := JStr "H.R.187";
                 GetBills.bill_url := JUndefined;
                 GetBills.bill_apiUrl := JUndefined |}
              119 "HR" "house-bill" eq_refl eq_refl eq_refl eq_refl
              eq_refl eq_refl eq_refl)
    as (named & Hguard & Hurl).
  exists named. split; [exact Hguard|].
  change (GetBills.buildPublicUrl _)
    with (@Ok string
            "https://www.congress.gov/bill/119th-congress/house-bill/187")
    in Hurl.
  congruence.
Defined.
